(** * VNDB.py: a shallow embedding of the VNDB API client

    The development follows the layout of [VNDB.py]:
    - byte strings and the text operations the client uses
      ([split], [join], [strip], [replace], [lower]);
    - JSON values as produced by [json.loads], with [json.dumps];
    - class [VNDB]: socket, framing ([sendCommand], [getRawResponse],
      [getResponse]) and the cached [get];
    - class [VNDBClient]: the paginated [get] and the searches built on it;
    - a reference environment and scripted peers, on which the definitions
      are run;
    - the notions of the specification, then the lemmas and theorems.

    Conventions.
    - A Python [str] is represented by its UTF-8 byte string, so that
      [str.encode('utf8')] is the identity and [bytes.decode()] is a validity
      check; [str.lower()] is given on ASCII letters.
    - JSON numbers are integers: the client does arithmetic only on page
      numbers and counts.  Values of [time.time()] are rationals.
    - The library functions [json.loads], [re.match] and [repr], the peer at
      the other end of the socket and the clock are gathered in a record
      [Env]; every definition and theorem is parametric in it.
    - A method is a function from the state of its object to an outcome and
      a new state.  [self.sock.send] hands over the whole frame.  The two
      unbounded loops take a bound: the receive loop one that the reads
      waiting in the socket cannot exceed, the page loop a parameter [fuel].
    - Values are immutable.  In Python the entries a search returns are the
      objects the cache holds, so that the fields [search_release] and
      [full_search] write show up in later cache hits; here the cache keeps
      each response as it was decoded.
    - [assert] is taken as enabled.  Logging, [titles], [title] and [main]
      format text for display and are left out. *)

From Stdlib Require Import String Ascii List ZArith QArith Bool Lia.
From Stdlib Require Import Decimal DecimalString.
Import ListNotations.

#[local] Close Scope Q_scope.
#[local] Open Scope list_scope.
#[local] Open Scope string_scope.

(* ===================================================================== *)
(** * Bytes and text *)
(* ===================================================================== *)

(** The frame delimiter [b'\x04'], the space and the double quote. *)
Definition EOT : ascii := "004"%char.
Definition SP : ascii := " "%char.
Definition DQ : ascii := "034"%char.
Definition BSL : ascii := "\"%char.

Definition str1 (c : ascii) : string := String c EmptyString.

(** [b'\x04' in whole] *)
Fixpoint contains (d : ascii) (s : string) : bool :=
  match s with
  | EmptyString => false
  | String c r => Ascii.eqb c d || contains d r
  end.

(** [whole.replace(b'\x04', b'')]: every occurrence is removed. *)
Fixpoint remove_all (d : ascii) (s : string) : string :=
  match s with
  | EmptyString => EmptyString
  | String c r => if Ascii.eqb c d then remove_all d r
                  else String c (remove_all d r)
  end.

(** ASCII whitespace, the set [bytes.strip()] removes:
    space, [\t], [\n], [\x0b], [\x0c], [\r]. *)
Definition is_space (c : ascii) : bool :=
  let n := nat_of_ascii c in
  Nat.eqb n 32 || (Nat.leb 9 n && Nat.leb n 13).

Fixpoint lstrip (s : string) : string :=
  match s with
  | EmptyString => EmptyString
  | String c r => if is_space c then lstrip r else s
  end.

Fixpoint rstrip (s : string) : string :=
  match s with
  | EmptyString => EmptyString
  | String c r =>
      match rstrip r with
      | EmptyString => if is_space c then EmptyString else str1 c
      | r' => String c r'
      end
  end.

(** [bytes.strip()] *)
Definition strip (s : string) : string := lstrip (rstrip s).

(** [s.split(sep)] for a one-character separator: never the empty list,
    consecutive separators give empty fields. *)
Fixpoint split (sep : ascii) (s : string) : list string :=
  match s with
  | EmptyString => [EmptyString]
  | String c r =>
      if Ascii.eqb c sep then EmptyString :: split sep r
      else match split sep r with
           | h :: t => String c h :: t
           | [] => [str1 c]
           end
  end.

(** [sep.join(l)] *)
Fixpoint join (sep : string) (l : list string) : string :=
  match l with
  | [] => EmptyString
  | [x] => x
  | x :: t => x ++ sep ++ join sep t
  end.

(** [str.lower()] on ASCII letters; other bytes are left alone. *)
Definition lower_char (c : ascii) : ascii :=
  let n := nat_of_ascii c in
  if Nat.leb 65 n && Nat.leb n 90 then ascii_of_nat (n + 32) else c.

Fixpoint lower (s : string) : string :=
  match s with
  | EmptyString => EmptyString
  | String c r => String (lower_char c) (lower r)
  end.

(** [res.find(p) == 0] *)
Definition startswith (p s : string) : bool := String.prefix p s.

(** ** UTF-8 *)

Definition byte (c : ascii) : N := N_of_ascii c.

Definition in_range (lo hi : N) (c : ascii) : bool :=
  (lo <=? byte c)%N && (byte c <=? hi)%N.

Definition is_cont (c : ascii) : bool := in_range 128 191 c.

(** Well-formed UTF-8, as the strict decoder of [bytes.decode()] accepts it:
    no overlong forms, no surrogates, nothing above U+10FFFF. *)
Fixpoint utf8_valid (s : string) : bool :=
  match s with
  | EmptyString => true
  | String c r =>
      if (byte c <? 128)%N then utf8_valid r
      else if in_range 194 223 c then
        match r with
        | String c1 r1 => is_cont c1 && utf8_valid r1
        | _ => false
        end
      else if in_range 224 239 c then
        match r with
        | String c1 (String c2 r2) =>
            (if (byte c =? 224)%N then in_range 160 191 c1
             else if (byte c =? 237)%N then in_range 128 159 c1
             else is_cont c1)
            && is_cont c2 && utf8_valid r2
        | _ => false
        end
      else if in_range 240 244 c then
        match r with
        | String c1 (String c2 (String c3 r3)) =>
            (if (byte c =? 240)%N then in_range 144 191 c1
             else if (byte c =? 244)%N then in_range 128 143 c1
             else is_cont c1)
            && is_cont c2 && is_cont c3 && utf8_valid r3
        | _ => false
        end
      else false
  end.

(** The characters (code points) of a text, each as a one-character text:
    what iterating over a [str] yields. *)
Fixpoint chars_from (cur : string) (s : string) : list string :=
  match s with
  | EmptyString => match cur with EmptyString => [] | _ => [cur] end
  | String c r =>
      if is_cont c then chars_from (cur ++ str1 c) r
      else match cur with
           | EmptyString => chars_from (str1 c) r
           | _ => cur :: chars_from (str1 c) r
           end
  end.

Definition chars (s : string) : list string := chars_from EmptyString s.

(** Printable ASCII: [' '] to ['~']. *)
Fixpoint printable (s : string) : bool :=
  match s with
  | EmptyString => true
  | String c r => in_range 32 126 c && printable r
  end.

(** The bytes of a sequence of reads. *)
Definition cat (l : list string) : string := fold_right append EmptyString l.

Fixpoint all_chars (p : ascii -> bool) (s : string) : bool :=
  match s with
  | EmptyString => true
  | String c r => p c && all_chars p r
  end.

(** A command name as the protocol has them: not empty, of visible ASCII
    characters, none of them an uppercase letter. *)
Definition name_char (c : ascii) : bool :=
  in_range 33 126 c && negb (in_range 65 90 c).

Definition command_name (s : string) : bool :=
  negb (String.eqb s EmptyString) && all_chars name_char s.

(* ===================================================================== *)
(** * JSON values *)
(* ===================================================================== *)

(** The Python values [json.loads] returns: [None], [bool], [int], [str],
    [list], and [dict] as an association list in insertion order. *)
#[local] Unset Elimination Schemes.
Inductive json : Type :=
| JNull
| JBool (b : bool)
| JNum (z : Z)
| JStr (s : string)
| JArr (l : list json)
| JObj (kv : list (string * json)).
#[local] Set Elimination Schemes.

Definition dict : Type := list (string * json).

(** [d.get(k)], [None] when the key is absent. *)
Fixpoint dict_get (k : string) (d : dict) : option json :=
  match d with
  | [] => None
  | (k', v) :: r => if String.eqb k' k then Some v else dict_get k r
  end.

(** [d[k] = v]: an existing key keeps its place, a new one goes last. *)
Fixpoint dict_set (k : string) (v : json) (d : dict) : dict :=
  match d with
  | [] => [(k, v)]
  | (k', v') :: r =>
      if String.eqb k' k then (k', v) :: r else (k', v') :: dict_set k v r
  end.

(** [d.setdefault(k, v)] *)
Definition dict_setdefault (k : string) (v : json) (d : dict) : dict :=
  match dict_get k d with
  | Some _ => d
  | None => dict_set k v d
  end.

(** Truth value of a Python object. *)
Definition truthy (v : json) : bool :=
  match v with
  | JNull => false
  | JBool b => b
  | JNum z => negb (z =? 0)%Z
  | JStr s => negb (String.eqb s EmptyString)
  | JArr l => match l with [] => false | _ => true end
  | JObj d => match d with [] => false | _ => true end
  end.

(** [isinstance(v, int)]; [bool] is a subclass of [int]. *)
Definition is_int (v : json) : bool :=
  match v with
  | JNum _ | JBool _ => true
  | _ => false
  end.

(** ** [json.dumps] with its default options *)

Definition dec (z : Z) : string := NilZero.string_of_int (Z.to_int z).

Definition hex_digit (n : N) : ascii :=
  if (n <? 10)%N then ascii_of_N (48 + n) else ascii_of_N (87 + n).

(** [\uXXXX] *)
Definition u_escape (cp : N) : string :=
  String BSL (String "u" (String (hex_digit ((cp / 4096) mod 16))
    (String (hex_digit ((cp / 256) mod 16))
      (String (hex_digit ((cp / 16) mod 16))
        (String (hex_digit (cp mod 16)) EmptyString))))).

(** A code point outside ASCII: one escape in the basic plane, a surrogate
    pair above it. *)
Definition esc_cp (cp : N) : string :=
  if (cp <? 65536)%N then u_escape cp
  else let v := (cp - 65536)%N in
       u_escape (55296 + (v / 1024) mod 1024) ++ u_escape (56320 + v mod 1024).

(** An ASCII character: printable ones stand for themselves, except the
    quote and the backslash. *)
Definition esc_ascii (c : ascii) : string :=
  let n := byte c in
  if (n =? 34)%N then String BSL (str1 DQ)
  else if (n =? 92)%N then String BSL (str1 BSL)
  else if (n =? 10)%N then String BSL "n"
  else if (n =? 13)%N then String BSL "r"
  else if (n =? 9)%N then String BSL "t"
  else if (n =? 8)%N then String BSL "b"
  else if (n =? 12)%N then String BSL "f"
  else if (n <? 32)%N || (n =? 127)%N then u_escape n
  else str1 c.

Definition low6 (c : ascii) : N := (byte c mod 64)%N.

(** The body of a string literal ([ensure_ascii=True]).  A byte that does not
    start a UTF-8 sequence of the right length (no [str] is represented so)
    is escaped by its own value. *)
Fixpoint esc_body (s : string) : string :=
  match s with
  | EmptyString => EmptyString
  | String c r =>
      if (byte c <? 128)%N then esc_ascii c ++ esc_body r
      else
        match r with
        | String c1 r1 =>
            if in_range 192 223 c then
              esc_cp ((byte c mod 32) * 64 + low6 c1) ++ esc_body r1
            else
              match r1 with
              | String c2 r2 =>
                  if in_range 224 239 c then
                    esc_cp ((byte c mod 16) * 4096 + low6 c1 * 64 + low6 c2)
                      ++ esc_body r2
                  else
                    match r2 with
                    | String c3 r3 =>
                        if in_range 240 247 c then
                          esc_cp ((byte c mod 8) * 262144 + low6 c1 * 4096
                                  + low6 c2 * 64 + low6 c3) ++ esc_body r3
                        else u_escape (byte c) ++ esc_body r
                    | _ => u_escape (byte c) ++ esc_body r
                    end
              | _ => u_escape (byte c) ++ esc_body r
              end
        | _ => u_escape (byte c) ++ esc_body r
        end
  end.

Definition quote (s : string) : string :=
  String DQ (esc_body s ++ str1 DQ).

Fixpoint json_dumps (v : json) : string :=
  match v with
  | JNull => "null"
  | JBool true => "true"
  | JBool false => "false"
  | JNum z => dec z
  | JStr s => quote s
  | JArr l => "[" ++ join ", " (map json_dumps l) ++ "]"
  | JObj d =>
      "{" ++ join ", " (map (fun kv => quote (fst kv) ++ ": " ++ json_dumps (snd kv)) d)
          ++ "}"
  end.

(** Induction on a JSON value, with the hypothesis for the elements of a
    list and the values of a mapping. *)
Section JsonInduction.

Variable P : json -> Prop.
Hypothesis P_null : P JNull.
Hypothesis P_bool : forall b, P (JBool b).
Hypothesis P_num : forall z, P (JNum z).
Hypothesis P_str : forall s, P (JStr s).
Hypothesis P_arr : forall l, Forall P l -> P (JArr l).
Hypothesis P_obj : forall d, Forall (fun kv => P (snd kv)) d -> P (JObj d).

Fixpoint json_induction (v : json) : P v :=
  match v with
  | JNull => P_null
  | JBool b => P_bool b
  | JNum z => P_num z
  | JStr s => P_str s
  | JArr l =>
      P_arr l ((fix all (l : list json) : Forall P l :=
                  match l with
                  | [] => Forall_nil _
                  | x :: r => Forall_cons x (json_induction x) (all r)
                  end) l)
  | JObj d =>
      P_obj d ((fix all (d : dict) : Forall (fun kv => P (snd kv)) d :=
                  match d with
                  | [] => Forall_nil _
                  | kv :: r => Forall_cons kv (json_induction (snd kv)) (all r)
                  end) d)
  end.

End JsonInduction.

(* ===================================================================== *)
(** * Exceptions, outcomes and the state monad *)
(* ===================================================================== *)

(** [vndbException] carries its argument; the others are the built-in
    exceptions the client can run into. *)
Inductive exn : Type :=
| vndbException (arg : json)
| KeyError (key : string)
| IndexError
| TypeError
| AttributeError
| UnboundLocalError (name : string)
| JSONDecodeError
| UnicodeDecodeError
| AssertionError.

(** How a call ends: it returns, it raises, it waits for ever on a socket
    that delivers nothing more, or the bound on loop iterations given to the
    model is used up. *)
Inductive outcome (A : Type) : Type :=
| Ok (a : A)
| Raise (e : exn)
| Blocked
| OutOfFuel.

Arguments Ok {A} a.
Arguments Raise {A} e.
Arguments Blocked {A}.
Arguments OutOfFuel {A}.

Definition M (S A : Type) : Type := S -> outcome A * S.

Definition mreturn {S A} (a : A) : M S A := fun s => (Ok a, s).

Definition bind {S A B} (m : M S A) (k : A -> M S B) : M S B :=
  fun s =>
    match m s with
    | (Ok a, s') => k a s'
    | (Raise e, s') => (Raise e, s')
    | (Blocked, s') => (Blocked, s')
    | (OutOfFuel, s') => (OutOfFuel, s')
    end.

Definition raise {S A} (e : exn) : M S A := fun s => (Raise e, s).

(** A step that does not touch the state. *)
Definition pure {S A} (o : outcome A) : M S A := fun s => (o, s).

Declare Scope monad_scope.
Delimit Scope monad_scope with monad.
Notation "x <- m ;; k" := (bind m (fun x => k))
  (at level 61, m at next level, right associativity) : monad_scope.
Notation "m ;;; k" := (bind m (fun _ => k))
  (at level 61, right associativity) : monad_scope.
#[local] Open Scope monad_scope.

(** [v[k]] for a string key. *)
Definition subscript (v : json) (k : string) : outcome json :=
  match v with
  | JObj d => match dict_get k d with
              | Some x => Ok x
              | None => Raise (KeyError k)
              end
  | _ => Raise TypeError
  end.

(** [v[k] = x] for a string key. *)
Definition setitem (v : json) (k : string) (x : json) : outcome json :=
  match v with
  | JObj d => Ok (JObj (dict_set k x d))
  | _ => Raise TypeError
  end.

(** Reading a local variable that an [if] may have left unassigned. *)
Definition load_local {A} (name : string) (v : option A) : outcome A :=
  match v with
  | Some a => Ok a
  | None => Raise (UnboundLocalError name)
  end.

(** [v == s] for a string literal [s]. *)
Definition eq_str (v : json) (s : string) : bool :=
  match v with
  | JStr s' => String.eqb s' s
  | _ => false
  end.

(** [n + v] for an integer [n]: [bool] counts as [int]. *)
Definition int_add (n : Z) (v : json) : outcome Z :=
  match v with
  | JNum z => Ok (n + z)%Z
  | JBool b => Ok (n + (if b then 1 else 0))%Z
  | _ => Raise TypeError
  end.

(** [v + n] for an integer [n]. *)
Definition add_int (v : json) (n : Z) : outcome Z :=
  match v with
  | JNum z => Ok (z + n)%Z
  | JBool b => Ok ((if b then 1 else 0) + n)%Z
  | _ => Raise TypeError
  end.

(** [len(v)] *)
Definition py_len (v : json) : outcome Z :=
  match v with
  | JArr l => Ok (Z.of_nat (List.length l))
  | JObj d => Ok (Z.of_nat (List.length d))
  | JStr s => Ok (Z.of_nat (List.length (chars s)))
  | _ => Raise TypeError
  end.

(** The elements [for x in v] goes through. *)
Definition py_iter (v : json) : outcome (list json) :=
  match v with
  | JArr l => Ok l
  | JObj d => Ok (map (fun kv => JStr (fst kv)) d)
  | JStr s => Ok (map JStr (chars s))
  | _ => Raise TypeError
  end.

(** [l[:n]] *)
Definition slice_to (n : Z) (l : list json) : list json :=
  if (0 <=? n)%Z then firstn (Z.to_nat n) l
  else firstn (List.length l - Z.to_nat (- n)) l.

(* ===================================================================== *)
(** * The environment *)
(* ===================================================================== *)

(** What the client takes from outside:
    - [json_loads s] is [json.loads(s)], [None] for [JSONDecodeError];
    - [re_match p s] tells whether [re.match(p, s)] finds a match;
    - [py_repr v] is the text [format] inserts for a list or a dict;
    - [server hist] are the reads ([recv] results) the peer makes available
      in answer to the last frame of [hist], the frames sent so far;
    - [clock n] is the value of the [n]-th call of [time.time()]. *)
Record Env : Type := {
  json_loads : string -> option json;
  re_match : string -> string -> bool;
  py_repr : json -> string;
  server : list string -> list string;
  clock : nat -> Q
}.

Definition Qltb (x y : Q) : bool :=
  (Qnum x * QDen y <? Qnum y * QDen x)%Z.

(* ===================================================================== *)
(** * class VNDB *)
(* ===================================================================== *)

(** An entry of [self.cache['get']]. *)
Record cache_entry : Type := {
  e_time : Q;
  e_query : string;
  e_results : json
}.

(** The instance and the part of the world it acts on: the frames given to
    [sock.send], the reads [sock.recv] has still to return, the cache, its
    lifetime, and the number of clock readings made so far. *)
Record VNDB : Type := {
  sent : list string;
  inbox : list string;
  cache : list cache_entry;
  cachetime : Q;
  ticks : nat
}.

Definition set_sock (snt inb : list string) (self : VNDB) : VNDB :=
  {| sent := snt; inbox := inb; cache := cache self;
     cachetime := cachetime self; ticks := ticks self |}.

Definition set_inbox (inb : list string) (self : VNDB) : VNDB :=
  set_sock (sent self) inb self.

Definition set_cache (c : list cache_entry) (self : VNDB) : VNDB :=
  {| sent := sent self; inbox := inbox self; cache := c;
     cachetime := cachetime self; ticks := ticks self |}.

Definition set_cachetime (t : Q) (self : VNDB) : VNDB :=
  {| sent := sent self; inbox := inbox self; cache := cache self;
     cachetime := t; ticks := ticks self |}.

Definition set_ticks (n : nat) (self : VNDB) : VNDB :=
  {| sent := sent self; inbox := inbox self; cache := cache self;
     cachetime := cachetime self; ticks := n |}.

(** The argument of [sendCommand]: a [str], a [dict], or anything else
    (the default [None]), which is left out of the frame. *)
Inductive cmd_args : Type :=
| NoArgs
| StrArgs (s : string)
| DictArgs (d : dict).

Section VNDB.

Variable E : Env.

(** [self.sock.send(data)]: the frame goes out and the peer's answer becomes
    readable. *)
Definition sock_send (data : string) : M VNDB unit :=
  fun self =>
    let snt := (sent self ++ [data])%list in
    (Ok tt, set_sock snt (inbox self ++ server E snt)%list self).

(** [self.sock.recv(bufsize)]: at most [bufsize] bytes of what is readable. *)
Definition sock_recv (bufsize : nat) : M VNDB string :=
  fun self =>
    match inbox self with
    | [] => (Blocked, self)
    | c :: rest =>
        if Nat.leb (String.length c) bufsize then (Ok c, set_inbox rest self)
        else (Ok (substring 0 bufsize c),
              set_inbox (substring bufsize (String.length c - bufsize) c :: rest)
                        self)
    end.

(** [time.time()] *)
Definition time_time : M VNDB Q :=
  fun self => (Ok (clock E (ticks self)), set_ticks (S (ticks self)) self).

(** The bytes [sendCommand] hands to the socket. *)
Definition frame (command : string) (args : cmd_args) : string :=
  let whole := lower command in
  let whole :=
    match args with
    | StrArgs s => whole ++ " " ++ s
    | DictArgs d => whole ++ " " ++ json_dumps (JObj d)
    | NoArgs => whole
    end in
  whole ++ str1 EOT.

Definition sendCommand (command : string) (args : cmd_args) : M VNDB unit :=
  sock_send (frame command args).

(** The loop of [getRawResponse]; [fuel] bounds the number of reads. *)
Fixpoint recv_loop (fuel : nat) (whole : string) : M VNDB string :=
  match fuel with
  | O => pure OutOfFuel
  | S fuel' =>
      chunk <- sock_recv 4096 ;;
      let whole := whole ++ chunk in
      if contains EOT whole then mreturn whole else recv_loop fuel' whole
  end.

(** A number of reads that empties the inbox: the loop is run with one
    more, so that it ends by returning or by waiting on the empty inbox. *)
Definition reads_left (self : VNDB) : nat :=
  fold_right (fun c n => S (String.length c + n)) 0 (inbox self).

(** [bytes.decode()] *)
Definition decode (b : string) : outcome string :=
  if utf8_valid b then Ok b else Raise UnicodeDecodeError.

Definition getRawResponse : M VNDB string :=
  fun self =>
    (whole <- recv_loop (S (reads_left self)) EmptyString ;;
     pure (decode (strip (remove_all EOT whole)))) self.

Definition getResponse : M VNDB (string * json) :=
  res <- getRawResponse ;;
  let cmdname := hd EmptyString (split SP res) in
  args <- (if Nat.ltb 1 (List.length (split SP res)) then
             match json_loads E (join " " (tl (split SP res))) with
             | Some v => mreturn (Some v)
             | None => raise JSONDecodeError
             end
           else mreturn None) ;;
  if String.eqb cmdname "error" then
    a <- pure (load_local "args" args) ;;
    i <- pure (subscript a "id") ;;
    if eq_str i "throttled" then
      raise (vndbException
               (JStr "Throttled, limit of 100 commands per 10 minutes"))
    else
      m <- pure (subscript a "msg") ;;
      raise (vndbException m)
  else
    a <- pure (load_local "args" args) ;;
    mreturn (cmdname, a).

(** The scan of [self.cache['get']] in [get]: the clock is read for the
    entries whose query matches, one reading each, until one is young enough.
    The result comes with the number of readings made. *)
Fixpoint cache_scan (args : string) (ttl : Q) (items : list cache_entry)
    (t : nat) : option json * nat :=
  match items with
  | [] => (None, t)
  | item :: rest =>
      if String.eqb (e_query item) args then
        if Qltb (clock E t) (e_time item + ttl)%Q then (Some (e_results item), S t)
        else cache_scan args ttl rest (S t)
      else cache_scan args ttl rest t
  end.

(** ['{0} {1} {2} {3}'.format(type, flags, filters, options)] *)
Definition query_of (type flags filters options : string) : string :=
  type ++ " " ++ flags ++ " " ++ filters ++ " " ++ options.

Definition VNDB_get (type flags filters options : string) : M VNDB json :=
  fun self =>
    let args := query_of type flags filters options in
    match cache_scan args (cachetime self) (cache self) (ticks self) with
    | (Some results, t) => (Ok results, set_ticks t self)
    | (None, t) =>
        (sendCommand "get" (StrArgs args) ;;;
         r <- getResponse ;;
         now <- time_time ;;
         fun self' =>
           (Ok (snd r),
            set_cache (cache self'
                       ++ [{| e_time := now; e_query := args;
                              e_results := snd r |}])%list self'))
          (set_ticks t self)
    end.

(** [VNDB.__init__], from the connected socket on. *)
Definition VNDB_init (clientname clientver : string)
    (username password : option string) : M VNDB unit :=
  let login := [("protocol", JNum 1); ("client", JStr clientname);
                ("clientver", JStr clientver)] in
  sendCommand "login"
    (DictArgs match username, password with
              | Some u, Some p =>
                  (login ++ [("username", JStr u); ("password", JStr p)])%list
              | _, _ => login
              end) ;;;
  res <- getRawResponse ;;
  if startswith "error " res then
    match json_loads E (join " " (tl (split SP res))) with
    | Some v => m <- pure (subscript v "msg") ;; raise (vndbException m)
    | None => raise JSONDecodeError
    end
  else
    fun self => (Ok tt, set_cachetime 720%Q (set_cache [] self)).

End VNDB.

(* ===================================================================== *)
(** * class VNDBClient *)
(* ===================================================================== *)

(** Text between double quotes. *)
Definition dq (s : string) : string := String DQ (s ++ str1 DQ).

Definition DATE_FMT : string := "%y%m%d".
Definition TITLE_FMT : string :=
  "[{releases[0][producers][0][represent]}] [{released_date}] {original}".

(** An entry of a value of [PROD_DICT]: a name to compare with, or
    [lambda s: re.match(pattern, s)]. *)
Inductive matcher : Type :=
| Exact (name : string)
| Lambda (pattern : string).

Definition PROD_DICT : list (string * list matcher) :=
  [ ("平安亭", [Exact "Heiantei"]);
    ("Lilith", [Lambda "(\S+\s)*Lilith"]);
    ("ANIM", [Exact "Anim"]);
    ("Kaguya", [Lambda "(\S+\s)*Kaguya(\s\S+)*"]);
    ("ALICESOFT", [Exact "Alice Soft"]) ].

Definition CLIENT_NAME : string := "VNDB String Formatter".
Definition CLIENT_VER : string := "0.0.1".

(** ['{"results":25}'], the default of [options]. *)
Definition DEFAULT_OPTIONS : string := "{" ++ dq "results" ++ ":25}".

Record VNDBClient : Type := {
  instance : VNDB;
  self_ret_dict : bool;
  title_fmt : string;
  date_fmt : string
}.

Definition set_instance (v : VNDB) (c : VNDBClient) : VNDBClient :=
  {| instance := v; self_ret_dict := self_ret_dict c;
     title_fmt := title_fmt c; date_fmt := date_fmt c |}.

(** A call of a method of [self._instance]. *)
Definition on_instance {A} (m : M VNDB A) : M VNDBClient A :=
  fun c => let (o, v) := m (instance c) in (o, set_instance v c).

(** Keyword arguments passed on to a dependent search: the ones given
    replace the callee's defaults. *)
Record kwds : Type := {
  kw_flags : option string;
  kw_num : option Z;
  kw_options : option string
}.

Definition no_kwds : kwds :=
  {| kw_flags := None; kw_num := None; kw_options := None |}.

(** [l.remove(x)]: the first occurrence goes. *)
Fixpoint list_remove (x : string) (l : list string) : list string :=
  match l with
  | [] => []
  | y :: r => if String.eqb y x then r else y :: list_remove x r
  end.

(** [x in l] *)
Definition mem (x : string) (l : list string) : bool :=
  existsb (String.eqb x) l.

(** A [for] loop whose body maps each element, stopping at the first
    exception. *)
Fixpoint for_each {S A B} (f : A -> M S B) (l : list A) : M S (list B) :=
  match l with
  | [] => mreturn []
  | x :: r => y <- f x ;; ys <- for_each f r ;; mreturn (y :: ys)
  end.

Section VNDBClient.

Variable E : Env.

(** What an f-string inserts for a value. *)
Definition py_format (v : json) : string :=
  match v with
  | JStr s => s
  | JNum z => dec z
  | JBool true => "True"
  | JBool false => "False"
  | JNull => "None"
  | _ => py_repr E v
  end.

Definition VNDBClient_init (username password : option string)
    (sock : VNDB) : outcome VNDBClient * VNDB :=
  match VNDB_init E CLIENT_NAME CLIENT_VER username password sock with
  | (Ok _, v) =>
      (Ok {| instance := v; self_ret_dict := true;
             title_fmt := TITLE_FMT; date_fmt := DATE_FMT |}, v)
  | (Raise e, v) => (Raise e, v)
  | (Blocked, v) => (Blocked, v)
  | (OutOfFuel, v) => (OutOfFuel, v)
  end.

(** The [while more] loop of [get]; [fuel] bounds the number of pages. *)
Fixpoint get_loop (fuel : nat) (type flags filters : string)
    (num : option Z) (ret_dict : bool)
    (options_dict : dict) (N : Z) (ret : list json)
    : M VNDBClient (list json) :=
  match fuel with
  | O => pure OutOfFuel
  | S fuel' =>
      let options := json_dumps (JObj options_dict) in
      d <- on_instance (VNDB_get E type flags filters options) ;;
      page <- pure (subscript (JObj options_dict) "page") ;;
      page <- pure (add_int page 1) ;;
      let options_dict := dict_set "page" (JNum page) options_dict in
      N <- (if ret_dict then
              items <- pure (subscript d "items") ;;
              n <- pure (py_len items) ;;
              mreturn (N + n)%Z
            else
              n <- pure (subscript d "num") ;;
              pure (int_add N n)) ;;
      ret <- (if ret_dict then
                items <- pure (subscript d "items") ;;
                l <- pure (py_iter items) ;;
                mreturn (ret ++ l)%list
              else mreturn (ret ++ [d])%list) ;;
      more <- pure (subscript d "more") ;;
      let more := truthy more in
      let more := match num with
                  | Some n => if (n <=? N)%Z then false else more
                  | None => more
                  end in
      let ret := match num with
                 | Some n => slice_to n ret
                 | None => ret
                 end in
      if more then
        get_loop fuel' type flags filters num ret_dict options_dict N ret
      else mreturn ret
  end.

Definition VNDBClient_get (fuel : nat) (filters type flags : string)
    (num : option Z) (options : string) (ret_dict : option bool)
    : M VNDBClient (list json) :=
  fun self =>
    let ret_dict := match ret_dict with
                    | None => self_ret_dict self
                    | Some b => b
                    end in
    (options_dict <-
       (if String.eqb options EmptyString then mreturn (JObj [("results", JNum 25)])
        else match json_loads E options with
             | Some v => mreturn v
             | None => raise JSONDecodeError
             end) ;;
     options_dict <-
       match options_dict with
       | JObj d => mreturn (dict_setdefault "page" (JNum 1) d)
       | _ => raise AttributeError
       end ;;
     get_loop fuel type flags filters num ret_dict options_dict 0 []) self.

Definition search (fuel : nat) (pattern : json) (type flags : string)
    (num : option Z) (options : string) (ret_dict : option bool)
    (method : option string) : M VNDBClient (list json) :=
  let method := match method with None => "search~" | Some m => m end in
  if mem type ["vn"; "producer"; "character"; "staff"] then
    VNDBClient_get fuel ("(" ++ method ++ dq (py_format pattern) ++ ")")
      type flags num options ret_dict
  else raise AssertionError.

Definition search_vn (fuel : nat) (pattern : json) (flags : string)
    (num : option Z) (options : string) (ret_dict : option bool)
    (method : option string) : M VNDBClient (list json) :=
  search fuel pattern "vn" flags num options ret_dict method.

(** One entry of a value of [PROD_DICT] against a producer's name. *)
Definition matches (m : matcher) (prod_name : json) : outcome bool :=
  match m with
  | Exact s => Ok (eq_str prod_name s)
  | Lambda p =>
      match prod_name with
      | JStr s => Ok (re_match E p s)
      | _ => Raise TypeError
      end
  end.

(** The inner loop over a value [v] of [PROD_DICT]: whether it ends by
    [_represent = k]. *)
Fixpoint matches_any (v : list matcher) (prod_name : json) : outcome bool :=
  match v with
  | [] => Ok false
  | m :: r =>
      match matches m prod_name with
      | Ok true => Ok true
      | Ok false => matches_any r prod_name
      | Raise e => Raise e
      | Blocked => Blocked
      | OutOfFuel => OutOfFuel
      end
  end.

(** The outer loop: the value of [_represent] when it ends. *)
Fixpoint represent_of (table : list (string * list matcher))
    (prod_name : json) : outcome string :=
  match table with
  | [] => Ok EmptyString
  | (k, v) :: rest =>
      match matches_any v prod_name with
      | Ok hit =>
          let _represent := if hit then k else EmptyString in
          if String.eqb _represent EmptyString then represent_of rest prod_name
          else Ok _represent
      | Raise e => Raise e
      | Blocked => Blocked
      | OutOfFuel => OutOfFuel
      end
  end.

Definition relabel_producer (prod : json) : M VNDBClient json :=
  prod_name <- pure (subscript prod "name") ;;
  _represent <- pure (represent_of PROD_DICT prod_name) ;;
  pure (setitem prod "represent"
          (if String.eqb _represent EmptyString then prod_name
           else JStr _represent)).

Definition relabel_release (en : json) : M VNDBClient json :=
  producers <- pure (subscript en "producers") ;;
  prods <- pure (py_iter producers) ;;
  prods <- for_each relabel_producer prods ;;
  match producers with
  | JArr _ => pure (setitem en "producers" (JArr prods))
  | _ => mreturn en
  end.

Definition search_release (fuel : nat) (pattern : json) (flags : string)
    (num : option Z) (options : string) (ret_dict : option bool)
    : M VNDBClient (list json) :=
  let q := if is_int pattern then "(vn=" ++ dq (py_format pattern) ++ ")"
           else "(title~" ++ dq (py_format pattern) ++ ")" in
  ens <- VNDBClient_get fuel q "release" flags num options ret_dict ;;
  for_each relabel_release ens.

Definition search_characters (fuel : nat) (pattern : json) (flags : string)
    (num : option Z) (options : string) (ret_dict : option bool)
    : M VNDBClient (list json) :=
  pattern <-
    (if is_int pattern then mreturn pattern
     else
       vns <- search_vn fuel pattern "basic" (Some 1%Z) DEFAULT_OPTIONS
                (Some true) None ;;
       match vns with
       | [] => raise IndexError
       | vn :: _ => pure (subscript vn "id")
       end) ;;
  VNDBClient_get fuel ("(vn=" ++ dq (py_format pattern) ++ ")") "character"
    flags num options ret_dict.

Definition or_default {A} (o : option A) (d : A) : A :=
  match o with Some a => a | None => d end.

(** The body of the [for vn in ...] loop of [full_search]. *)
Definition attach (fuel : nat) (FIND_RELEASES FIND_CHARACTERS : bool)
    (release_kwds character_kwds : kwds) (vn : json) : M VNDBClient json :=
  vn <- (if FIND_RELEASES then
           id <- pure (subscript vn "id") ;;
           rs <- search_release fuel id
                   (or_default (kw_flags release_kwds) "basic,producers")
                   (kw_num release_kwds)
                   (or_default (kw_options release_kwds) DEFAULT_OPTIONS)
                   (Some true) ;;
           pure (setitem vn "releases" (JArr rs))
         else mreturn vn) ;;
  if FIND_CHARACTERS then
    id <- pure (subscript vn "id") ;;
    cs <- search_characters fuel id
            (or_default (kw_flags character_kwds) "basic")
            (kw_num character_kwds)
            (or_default (kw_options character_kwds) EmptyString)
            (Some true) ;;
    pure (setitem vn "characters" (JArr cs))
  else mreturn vn.

Definition full_search (fuel : nat) (pattern : json) (flags : string)
    (num : option Z) (options : string) (release_kwds character_kwds : kwds)
    (method : option string) : M VNDBClient (list json) :=
  let flag_list := split "," flags in
  let FIND_RELEASES := mem "releases" flag_list in
  let flag_list :=
    if FIND_RELEASES then list_remove "releases" flag_list else flag_list in
  let FIND_CHARACTERS := mem "characters" flag_list in
  let flag_list :=
    if FIND_CHARACTERS then list_remove "characters" flag_list else flag_list in
  let flags := join "," flag_list in
  vns <- search_vn fuel pattern flags num options (Some true) method ;;
  for_each (attach fuel FIND_RELEASES FIND_CHARACTERS
              release_kwds character_kwds) vns.

End VNDBClient.

(* ===================================================================== *)
(** * A reference environment *)
(* ===================================================================== *)

(** The theorems below hold for every environment.  The one defined here
    instantiates them on concrete runs: a JSON decoder for integers, strings,
    arrays and objects, a matcher for the two patterns of [PROD_DICT], a
    scripted peer and a clock that advances by one second per reading. *)
Module Ref.

Definition is_json_ws (c : ascii) : bool :=
  let n := byte c in
  (n =? 32)%N || (n =? 9)%N || (n =? 10)%N || (n =? 13)%N.

Fixpoint skip_ws (s : string) : string :=
  match s with
  | String c r => if is_json_ws c then skip_ws r else s
  | EmptyString => EmptyString
  end.

Definition is_digit (c : ascii) : bool := in_range 48 57 c.

Definition hex_val (c : ascii) : option N :=
  if in_range 48 57 c then Some (byte c - 48)%N
  else if in_range 97 102 c then Some (byte c - 87)%N
  else if in_range 65 70 c then Some (byte c - 55)%N
  else None.

Definition hex4 (a b c d : ascii) : option N :=
  match hex_val a, hex_val b, hex_val c, hex_val d with
  | Some x, Some y, Some z, Some w => Some (x * 4096 + y * 256 + z * 16 + w)%N
  | _, _, _, _ => None
  end.

Definition utf8_encode (cp : N) : string :=
  if (cp <? 128)%N then str1 (ascii_of_N cp)
  else if (cp <? 2048)%N then
    String (ascii_of_N (192 + cp / 64)) (str1 (ascii_of_N (128 + cp mod 64)))
  else if (cp <? 65536)%N then
    String (ascii_of_N (224 + cp / 4096))
      (String (ascii_of_N (128 + (cp / 64) mod 64))
         (str1 (ascii_of_N (128 + cp mod 64))))
  else
    String (ascii_of_N (240 + cp / 262144))
      (String (ascii_of_N (128 + (cp / 4096) mod 64))
         (String (ascii_of_N (128 + (cp / 64) mod 64))
            (str1 (ascii_of_N (128 + cp mod 64))))).

Definition simple_escape (c : ascii) : option ascii :=
  let n := byte c in
  if (n =? 34)%N || (n =? 92)%N || (n =? 47)%N then Some c
  else if (n =? 98)%N then Some "008"%char
  else if (n =? 102)%N then Some "012"%char
  else if (n =? 110)%N then Some "010"%char
  else if (n =? 114)%N then Some "013"%char
  else if (n =? 116)%N then Some "009"%char
  else None.

Definition cons_to (p : string) (o : option (string * string))
    : option (string * string) :=
  match o with
  | Some (x, r) => Some (p ++ x, r)
  | None => None
  end.

(** A string literal, from after its opening quote on: the text it denotes
    and what follows the closing quote.  A surrogate that is not part of a
    pair has no UTF-8 form and is refused. *)
Fixpoint parse_string (s : string) : option (string * string) :=
  match s with
  | EmptyString => None
  | String c r =>
      if Ascii.eqb c DQ then Some (EmptyString, r)
      else if Ascii.eqb c BSL then
        match r with
        | String e r1 =>
            if Ascii.eqb e "u" then
              match r1 with
              | String h1 (String h2 (String h3 (String h4 r2))) =>
                  match hex4 h1 h2 h3 h4 with
                  | Some cp =>
                      if (cp <? 55296)%N || (57343 <? cp)%N then
                        cons_to (utf8_encode cp) (parse_string r2)
                      else if (cp <? 56320)%N then
                        match r2 with
                        | String b (String u (String l1 (String l2
                            (String l3 (String l4 r3))))) =>
                            match hex4 l1 l2 l3 l4 with
                            | Some lo =>
                                if Ascii.eqb b BSL && Ascii.eqb u "u"
                                   && (56320 <=? lo)%N && (lo <=? 57343)%N
                                then cons_to
                                       (utf8_encode (65536 + (cp - 55296) * 1024
                                                     + (lo - 56320)))
                                       (parse_string r3)
                                else None
                            | None => None
                            end
                        | _ => None
                        end
                      else None
                  | None => None
                  end
              | _ => None
              end
            else
              match simple_escape e with
              | Some ch => cons_to (str1 ch) (parse_string r1)
              | None => None
              end
        | EmptyString => None
        end
      else if (byte c <? 32)%N then None
      else cons_to (str1 c) (parse_string r)
  end.

Fixpoint parse_digits (acc : Z) (s : string) : Z * string :=
  match s with
  | String c r =>
      if is_digit c then parse_digits (10 * acc + Z.of_N (byte c - 48)) r
      else (acc, s)
  | EmptyString => (acc, s)
  end.

(** An integer; a fraction or an exponent makes a float, which is not
    represented. *)
Definition parse_nat (s : string) : option (Z * string) :=
  match s with
  | String c r =>
      if is_digit c then
        let (z, r') := if (byte c =? 48)%N then (0%Z, r) else parse_digits 0 s in
        match r' with
        | String x _ =>
            if Ascii.eqb x "." || Ascii.eqb x "e" || Ascii.eqb x "E" then None
            else Some (z, r')
        | EmptyString => Some (z, r')
        end
      else None
  | EmptyString => None
  end.

Definition expect (lit : string) (s : string) (v : json)
    : option (json * string) :=
  if String.prefix lit s
  then Some (v, substring (String.length lit)
                          (String.length s - String.length lit) s)
  else None.

Fixpoint parse_value (fuel : nat) (s : string) : option (json * string) :=
  match fuel with
  | O => None
  | S fuel' =>
      match skip_ws s with
      | EmptyString => None
      | String c r =>
          if Ascii.eqb c "n" then expect "ull" r JNull
          else if Ascii.eqb c "t" then expect "rue" r (JBool true)
          else if Ascii.eqb c "f" then expect "alse" r (JBool false)
          else if Ascii.eqb c DQ then
            match parse_string r with
            | Some (x, r') => Some (JStr x, r')
            | None => None
            end
          else if Ascii.eqb c "-" then
            match parse_nat r with
            | Some (z, r') => Some (JNum (- z), r')
            | None => None
            end
          else if Ascii.eqb c "[" then
            match skip_ws r with
            | String c' r' =>
                if Ascii.eqb c' "]" then Some (JArr [], r')
                else match parse_elems fuel' r with
                     | Some (l, r'') => Some (JArr l, r'')
                     | None => None
                     end
            | EmptyString => None
            end
          else if Ascii.eqb c "{" then
            match skip_ws r with
            | String c' r' =>
                if Ascii.eqb c' "}" then Some (JObj [], r')
                else match parse_members fuel' [] r with
                     | Some (d, r'') => Some (JObj d, r'')
                     | None => None
                     end
            | EmptyString => None
            end
          else
            match parse_nat (String c r) with
            | Some (z, r') => Some (JNum z, r')
            | None => None
            end
      end
  end

with parse_elems (fuel : nat) (s : string) : option (list json * string) :=
  match fuel with
  | O => None
  | S fuel' =>
      match parse_value fuel' s with
      | Some (v, r) =>
          match skip_ws r with
          | String c r' =>
              if Ascii.eqb c "," then
                match parse_elems fuel' r' with
                | Some (l, r'') => Some (v :: l, r'')
                | None => None
                end
              else if Ascii.eqb c "]" then Some ([v], r')
              else None
          | EmptyString => None
          end
      | None => None
      end
  end

with parse_members (fuel : nat) (acc : dict) (s : string)
    : option (dict * string) :=
  match fuel with
  | O => None
  | S fuel' =>
      match skip_ws s with
      | String q r =>
          if Ascii.eqb q DQ then
            match parse_string r with
            | Some (k, r1) =>
                match skip_ws r1 with
                | String colon r2 =>
                    if Ascii.eqb colon ":" then
                      match parse_value fuel' r2 with
                      | Some (v, r3) =>
                          let acc := dict_set k v acc in
                          match skip_ws r3 with
                          | String c r4 =>
                              if Ascii.eqb c "," then parse_members fuel' acc r4
                              else if Ascii.eqb c "}" then Some (acc, r4)
                              else None
                          | EmptyString => None
                          end
                      | None => None
                      end
                    else None
                | EmptyString => None
                end
            | None => None
            end
          else None
      | EmptyString => None
      end
  end.

Definition loads (s : string) : option json :=
  match parse_value (2 * String.length s + 2) s with
  | Some (v, r) =>
      match skip_ws r with
      | EmptyString => Some v
      | _ => None
      end
  | None => None
  end.

(** [(\S+\s)*] followed by the literal [lit], from the start of [s]. *)
Fixpoint words_then (lit : string) (start : bool) (s : string) : bool :=
  (start && String.prefix lit s)
  || match s with
     | EmptyString => false
     | String c r =>
         if is_space c then (if start then false else words_then lit true r)
         else words_then lit false r
     end.

Definition rematch (pattern s : string) : bool :=
  if String.eqb pattern "(\S+\s)*Lilith" then words_then "Lilith" true s
  else if String.eqb pattern "(\S+\s)*Kaguya(\s\S+)*"
       then words_then "Kaguya" true s
  else false.

(** A peer that answers each frame by the reads a script lists for it. *)
Fixpoint answer (script : list (string * list string)) (frame : string)
    : list string :=
  match script with
  | [] => []
  | (f, reads) :: r => if String.eqb f frame then reads else answer r frame
  end.

Definition scripted (script : list (string * list string))
    (hist : list string) : list string :=
  answer script (last hist EmptyString).

Definition env (script : list (string * list string)) : Env :=
  {| json_loads := loads;
     re_match := rematch;
     py_repr := json_dumps;
     server := scripted script;
     clock := fun n => inject_Z (1000 + Z.of_nat n) |}.

(** A connected socket with nothing sent and nothing to read. *)
Definition socket : VNDB :=
  {| sent := []; inbox := []; cache := []; cachetime := 720%Q; ticks := 0 |}.

Definition client (v : VNDB) : VNDBClient :=
  {| instance := v; self_ret_dict := true;
     title_fmt := TITLE_FMT; date_fmt := DATE_FMT |}.

End Ref.

(* ===================================================================== *)
(** * The specification's notions *)
(* ===================================================================== *)

(** The definitions of this part follow the words of the specification; the
    theorems compare them with the code above. *)

(** Encoding then decoding: the frame [sendCommand] builds comes back and is
    read by [getResponse]. *)
Definition roundtrip (E : Env) (command : string) (args : cmd_args)
    : M VNDB (string * json) :=
  sendCommand E command args ;;; getResponse E.

Section CacheNotions.

Variable E : Env.

(** The number of entries of [l] with the query [args]: so many clock
    readings the scan makes while it goes through [l] without a hit. *)
Definition count_query (args : string) (l : list cache_entry) : nat :=
  List.length (filter (fun e => String.eqb (e_query e) args) l).

(** The time read when the scan, started at reading number [t], looks at the
    entry that comes after [before]. *)
Definition reading (args : string) (t : nat) (before : list cache_entry) : Q :=
  clock E (t + count_query args before).

(** The entry after [before] has the query [args] and is younger than [ttl]
    when the scan looks at it. *)
Definition fresh (args : string) (ttl : Q) (t : nat)
    (before : list cache_entry) (e : cache_entry) : Prop :=
  e_query e = args /\ (reading args t before < e_time e + ttl)%Q.

(** No entry of [l] is fresh when the scan looks at it. *)
Definition stale (args : string) (ttl : Q) (t : nat) (l : list cache_entry)
    : Prop :=
  forall l1 e l2, l = (l1 ++ e :: l2)%list -> ~ fresh args ttl t l1 e.

End CacheNotions.

(** The options sent for page [p] when the caller leaves [options] at its
    default: [{"results": 25, "page": p}]. *)
Definition page_options (p : Z) : string :=
  json_dumps (JObj [("results", JNum 25); ("page", JNum p)]).

(** What a page [d] contributes: the elements [adds] put on the result (its
    items, or the page itself in raw mode), the amount [w] added to the
    count (the number of items, or the page's ["num"] in raw mode), and the
    truth value [more] of its ["more"]. *)
Definition yields (ret_dict : bool) (d : json) (adds : list json) (w : Z)
    (more : bool) : Prop :=
  (if ret_dict then
     exists items, subscript d "items" = Ok items /\ py_iter items = Ok adds
                   /\ w = Z.of_nat (List.length adds)
   else
     exists n, subscript d "num" = Ok n /\ int_add 0 n = Ok w /\ adds = [d])
  /\ exists m, subscript d "more" = Ok m /\ truthy m = more.

(** The count has reached the caller's limit. *)
Definition reached (num : option Z) (N : Z) : Prop :=
  match num with
  | Some n => (n <= N)%Z
  | None => False
  end.

(** Fetching page after page, as the specification has it: from page [p]
    and count [N] on, each page is asked for once, in order; the fetch ends
    with the first page whose ["more"] is false or with which the count
    reaches the limit.  The list gives the contribution of each page. *)
Inductive fetch_run (E : Env) (type flags filters : string) (ret_dict : bool)
    (num : option Z) : Z -> Z -> VNDB -> list (list json) -> VNDB -> Prop :=
| fetch_stop p N v d v' adds w more :
    VNDB_get E type flags filters (page_options p) v = (Ok d, v') ->
    yields ret_dict d adds w more ->
    more = false \/ reached num (N + w) ->
    fetch_run E type flags filters ret_dict num p N v [adds] v'
| fetch_next p N v d v' adds w rest v'' :
    VNDB_get E type flags filters (page_options p) v = (Ok d, v') ->
    yields ret_dict d adds w true ->
    ~ reached num (N + w) ->
    fetch_run E type flags filters ret_dict num (p + 1) (N + w) v' rest v'' ->
    fetch_run E type flags filters ret_dict num p N v (adds :: rest) v''.

(** [ret[:num]] when a limit is set. *)
Definition truncate (num : option Z) (l : list json) : list json :=
  match num with
  | Some n => slice_to n l
  | None => l
  end.

(** A computation that never ends by raising [e]. *)
Definition never {S A} (e : exn) (m : M S A) : Prop :=
  forall s, fst (m s) <> Raise e.

(** The types [search] accepts. *)
Definition searchable : list string := ["vn"; "producer"; "character"; "staff"].

(** The fields [full_search] writes. *)
Definition attached_key (k : string) : bool :=
  String.eqb k "releases" || String.eqb k "characters".

(** The other fields of an entry, in their order. *)
Definition others (d : dict) : dict :=
  filter (fun kv => negb (attached_key (fst kv))) d.

(** An entry of the result, against the entry of the underlying search: it
    has a list under ["releases"] and one under ["characters"], and its other
    fields are the same, with the same values, in the same order. *)
Definition attached (vn e : json) : Prop :=
  exists d d' rs cs,
    vn = JObj d /\ e = JObj d'
    /\ dict_get "releases" d' = Some (JArr rs)
    /\ dict_get "characters" d' = Some (JArr cs)
    /\ others d' = others d.

Section AttachNotions.

Variable E : Env.
Variable fuel : nat.
Variables release_kwds character_kwds : kwds.

(** The dependent searches [full_search] makes for an entry with the id
    [i]. *)
Definition releases_of (i : json) : M VNDBClient (list json) :=
  search_release E fuel i
    (or_default (kw_flags release_kwds) "basic,producers")
    (kw_num release_kwds)
    (or_default (kw_options release_kwds) DEFAULT_OPTIONS) (Some true).

Definition characters_of (i : json) : M VNDBClient (list json) :=
  search_characters E fuel i
    (or_default (kw_flags character_kwds) "basic")
    (kw_num character_kwds)
    (or_default (kw_options character_kwds) EmptyString) (Some true).

(** Attaching, as the specification has it: the entries are taken in order;
    for each, the releases of its id are searched, then its characters, and
    both are put on the entry under their names. *)
Inductive attach_run : VNDBClient -> list json -> list json -> VNDBClient
                       -> Prop :=
| attach_done c : attach_run c [] [] c
| attach_entry c d i rs c1 cs c2 vns es c3 :
    dict_get "id" d = Some i ->
    releases_of i c = (Ok rs, c1) ->
    characters_of i c1 = (Ok cs, c2) ->
    attach_run c2 vns es c3 ->
    attach_run c (JObj d :: vns)
      (JObj (dict_set "characters" (JArr cs) (dict_set "releases" (JArr rs) d))
       :: es) c3.

End AttachNotions.

(** The flags handed to the search of the primary entries. *)
Definition primary_flags (flags : string) : string :=
  join "," (list_remove "characters" (list_remove "releases" (split "," flags))).

(* ===================================================================== *)
(** * Scripted peers *)
(* ===================================================================== *)

(** Concrete runs for the examples: reads that hold more than one frame, a
    peer that echoes, one with three pages of two items, and one with a title,
    a release and a character. *)

(** A read that holds the end of one frame and the whole next one. *)
Definition two_frames : VNDB :=
  set_inbox ["ok" ++ str1 EOT ++ "results {}" ++ str1 EOT] Ref.socket.

(** A peer that sends every frame back as it is. *)
Definition echo (hist : list string) : list string := [last hist EmptyString].

Definition echo_env : Env :=
  {| json_loads := Ref.loads; re_match := Ref.rematch; py_repr := json_dumps;
     server := echo; clock := fun n => inject_Z (Z.of_nat n) |}.

(** A status token alone. *)
Definition bare_ok : VNDB := set_inbox ["ok" ++ str1 EOT] Ref.socket.

(** An error response with the given payload, ready to be read. *)
Definition error_response (payload : json) : VNDB :=
  set_inbox ["error " ++ json_dumps payload ++ str1 EOT] Ref.socket.

Definition demo_page (items : list json) (more : bool) : json :=
  JObj [("num", JNum (Z.of_nat (List.length items))); ("more", JBool more);
        ("items", JArr items)].

(** The reads that carry one response. *)
Definition response (status : string) (payload : json) : list string :=
  [status ++ " " ++ json_dumps payload ++ str1 EOT].

Definition demo_filter : string := "(search~" ++ dq "x" ++ ")".

Definition demo_get (p : Z) : string :=
  frame "get" (StrArgs (query_of "vn" "basic" demo_filter (page_options p))).

Definition three_pages : Env :=
  Ref.env
    [ (demo_get 1, response "results" (demo_page [JNum 1; JNum 2] true));
      (demo_get 2, response "results" (demo_page [JNum 3; JNum 4] true));
      (demo_get 3, response "results" (demo_page [JNum 5; JNum 6] false)) ].

Definition one_page (items : list json) : list string :=
  response "results" (demo_page items false).

Definition clannad : json := JObj [("id", JNum 17); ("title", JStr "Clannad")].

Definition full_voice : json :=
  JObj [("id", JNum 5); ("title", JStr "Clannad Full Voice");
        ("producers",
         JArr [JObj [("id", JNum 1); ("name", JStr "Key")];
               JObj [("id", JNum 2); ("name", JStr "Black Lilith")]])].

Definition nagisa : json := JObj [("id", JNum 40); ("name", JStr "Nagisa")].

Definition first_page_of (type flags filters : string) : string :=
  frame "get" (StrArgs (query_of type flags filters (page_options 1))).

Definition catalog : Env :=
  Ref.env
    [ (first_page_of "vn" "basic" ("(search~" ++ dq "Clannad" ++ ")"),
       one_page [clannad]);
      (first_page_of "release" "basic,producers" ("(vn=" ++ dq "17" ++ ")"),
       one_page [full_voice]);
      (first_page_of "character" "basic" ("(vn=" ++ dq "17" ++ ")"),
       one_page [nagisa]) ].

(** The entry [full_search] returns for it. *)
Definition clannad_full : json :=
  JObj [("id", JNum 17); ("title", JStr "Clannad");
        ("releases",
         JArr [JObj [("id", JNum 5); ("title", JStr "Clannad Full Voice");
                     ("producers",
                      JArr [JObj [("id", JNum 1); ("name", JStr "Key");
                                  ("represent", JStr "Key")];
                            JObj [("id", JNum 2); ("name", JStr "Black Lilith");
                                  ("represent", JStr "Lilith")]])]]);
        ("characters", JArr [nagisa])].

(* ===================================================================== *)
(** * Further notions and peers *)
(* ===================================================================== *)

(** [n] times the character [c]. *)
Fixpoint replicate (n : nat) (c : ascii) : string :=
  match n with
  | O => EmptyString
  | S n' => String c (replicate n' c)
  end.

(** The clock never goes back. *)
Definition monotone (E : Env) : Prop :=
  forall m n, m <= n -> (clock E m <= clock E n)%Q.

(** The reads a list of chunks takes at most. *)
Definition reads_of (l : list string) : nat :=
  fold_right (fun c n => S (String.length c + n)) 0 l.

(** A frame longer than one read: 5000 bytes and the delimiter. *)
Definition long_frame : string := replicate 5000 "a" ++ str1 EOT.

(** The mapping [__init__] sends with [login]: the credentials are part of
    it when both are given. *)
Definition login_args (clientname clientver : string)
    (username password : option string) : dict :=
  let login := [("protocol", JNum 1); ("client", JStr clientname);
                ("clientver", JStr clientver)] in
  match username, password with
  | Some u, Some p =>
      (login ++ [("username", JStr u); ("password", JStr p)])%list
  | _, _ => login
  end.

(** A peer that accepts the login of the client, and one that refuses it. *)
Definition login_frame : string :=
  frame "login" (DictArgs (login_args CLIENT_NAME CLIENT_VER None None)).

Definition welcoming : Env := Ref.env [(login_frame, ["ok" ++ str1 EOT])].

Definition refusing : Env :=
  Ref.env [(login_frame,
            response "error" (JObj [("id", JStr "auth");
                                    ("msg", JStr "Bad password")]))].

(** A response ready to be read. *)
Definition incoming (status : string) (payload : string) : VNDB :=
  set_inbox [status ++ " " ++ payload ++ str1 EOT] Ref.socket.

(** From [s] to [s'] the instance has only grown: the cache and the list of
    frames sent are extended at their ends, by at most [n] frames and no more
    entries than frames; the lifetime is the same and the clock has not gone
    back. *)
Definition grows_by (n : nat) (s s' : VNDB) : Prop :=
  exists tc ts,
    cache s' = (cache s ++ tc)%list /\ sent s' = (sent s ++ ts)%list
    /\ List.length tc <= List.length ts /\ List.length ts <= n
    /\ cachetime s' = cachetime s /\ ticks s <= ticks s'.

(** The peer with three pages, seen through a clock that advances by a
    thousand seconds at each reading. *)
Definition three_pages_slowly : Env :=
  {| json_loads := json_loads three_pages;
     re_match := re_match three_pages;
     py_repr := py_repr three_pages;
     server := server three_pages;
     clock := fun n => inject_Z (1000 * Z.of_nat n) |}.

(** The query of the first page, and the instance after it was fetched. *)
Definition demo_query : string :=
  query_of "vn" "basic" demo_filter (page_options 1).

Definition after_first_page (E : Env) : VNDB :=
  snd (VNDB_get E "vn" "basic" demo_filter (page_options 1) Ref.socket).

(** The beginning of a fetch: [n] pages, from
    page [p] and count [N] on, each with a true ["more"] and none reaching
    the limit, after which page [p'] is the next to ask for. *)
Inductive fetch_prefix (E : Env) (type flags filters : string)
    (ret_dict : bool) (num : option Z)
    : Z -> Z -> VNDB -> nat -> Z -> Z -> VNDB -> Prop :=
| prefix_none p N v :
    fetch_prefix E type flags filters ret_dict num p N v 0 p N v
| prefix_page p N v d v' adds w n p' N' v'' :
    VNDB_get E type flags filters (page_options p) v = (Ok d, v') ->
    yields ret_dict d adds w true ->
    ~ reached num (N + w) ->
    fetch_prefix E type flags filters ret_dict num (p + 1) (N + w) v' n
      p' N' v'' ->
    fetch_prefix E type flags filters ret_dict num p N v (S n) p' N' v''.

(** The client has only grown: its instance has, and its default mode is
    the same. *)
Definition client_grows_by (n : nat) (c c' : VNDBClient) : Prop :=
  grows_by n (instance c) (instance c')
  /\ self_ret_dict c' = self_ret_dict c.

(** A peer that answers the second page by the throttling error, and one
    whose page has no items. *)
Definition throttling : Env :=
  Ref.env
    [ (demo_get 1, response "results" (demo_page [JNum 1; JNum 2] true));
      (demo_get 2,
       response "error" (JObj [("id", JStr "throttled");
                               ("msg", JStr "Throttled")])) ].

Definition itemless : Env :=
  Ref.env [(demo_get 1, response "results" (JObj [("more", JBool false)]))].

(** The name a producer is represented by, as a rule of its own: the
    rules of the table are tried in order, the first that matches gives its
    label, and a name that none matches stands for itself. *)
Definition represent_text (E : Env) (s : string) : string :=
  if String.eqb s "Heiantei" then "平安亭"
  else if re_match E "(\S+\s)*Lilith" s then "Lilith"
  else if String.eqb s "Anim" then "ANIM"
  else if re_match E "(\S+\s)*Kaguya(\s\S+)*" s then "Kaguya"
  else if String.eqb s "Alice Soft" then "ALICESOFT"
  else s.

(** A producer after the relabelling: the same mapping with ["represent"]
    set, to its name or to a label of the table. *)
Definition represented (p p' : json) : Prop :=
  exists d name r,
    p = JObj d /\ dict_get "name" d = Some name
    /\ p' = JObj (dict_set "represent" r d)
    /\ (r = name \/ exists k, r = JStr k /\ In k (map fst PROD_DICT)).

(** A release after the relabelling: the same mapping, its list of producers
    replaced by the relabelled ones, in order. *)
Definition relabelled (en en' : json) : Prop :=
  exists d producers,
    en = JObj d /\ dict_get "producers" d = Some producers
    /\ match producers with
       | JArr ps =>
           exists ps', en' = JObj (dict_set "producers" (JArr ps') d)
                       /\ Forall2 represented ps ps'
       | _ => en' = en
       end.

(** A peer that knows no title, and one whose entry has no id. *)
Definition nothing_filter : string := "(search~" ++ dq "Nothing" ++ ")".

Definition empty_catalog : Env :=
  Ref.env [(first_page_of "vn" "basic" nothing_filter, one_page [])].

Definition anonymous : Env :=
  Ref.env
    [(first_page_of "vn" "basic" ("(search~" ++ dq "Clannad" ++ ")"),
      one_page [JObj [("title", JStr "Clannad")]])].

(** The filter [search_release] asks with: by id for an integer, by title
    otherwise. *)
Definition release_filter (E : Env) (pattern : json) : string :=
  if is_int pattern then "(vn=" ++ dq (py_format E pattern) ++ ")"
  else "(title~" ++ dq (py_format E pattern) ++ ")".

(** The release of the catalogue after the relabelling. *)
Definition full_voice_represented : json :=
  JObj [("id", JNum 5); ("title", JStr "Clannad Full Voice");
        ("producers",
         JArr [JObj [("id", JNum 1); ("name", JStr "Key");
                     ("represent", JStr "Key")];
               JObj [("id", JNum 2); ("name", JStr "Black Lilith");
                     ("represent", JStr "Lilith")]])].

Definition black_lilith : dict := [("id", JNum 2); ("name", JStr "Black Lilith")].

(* ===================================================================== *)
(** * Text lemmas *)
(* ===================================================================== *)

Example dumps_options :
  json_dumps (JObj [("results", JNum 25); ("page", JNum 1)])
  = "{" ++ quote "results" ++ ": 25, " ++ quote "page" ++ ": 1}".
Proof. reflexivity. Qed.

Lemma append_nil_r (s : string) : s ++ EmptyString = s.
Proof. induction s; simpl; congruence. Qed.

Lemma append_assoc (a b c : string) : (a ++ b) ++ c = a ++ (b ++ c).
Proof. induction a; simpl; congruence. Qed.

Lemma length_append (a b : string) :
  String.length (a ++ b) = String.length a + String.length b.
Proof. induction a; simpl; congruence. Qed.

Lemma contains_app d a b : contains d (a ++ b) = contains d a || contains d b.
Proof.
  induction a as [|c a IH]; simpl; [reflexivity|].
  rewrite IH. now rewrite orb_assoc.
Qed.

Lemma remove_all_id d s : contains d s = false -> remove_all d s = s.
Proof.
  induction s as [|c s IH]; simpl; [reflexivity|].
  intros H. apply orb_false_iff in H as [Hc Hs].
  rewrite Hc. now rewrite IH.
Qed.

Lemma remove_all_app d a b :
  remove_all d (a ++ b) = remove_all d a ++ remove_all d b.
Proof.
  induction a as [|c a IH]; simpl; [reflexivity|].
  destruct (Ascii.eqb c d); simpl; now rewrite IH.
Qed.

Lemma split_not_nil sep s : split sep s <> [].
Proof.
  destruct s as [|c r]; simpl; [discriminate|].
  destruct (Ascii.eqb c sep); [discriminate|].
  destruct (split sep r); discriminate.
Qed.

Lemma split_token sep tok rest :
  contains sep tok = false ->
  split sep (tok ++ String sep rest) = tok :: split sep rest.
Proof.
  induction tok as [|c tok IH]; simpl.
  - intros _. now rewrite Ascii.eqb_refl.
  - intros H. apply orb_false_iff in H as [Hc Ht].
    rewrite Hc, (IH Ht). reflexivity.
Qed.

Lemma split_single sep tok : contains sep tok = false -> split sep tok = [tok].
Proof.
  induction tok as [|c tok IH]; simpl; [reflexivity|].
  intros H. apply orb_false_iff in H as [Hc Ht].
  rewrite Hc, (IH Ht). reflexivity.
Qed.

Lemma join_split s : join " " (split SP s) = s.
Proof.
  induction s as [|c r IH]; simpl; [reflexivity|].
  destruct (Ascii.eqb_spec c SP) as [->|Hc].
  - pose proof (split_not_nil SP r) as Hne.
    simpl. destruct (split SP r) as [|h t]; [congruence|].
    simpl in *. now rewrite IH.
  - pose proof (split_not_nil SP r) as Hne.
    destruct (split SP r) as [|h t]; [congruence|].
    destruct t as [|h' t']; simpl in *; now rewrite <- IH.
Qed.

Lemma lstrip_id c s : is_space c = false -> lstrip (String c s) = String c s.
Proof. intros H. simpl. now rewrite H. Qed.

Lemma rstrip_id s c : is_space c = false -> rstrip (s ++ str1 c) = s ++ str1 c.
Proof.
  intros Hc. induction s as [|x s IH]; simpl.
  - now rewrite Hc.
  - rewrite IH. destruct s; reflexivity.
Qed.

Lemma printable_app a b : printable (a ++ b) = printable a && printable b.
Proof.
  induction a as [|c a IH]; simpl; [reflexivity|].
  rewrite IH. now rewrite andb_assoc.
Qed.

Lemma in_range_iff lo hi c :
  in_range lo hi c = true <-> (lo <= byte c <= hi)%N.
Proof.
  unfold in_range. rewrite andb_true_iff, !N.leb_le. tauto.
Qed.

Lemma printable_no_EOT s : printable s = true -> contains EOT s = false.
Proof.
  induction s as [|c s IH]; simpl; [reflexivity|].
  intros H. apply andb_true_iff in H as [Hc Hs].
  rewrite (IH Hs), orb_false_r.
  apply in_range_iff in Hc.
  destruct (Ascii.eqb_spec c EOT) as [->|]; [|reflexivity].
  vm_compute in Hc. destruct Hc as [Hc _]. now elim Hc.
Qed.

Lemma printable_utf8 s : printable s = true -> utf8_valid s = true.
Proof.
  induction s as [|c s IH]; simpl; [reflexivity|].
  intros H. apply andb_true_iff in H as [Hc Hs].
  apply in_range_iff in Hc.
  replace (byte c <? 128)%N with true by (symmetry; apply N.ltb_lt; lia).
  auto.
Qed.

Lemma utf8_valid_app a b :
  printable a = true -> utf8_valid (a ++ b) = utf8_valid b.
Proof.
  induction a as [|c a IH]; simpl; [reflexivity|].
  intros H. apply andb_true_iff in H as [Hc Hs].
  apply in_range_iff in Hc.
  replace (byte c <? 128)%N with true by (symmetry; apply N.ltb_lt; lia).
  auto.
Qed.

(* ===================================================================== *)
(** * [json.dumps] writes printable ASCII *)
(* ===================================================================== *)

Lemma hex_digit_printable n :
  (n < 16)%N -> in_range 32 126 (hex_digit n) = true.
Proof.
  intros H. destruct n as [|p]; [reflexivity|].
  do 4 (destruct p as [p|p|]; try reflexivity); exfalso; lia.
Qed.

Lemma u_escape_printable cp : printable (u_escape cp) = true.
Proof.
  unfold u_escape. cbn [printable].
  rewrite !hex_digit_printable by (apply N.mod_lt; discriminate).
  reflexivity.
Qed.

Lemma esc_cp_printable cp : printable (esc_cp cp) = true.
Proof.
  unfold esc_cp. destruct (cp <? 65536)%N.
  - apply u_escape_printable.
  - now rewrite printable_app, !u_escape_printable.
Qed.

Lemma esc_ascii_printable c :
  (byte c < 128)%N -> printable (esc_ascii c) = true.
Proof.
  intros Hc. unfold esc_ascii.
  repeat match goal with
         | |- context [(?a =? ?b)%N] =>
             destruct (N.eqb_spec a b); [reflexivity|]
         end.
  destruct (N.ltb_spec (byte c) 32); cbn [orb].
  - apply u_escape_printable.
  - destruct (N.eqb_spec (byte c) 127); [apply u_escape_printable|].
    cbn [str1 printable]. rewrite andb_true_r.
    apply in_range_iff. lia.
Qed.

Lemma esc_body_printable s : printable (esc_body s) = true.
Proof.
  remember (String.length s) as n eqn:Hn.
  assert (Hle : String.length s <= n) by lia. clear Hn.
  revert s Hle. induction n as [|n IH]; intros s Hle.
  - destruct s; [reflexivity|simpl in Hle; lia].
  - destruct s as [|c r]; [reflexivity|]. simpl in Hle.
    assert (Hr : printable (esc_body r) = true) by (apply IH; lia).
    assert (Hfb : printable (u_escape (byte c) ++ esc_body r) = true)
      by now rewrite printable_app, u_escape_printable.
    cbn [esc_body]. fold esc_body.
    destruct (N.ltb_spec (byte c) 128).
    { now rewrite printable_app, esc_ascii_printable. }
    destruct r as [|c1 r1]; [exact Hfb|]. simpl in Hle.
    destruct (in_range 192 223 c).
    { rewrite printable_app, esc_cp_printable. apply IH. lia. }
    destruct r1 as [|c2 r2]; [exact Hfb|]. simpl in Hle.
    destruct (in_range 224 239 c).
    { rewrite printable_app, esc_cp_printable. apply IH. lia. }
    destruct r2 as [|c3 r3]; [exact Hfb|]. simpl in Hle.
    destruct (in_range 240 247 c); [|exact Hfb].
    rewrite printable_app, esc_cp_printable. apply IH. lia.
Qed.

Lemma quote_printable s : printable (quote s) = true.
Proof.
  unfold quote. cbn [printable].
  now rewrite printable_app, esc_body_printable.
Qed.

Lemma uint_printable d : printable (NilEmpty.string_of_uint d) = true.
Proof. induction d; simpl; auto. Qed.

Lemma dec_printable z : printable (dec z) = true.
Proof.
  unfold dec, NilZero.string_of_int, NilZero.string_of_uint.
  destruct (Z.to_int z) as [d|d]; destruct d;
    try reflexivity; cbn [printable]; try apply uint_printable;
    cbn [in_range]; simpl; apply uint_printable.
Qed.

Lemma join_printable sep l :
  printable sep = true ->
  Forall (fun s => printable s = true) l ->
  printable (join sep l) = true.
Proof.
  intros Hsep H. induction H as [|x l Hx Hl IH]; [reflexivity|].
  destruct l as [|y l']; [exact Hx|].
  change (join sep (x :: y :: l')) with (x ++ sep ++ join sep (y :: l')).
  now rewrite !printable_app, Hx, Hsep, IH.
Qed.

Lemma json_dumps_printable v : printable (json_dumps v) = true.
Proof.
  induction v as [| [|] | z | s | l IH | d IH] using json_induction;
    try reflexivity.
  - apply dec_printable.
  - apply quote_printable.
  - cbn [json_dumps]. fold json_dumps.
    change (printable ("[" ++ join ", " (map json_dumps l) ++ "]") = true).
    rewrite !printable_app, join_printable; try reflexivity.
    apply Forall_map. exact IH.
  - cbn [json_dumps]. fold json_dumps.
    rewrite !printable_app, join_printable; try reflexivity.
    apply Forall_map. revert IH. apply Forall_impl. intros [k x] Hx.
    cbn [fst snd] in *. now rewrite !printable_app, quote_printable, Hx.
Qed.

(** The text of a [dict]: braces around the members. *)
Lemma json_dumps_obj d :
  exists body, json_dumps (JObj d) = String "{" (body ++ "}").
Proof. eexists. cbn [json_dumps]. reflexivity. Qed.

(* ===================================================================== *)
(** * Monad lemmas *)
(* ===================================================================== *)

Lemma bind_ok {S A B} (m : M S A) (k : A -> M S B) s b s' :
  bind m k s = (Ok b, s') <->
  exists a s1, m s = (Ok a, s1) /\ k a s1 = (Ok b, s').
Proof.
  unfold bind. split.
  - destruct (m s) as [[a| | |] s1]; try discriminate. eauto.
  - intros (a & s1 & -> & H). exact H.
Qed.

Lemma pure_ok {S A} (o : outcome A) (s : S) a s' :
  pure o s = (Ok a, s') <-> o = Ok a /\ s' = s.
Proof.
  unfold pure. split.
  - intros H. inversion H. auto.
  - intros [-> ->]. reflexivity.
Qed.

Lemma subscript_ok v k x :
  subscript v k = Ok x <-> exists d, v = JObj d /\ dict_get k d = Some x.
Proof.
  split.
  - destruct v; simpl; try discriminate.
    destruct (dict_get k kv) eqn:H; [|discriminate].
    intros [= ->]. eauto.
  - intros (d & -> & H). simpl. now rewrite H.
Qed.

Lemma mreturn_ok {S A} (a : A) (s : S) b s' :
  mreturn a s = (Ok b, s') <-> b = a /\ s' = s.
Proof.
  unfold mreturn. split.
  - intros [= <- <-]. auto.
  - intros [-> ->]. reflexivity.
Qed.

Lemma run_result {S A} (m : M S A) (s : S) (a : A) :
  fst (m s) = Ok a -> m s = (Ok a, snd (m s)).
Proof. destruct (m s) as [o s']. simpl. now intros ->. Qed.

(* ===================================================================== *)
(** * The socket and the framing *)
(* ===================================================================== *)

Lemma substring_all s : substring 0 (String.length s) s = s.
Proof. induction s; simpl; congruence. Qed.

Lemma substring_take_app n a b :
  n <= String.length a -> substring 0 n (a ++ b) = substring 0 n a.
Proof.
  revert n. induction a as [|c a IH]; intros [|n] H; simpl in *;
    try reflexivity; try lia.
  - now destruct b.
  - rewrite IH by lia. reflexivity.
Qed.

Lemma substring_drop_app n a b :
  n <= String.length a ->
  substring n (String.length (a ++ b) - n) (a ++ b)
  = substring n (String.length a - n) a ++ b.
Proof.
  revert n. induction a as [|c a IH]; intros n H.
  - simpl in H. assert (n = 0) by lia. subst n.
    now rewrite !Nat.sub_0_r, !substring_all.
  - destruct n as [|n].
    + now rewrite !Nat.sub_0_r, !substring_all.
    + simpl in *. apply IH. lia.
Qed.

Lemma substring_take_drop n a :
  n <= String.length a ->
  substring 0 n a ++ substring n (String.length a - n) a = a.
Proof.
  revert n. induction a as [|c a IH]; intros [|n] H; simpl in *;
    try reflexivity; try lia.
  - f_equal. apply substring_all.
  - f_equal. replace (substring (S n) (String.length a - n) (String c a))
      with (substring n (String.length a - n) a) by reflexivity.
    apply IH. lia.
Qed.

Lemma length_substring_drop n a :
  n <= String.length a ->
  String.length (substring n (String.length a - n) a) = String.length a - n.
Proof.
  revert n. induction a as [|c a IH]; intros [|n] H; simpl in *;
    try reflexivity; try lia.
  - now rewrite substring_all.
  - apply IH. lia.
Qed.

Lemma set_inbox_twice a b self : set_inbox a (set_inbox b self) = set_inbox a self.
Proof. reflexivity. Qed.

Lemma inbox_set_inbox a self : inbox (set_inbox a self) = a.
Proof. reflexivity. Qed.

Lemma set_inbox_same self : set_inbox (inbox self) self = self.
Proof. now destruct self. Qed.

Section Framing.

Lemma sock_recv_small self c rest :
  inbox self = c :: rest -> String.length c <= 4096 ->
  sock_recv 4096 self = (Ok c, set_inbox rest self).
Proof.
  intros Hi Hc. unfold sock_recv. rewrite Hi.
  now rewrite (proj2 (Nat.leb_le _ _) Hc).
Qed.

Lemma sock_recv_big self c rest :
  inbox self = c :: rest -> 4096 < String.length c ->
  sock_recv 4096 self
  = (Ok (substring 0 4096 c),
     set_inbox (substring 4096 (String.length c - 4096) c :: rest) self).
Proof.
  intros Hi Hc. unfold sock_recv. rewrite Hi.
  now rewrite (proj2 (Nat.leb_gt _ _) Hc).
Qed.

(** Reads without the delimiter are accumulated; the read in which it
    shows up ends the loop and is taken whole. *)
Lemma recv_loop_reads pre : forall fuel whole self c rest,
  inbox self = (pre ++ c :: rest)%list ->
  Forall (fun x => String.length x <= 4096) (pre ++ [c]) ->
  contains EOT (whole ++ cat pre) = false ->
  contains EOT c = true ->
  List.length pre < fuel ->
  recv_loop fuel whole self = (Ok (whole ++ cat pre ++ c), set_inbox rest self).
Proof.
  induction pre as [|x pre IH]; intros fuel whole self c rest Hi Hs Hw Hc Hf.
  - destruct fuel as [|fuel]; [simpl in Hf; lia|].
    simpl in Hi, Hs, Hw. inversion Hs as [|? ? Hlen _]; subst.
    cbn [recv_loop]. unfold bind. rewrite (sock_recv_small _ _ _ Hi Hlen).
    simpl cat. rewrite contains_app, Hc, orb_true_r. reflexivity.
  - destruct fuel as [|fuel]; [simpl in Hf; lia|].
    simpl in Hi, Hs, Hw, Hf. inversion Hs as [|? ? Hlen Hs']; subst.
    cbn [recv_loop]. unfold bind. rewrite (sock_recv_small _ _ _ Hi Hlen).
    rewrite <- append_assoc in Hw.
    pose proof Hw as Hw'. rewrite contains_app in Hw'.
    apply orb_false_iff in Hw' as [Hwx _]. rewrite Hwx.
    rewrite (IH fuel (whole ++ x) (set_inbox (pre ++ c :: rest)%list self) c rest);
      auto; [|lia].
    simpl cat. now rewrite !append_assoc.
Qed.

(** One frame, delimiter last, however long: the loop returns it whole. *)
Lemma recv_loop_frame fuel : forall body whole rest self,
  inbox self = (body ++ str1 EOT) :: rest ->
  contains EOT whole = false ->
  contains EOT body = false ->
  String.length body < fuel ->
  recv_loop fuel whole self
  = (Ok (whole ++ body ++ str1 EOT), set_inbox rest self).
Proof.
  induction fuel as [|fuel IH]; intros body whole rest self Hi Hw Hb Hf; [lia|].
  cbn [recv_loop]. unfold bind.
  destruct (Nat.le_gt_cases (String.length (body ++ str1 EOT)) 4096) as [Hs|Hs].
  - rewrite (sock_recv_small _ _ _ Hi Hs).
    rewrite !contains_app. simpl. now rewrite !orb_true_r.
  - rewrite (sock_recv_big _ _ _ Hi Hs).
    rewrite length_append in Hs. simpl in Hs.
    assert (Hn : 4096 <= String.length body) by lia.
    rewrite substring_take_app by exact Hn.
    rewrite substring_drop_app by exact Hn.
    pose proof (substring_take_drop 4096 body Hn) as Hsplit.
    pose proof (length_substring_drop 4096 body Hn) as Hlen.
    set (b1 := substring 0 4096 body) in *.
    set (b2 := substring 4096 (String.length body - 4096) body) in *.
    assert (Hb12 : contains EOT b1 = false /\ contains EOT b2 = false).
    { rewrite <- Hsplit, contains_app in Hb. now apply orb_false_iff in Hb. }
    destruct Hb12 as [Hb1 Hb2].
    rewrite contains_app, Hw, Hb1. cbn [orb].
    rewrite (IH b2 (whole ++ b1) rest); auto.
    + rewrite set_inbox_twice. rewrite <- Hsplit.
      now rewrite !append_assoc.
    + now rewrite contains_app, Hw, Hb1.
    + lia.
Qed.

(** The bound on reads is never what ends [getRawResponse]. *)
Lemma recv_loop_fuel fuel : forall whole self,
  reads_left self < fuel -> fst (recv_loop fuel whole self) <> OutOfFuel.
Proof.
  induction fuel as [|fuel IH]; intros whole self Hf; [lia|].
  cbn [recv_loop]. unfold bind, reads_left in *.
  destruct (inbox self) as [|c rest] eqn:Hi.
  - unfold sock_recv. rewrite Hi. discriminate.
  - simpl in Hf.
    destruct (Nat.le_gt_cases (String.length c) 4096) as [Hs|Hs].
    + rewrite (sock_recv_small _ _ _ Hi Hs).
      destruct (contains EOT (whole ++ c)); [discriminate|].
      apply IH. rewrite inbox_set_inbox. lia.
    + rewrite (sock_recv_big _ _ _ Hi Hs).
      destruct (contains EOT (whole ++ substring 0 4096 c)); [discriminate|].
      apply IH. rewrite inbox_set_inbox. simpl.
      rewrite length_substring_drop by lia. lia.
Qed.

Lemma getRawResponse_fuel self : fst (getRawResponse self) <> OutOfFuel.
Proof.
  unfold getRawResponse, bind.
  pose proof (recv_loop_fuel (S (reads_left self)) EmptyString self
                (Nat.lt_succ_diag_r _)) as H.
  destruct (recv_loop (S (reads_left self)) EmptyString self) as [[w| | |] s];
    simpl in *; try discriminate; [|congruence].
  unfold pure, decode. destruct (utf8_valid _); discriminate.
Qed.

Lemma reads_left_bound self : List.length (inbox self) <= reads_left self.
Proof.
  unfold reads_left. induction (inbox self) as [|c l IH]; simpl; lia.
Qed.

End Framing.

(* ===================================================================== *)
(** * Receiving and decoding a frame *)
(* ===================================================================== *)

Lemma name_char_facts c :
  name_char c = true ->
  lower_char c = c /\ Ascii.eqb c SP = false /\ is_space c = false
  /\ in_range 32 126 c = true.
Proof.
  unfold name_char. rewrite andb_true_iff, negb_true_iff.
  intros [H1 H2]. apply in_range_iff in H1.
  assert (H3 : ~ (65 <= byte c <= 90)%N).
  { intros H. apply in_range_iff in H. congruence. }
  unfold byte in *.
  assert (Hn : nat_of_ascii c = N.to_nat (N_of_ascii c)) by reflexivity.
  repeat split.
  - unfold lower_char. rewrite Hn.
    destruct (Nat.leb_spec 65 (N.to_nat (N_of_ascii c))); cbn [andb];
      [|reflexivity].
    destruct (Nat.leb_spec (N.to_nat (N_of_ascii c)) 90); [lia|reflexivity].
  - destruct (Ascii.eqb_spec c SP) as [->|]; [|reflexivity].
    vm_compute in H1. destruct H1 as [H1 _]. now elim H1.
  - unfold is_space. rewrite Hn.
    destruct (Nat.eqb_spec (N.to_nat (N_of_ascii c)) 32); [lia|].
    destruct (Nat.leb_spec 9 (N.to_nat (N_of_ascii c))); cbn [andb orb];
      [|reflexivity].
    destruct (Nat.leb_spec (N.to_nat (N_of_ascii c)) 13); [lia|reflexivity].
  - apply in_range_iff. unfold byte. lia.
Qed.

Lemma all_name_chars s :
  all_chars name_char s = true ->
  lower s = s /\ contains SP s = false /\ printable s = true.
Proof.
  induction s as [|c s IH]; simpl; [auto|].
  rewrite andb_true_iff. intros [Hc Hs].
  destruct (name_char_facts c Hc) as (Hl & Hsp & _ & Hp).
  destruct (IH Hs) as (IHl & IHs & IHp).
  now rewrite Hl, IHl, Hsp, IHs, Hp, IHp.
Qed.

Section Codec.

Variable E : Env.

Lemma getRawResponse_frame self body rest :
  inbox self = (body ++ str1 EOT) :: rest ->
  contains EOT body = false ->
  getRawResponse self = (decode (strip body), set_inbox rest self).
Proof.
  intros Hi Hb. unfold getRawResponse, bind.
  rewrite (recv_loop_frame _ body EmptyString rest self Hi eq_refl Hb).
  - cbn [append]. rewrite remove_all_app, (remove_all_id _ _ Hb). simpl.
    now rewrite append_nil_r.
  - unfold reads_left. rewrite Hi. simpl. rewrite length_append. lia.
Qed.

(** What [getResponse] does with a response of two parts. *)
Lemma getResponse_parts self self' tok body :
  getRawResponse self = (Ok (tok ++ String SP body), self') ->
  contains SP tok = false ->
  getResponse E self
  = match json_loads E body with
    | None => (Raise JSONDecodeError, self')
    | Some a =>
        if String.eqb tok "error" then
          (i <- pure (subscript a "id") ;;
           if eq_str i "throttled" then
             raise (vndbException
                      (JStr "Throttled, limit of 100 commands per 10 minutes"))
           else m <- pure (subscript a "msg") ;; raise (vndbException m)) self'
        else (Ok (tok, a), self')
    end.
Proof.
  intros Hraw Htok. unfold getResponse, bind at 1. rewrite Hraw.
  rewrite (split_token _ _ _ Htok). cbn [hd tl List.length].
  pose proof (split_not_nil SP body) as Hne.
  destruct (split SP body) as [|h t] eqn:Hsp; [congruence|].
  cbn [List.length Nat.ltb Nat.leb]. rewrite <- Hsp, join_split.
  unfold bind at 1.
  destruct (json_loads E body) as [a|]; [|reflexivity].
  unfold mreturn at 1.
  destruct (String.eqb tok "error"); reflexivity.
Qed.

(** C6: a response made of a status token alone (such as ["ok"]) is not
    decoded into that token with an absent payload: [getResponse] leaves its
    local [args] unassigned and fails with [UnboundLocalError] when it builds
    the result. *)
Theorem getResponse_without_payload self self' res :
  getRawResponse self = (Ok res, self') ->
  contains SP res = false ->
  getResponse E self = (Raise (UnboundLocalError "args"), self').
Proof.
  intros Hraw Hres. unfold getResponse, bind at 1. rewrite Hraw.
  rewrite (split_single _ _ Hres). cbn [hd tl List.length Nat.ltb Nat.leb].
  unfold bind at 1, mreturn at 1.
  destruct (String.eqb res "error"); reflexivity.
Qed.

(** C7 (amended): for a response ["error <payload>"] whose payload is a
    mapping with an ["id"]: when the id is ["throttled"], [getResponse] raises
    [vndbException] with the fixed text about 100 commands per 10 minutes;
    for any other id it raises [vndbException] with the value of ["msg"]
    as it is when the payload has a ["msg"], and fails with the [KeyError]
    of that key when it has none. *)
Theorem getResponse_error self self' body d i :
  getRawResponse self = (Ok ("error" ++ String SP body), self') ->
  json_loads E body = Some (JObj d) ->
  dict_get "id" d = Some i ->
  (i = JStr "throttled" ->
   getResponse E self
   = (Raise (vndbException
               (JStr "Throttled, limit of 100 commands per 10 minutes")),
      self'))
  /\ (i <> JStr "throttled" ->
      forall m, dict_get "msg" d = Some m ->
      getResponse E self = (Raise (vndbException m), self'))
  /\ (i <> JStr "throttled" ->
      dict_get "msg" d = None ->
      getResponse E self = (Raise (KeyError "msg"), self')).
Proof.
  intros Hraw Hload Hid.
  rewrite (getResponse_parts _ _ _ _ Hraw eq_refl), Hload.
  cbn [String.eqb Ascii.eqb Bool.eqb]. unfold bind, pure, raise.
  cbn [subscript]. rewrite Hid.
  assert (Hi : i <> JStr "throttled" -> eq_str i "throttled" = false).
  { intros Hne. destruct i as [| | |s| |]; try reflexivity. cbn [eq_str].
    destruct (String.eqb_spec s "throttled"); congruence. }
  split; [|split].
  - intros ->. reflexivity.
  - intros Hne m Hm. now rewrite (Hi Hne), Hm.
  - intros Hne Hm. now rewrite (Hi Hne), Hm.
Qed.

(** C8 (amended): for a response ["error <payload>"] whose payload is a
    mapping without an ["id"], [getResponse] fails with the [KeyError] of the
    missing key; no [vndbException] is built and there is no generic
    message. *)
Theorem getResponse_error_without_id self self' body d :
  getRawResponse self = (Ok ("error" ++ String SP body), self') ->
  json_loads E body = Some (JObj d) ->
  dict_get "id" d = None ->
  getResponse E self = (Raise (KeyError "id"), self').
Proof.
  intros Hraw Hload Hid.
  rewrite (getResponse_parts _ _ _ _ Hraw eq_refl), Hload.
  cbn [String.eqb Ascii.eqb Bool.eqb]. unfold bind, pure, raise.
  cbn [subscript]. now rewrite Hid.
Qed.

End Codec.

(** C5 (amended): [getRawResponse] reads until the bytes read in this call
    hold a delimiter, and returns all of them, every delimiter removed and
    the ends stripped of whitespace.  What the last read holds after the first
    delimiter is thus part of the returned text; only the reads not made yet
    stay in the socket. *)
Theorem getRawResponse_reads_to_delimiter self pre c rest :
  inbox self = (pre ++ c :: rest)%list ->
  Forall (fun x => String.length x <= 4096) (pre ++ [c]) ->
  contains EOT (cat pre) = false ->
  contains EOT c = true ->
  getRawResponse self
  = (decode (strip (remove_all EOT (cat pre ++ c))), set_inbox rest self).
Proof.
  intros Hi Hs Hp Hc. unfold getRawResponse, bind.
  rewrite (recv_loop_reads pre (S (reads_left self)) EmptyString self c rest);
    auto.
  pose proof (reads_left_bound self) as Hb. rewrite Hi, length_app in Hb.
  simpl in Hb. lia.
Qed.

Lemma getRawResponse_reads_to_delimiter_witness :
  getRawResponse
    (set_inbox ["resu"; "lts {}" ++ str1 EOT ++ "ok" ++ str1 EOT; "next"]
       Ref.socket)
  = (Ok "results {}ok", set_inbox ["next"] Ref.socket).
Proof.
  apply (getRawResponse_reads_to_delimiter
           (set_inbox ["resu"; "lts {}" ++ str1 EOT ++ "ok" ++ str1 EOT; "next"]
              Ref.socket)
           ["resu"] ("lts {}" ++ str1 EOT ++ "ok" ++ str1 EOT) ["next"]).
  - reflexivity.
  - repeat constructor; simpl; lia.
  - reflexivity.
  - reflexivity.
Defined.

(** C5 as stated fails: of two frames that arrive in one read, the second is
    appended to the first and nothing is kept for the next call, which then
    waits. *)
Lemma getRawResponse_merges_next_frame :
  fst (getRawResponse two_frames) = Ok "okresults {}"
  /\ fst (getRawResponse two_frames) <> Ok "ok"
  /\ inbox (snd (getRawResponse two_frames)) = []
  /\ fst (getRawResponse (snd (getRawResponse two_frames))) = Blocked.
Proof. vm_compute. repeat split; discriminate. Qed.

Section RoundTrip.

Variable E : Env.

(** C4 (amended): for a command name of visible ASCII characters without
    uppercase letters, other than ["error"], and a mapping as argument, reading
    back the frame [sendCommand] builds gives the command name as status and
    [json.loads(json.dumps(argument))] as payload. *)
Theorem decode_encode_dict self command d v :
  (forall hist f, server E (hist ++ [f])%list = [f]) ->
  inbox self = [] ->
  command_name command = true ->
  command <> "error" ->
  json_loads E (json_dumps (JObj d)) = Some v ->
  roundtrip E command (DictArgs d) self
  = (Ok (command, v),
     set_sock (sent self ++ [frame command (DictArgs d)])%list [] self).
Proof.
  intros Hecho Hin Hname Hne Hload.
  unfold command_name in Hname. apply andb_true_iff in Hname as [Hnil Hall].
  destruct (all_name_chars _ Hall) as (Hlow & Hsp & Hpr).
  unfold roundtrip, bind at 1, sendCommand, sock_send.
  rewrite Hecho, Hin. change ([] ++ [frame command (DictArgs d)])%list
    with [frame command (DictArgs d)].
  set (fr := frame command (DictArgs d)).
  set (self1 := set_sock (sent self ++ [fr])%list [fr] self).
  destruct (json_dumps_obj d) as [b Hb].
  assert (Hfr : fr = (command ++ String SP (json_dumps (JObj d))) ++ str1 EOT).
  { unfold fr, frame. now rewrite Hlow. }
  assert (Hpb : printable (command ++ String SP (json_dumps (JObj d))) = true).
  { rewrite printable_app, Hpr. cbn [printable andb].
    now rewrite json_dumps_printable. }
  assert (Hraw : getRawResponse self1
                 = (Ok (command ++ String SP (json_dumps (JObj d))),
                    set_inbox [] self1)).
  { assert (Hi1 : inbox self1
                   = [(command ++ String SP (json_dumps (JObj d))) ++ str1 EOT])
      by (unfold self1; cbn [inbox set_sock]; now rewrite Hfr).
    rewrite (getRawResponse_frame self1 _ [] Hi1 (printable_no_EOT _ Hpb)).
    f_equal. unfold decode, strip.
    assert (Hstrip : lstrip (rstrip (command ++ String SP (json_dumps (JObj d))))
                     = command ++ String SP (json_dumps (JObj d))).
    { rewrite Hb.
      replace (command ++ String SP (String "{" (b ++ "}")))
        with ((command ++ String SP (String "{" b)) ++ str1 "}")
        by (rewrite append_assoc; reflexivity).
      rewrite rstrip_id by reflexivity.
      destruct command as [|c0 cs]; [discriminate|].
      cbn [all_chars] in Hall. apply andb_true_iff in Hall as [Hc0 _].
      destruct (name_char_facts c0 Hc0) as (_ & _ & Hc0s & _).
      cbn [append]. now rewrite lstrip_id. }
    rewrite Hstrip. now rewrite (printable_utf8 _ Hpb). }
  rewrite (getResponse_parts E _ _ _ _ Hraw Hsp), Hload.
  destruct (String.eqb_spec command "error"); [congruence|reflexivity].
Qed.

End RoundTrip.

Lemma decode_encode_dict_witness :
  roundtrip echo_env "login"
    (DictArgs [("protocol", JNum 1); ("client", JStr "VNDB String Formatter")])
    Ref.socket
  = (Ok ("login",
         JObj [("protocol", JNum 1); ("client", JStr "VNDB String Formatter")]),
     set_sock
       [frame "login"
          (DictArgs [("protocol", JNum 1);
                     ("client", JStr "VNDB String Formatter")])] [] Ref.socket).
Proof.
  apply (decode_encode_dict echo_env Ref.socket "login").
  - intros hist f. unfold echo_env, echo. cbn [server].
    now rewrite last_last.
  - reflexivity.
  - reflexivity.
  - discriminate.
  - reflexivity.
Defined.

(** C4 as stated fails: an uppercase letter of the command comes back
    lowered, and a raw string argument is handed to [json.loads], which
    refuses the query text of a [get]. *)
Lemma decode_encode_not_identity :
  fst (roundtrip echo_env "Get" (DictArgs [("page", JNum 1)]) Ref.socket)
  = Ok ("get", JObj [("page", JNum 1)])
  /\ fst (roundtrip echo_env "get" (StrArgs "vn basic (id = 17)") Ref.socket)
     = Raise JSONDecodeError.
Proof. vm_compute. split; reflexivity. Qed.

Lemma getResponse_without_payload_witness :
  getResponse (Ref.env []) bare_ok
  = (Raise (UnboundLocalError "args"), Ref.socket).
Proof.
  apply (getResponse_without_payload (Ref.env []) bare_ok Ref.socket "ok");
    reflexivity.
Defined.

Lemma getResponse_error_witness :
  getResponse (Ref.env [])
    (error_response (JObj [("id", JStr "throttled"); ("msg", JStr "Slow down")]))
  = (Raise (vndbException
              (JStr "Throttled, limit of 100 commands per 10 minutes")),
     Ref.socket)
  /\ getResponse (Ref.env [])
       (error_response
          (JObj [("id", JStr "parse"); ("msg", JStr "Invalid command")]))
     = (Raise (vndbException (JStr "Invalid command")), Ref.socket)
  /\ getResponse (Ref.env []) (error_response (JObj [("id", JStr "auth")]))
     = (Raise (KeyError "msg"), Ref.socket).
Proof.
  split; [|split].
  - refine (proj1 (getResponse_error (Ref.env []) _ Ref.socket
                     (json_dumps (JObj [("id", JStr "throttled");
                                        ("msg", JStr "Slow down")]))
                     [("id", JStr "throttled"); ("msg", JStr "Slow down")]
                     (JStr "throttled") _ _ _) _); reflexivity.
  - refine (proj1 (proj2 (getResponse_error (Ref.env []) _ Ref.socket
                     (json_dumps (JObj [("id", JStr "parse");
                                        ("msg", JStr "Invalid command")]))
                     [("id", JStr "parse"); ("msg", JStr "Invalid command")]
                     (JStr "parse") _ _ _)) _ _ _);
      try reflexivity; discriminate.
  - refine (proj2 (proj2 (getResponse_error (Ref.env []) _ Ref.socket
                     (json_dumps (JObj [("id", JStr "auth")]))
                     [("id", JStr "auth")] (JStr "auth") _ _ _)) _ _);
      try reflexivity; discriminate.
Defined.

(** C7 as stated fails: an error payload with an ["id"] other than
    ["throttled"] and no ["msg"] ends in a [KeyError], which is no
    [vndbException] whatever the message. *)
Lemma error_without_msg_is_KeyError :
  fst (getResponse (Ref.env []) (error_response (JObj [("id", JStr "parse")])))
  = Raise (KeyError "msg")
  /\ forall m,
       fst (getResponse (Ref.env [])
              (error_response (JObj [("id", JStr "parse")])))
       <> Raise (vndbException m).
Proof. vm_compute. split; [reflexivity|discriminate]. Qed.

Lemma getResponse_error_without_id_witness :
  getResponse (Ref.env []) (error_response (JObj [("code", JNum 7)]))
  = (Raise (KeyError "id"), Ref.socket).
Proof.
  apply (getResponse_error_without_id (Ref.env []) _ Ref.socket
           (json_dumps (JObj [("code", JNum 7)])) [("code", JNum 7)]);
    reflexivity.
Defined.

(** C8 as stated fails: an error payload with neither ["id"] nor ["msg"]
    ends in a [KeyError], which is no [vndbException] whatever the message. *)
Lemma error_without_fields_is_KeyError :
  fst (getResponse (Ref.env []) (error_response (JObj [])))
  = Raise (KeyError "id")
  /\ forall m,
       fst (getResponse (Ref.env []) (error_response (JObj [])))
       <> Raise (vndbException m).
Proof. vm_compute. split; [reflexivity|discriminate]. Qed.

(* ===================================================================== *)
(** * The cache of [VNDB.get] *)
(* ===================================================================== *)

Lemma Qltb_lt x y : Qltb x y = true <-> (x < y)%Q.
Proof. unfold Qltb, Qlt. apply Z.ltb_lt. Qed.

Section Cache.

Variable E : Env.

Lemma stale_nil args ttl t : stale E args ttl t [].
Proof. intros [|? ?] e l2 H; discriminate. Qed.

Lemma count_query_cons args t x l :
  t + count_query args (x :: l)
  = t + count_query args [x] + count_query args l.
Proof.
  unfold count_query. simpl.
  destruct (String.eqb (e_query x) args); simpl; lia.
Qed.

Lemma fresh_cons args ttl t x l1 e :
  fresh E args ttl (t + count_query args [x]) l1 e <->
  fresh E args ttl t (x :: l1) e.
Proof.
  unfold fresh, reading. now rewrite (count_query_cons args t x l1).
Qed.

Lemma stale_cons args ttl t x l :
  ~ fresh E args ttl t [] x ->
  stale E args ttl (t + count_query args [x]) l ->
  stale E args ttl t (x :: l).
Proof.
  intros Hx Hl [|y l1] e l2 Heq; inversion Heq; subst; [exact Hx|].
  intros Hf. apply (Hl l1 e l2 eq_refl). now apply fresh_cons.
Qed.

(** What the scan returns, in terms of the first fresh entry. *)
Lemma cache_scan_spec args ttl l : forall t,
  match cache_scan E args ttl l t with
  | (Some r, t') =>
      exists l1 e l2,
        l = (l1 ++ e :: l2)%list /\ fresh E args ttl t l1 e
        /\ stale E args ttl t l1 /\ r = e_results e
        /\ t' = S (t + count_query args l1)
  | (None, t') => stale E args ttl t l /\ t' = t + count_query args l
  end.
Proof.
  induction l as [|x l IH]; intros t.
  - simpl. split; [apply stale_nil|]. unfold count_query. simpl. lia.
  - cbn [cache_scan].
    destruct (String.eqb_spec (e_query x) args) as [Hq|Hq].
    + destruct (Qltb (clock E t) (e_time x + ttl)) eqn:Hlt.
      * exists [], x, l.
        split; [reflexivity|]. split; [|split; [apply stale_nil|]].
        -- split; [exact Hq|]. unfold reading, count_query. simpl.
           rewrite Nat.add_0_r. now apply Qltb_lt.
        -- split; [reflexivity|]. unfold count_query. simpl. lia.
      * assert (Hc : count_query args [x] = 1).
        { unfold count_query. simpl.
          now rewrite (proj2 (String.eqb_eq _ _) Hq). }
        assert (Hx : ~ fresh E args ttl t [] x).
        { intros [_ H]. unfold reading, count_query in H. simpl in H.
          rewrite Nat.add_0_r in H. apply Qltb_lt in H. congruence. }
        specialize (IH (S t)).
        destruct (cache_scan E args ttl l (S t)) as [[r|] t'];
          replace (S t) with (t + count_query args [x]) in IH by lia.
        -- destruct IH as (l1 & e & l2 & -> & Hf & Hs & -> & ->).
           exists (x :: l1), e, l2.
           split; [reflexivity|]. split; [now apply fresh_cons|].
           split; [now apply stale_cons|]. split; [reflexivity|].
           unfold count_query. simpl.
              rewrite (proj2 (String.eqb_eq _ _) Hq). simpl.
              fold (count_query args l1). lia.
        -- destruct IH as [Hs ->]. split; [now apply stale_cons|].
           unfold count_query. simpl.
           rewrite (proj2 (String.eqb_eq _ _) Hq). simpl. lia.
    + assert (Hc : count_query args [x] = 0).
      { unfold count_query. simpl.
        now rewrite (proj2 (String.eqb_neq _ _) Hq). }
      assert (Hx : ~ fresh E args ttl t [] x) by (intros [H _]; congruence).
      specialize (IH t).
      destruct (cache_scan E args ttl l t) as [[r|] t'];
        replace t with (t + count_query args [x]) in IH by lia.
      * destruct IH as (l1 & e & l2 & -> & Hf & Hs & -> & ->).
        exists (x :: l1), e, l2.
        split; [reflexivity|]. split; [now apply fresh_cons|].
        split; [now apply stale_cons|]. split; [reflexivity|].
        unfold count_query. simpl.
        rewrite (proj2 (String.eqb_neq _ _) Hq). simpl. lia.
      * destruct IH as [Hs ->]. split.
        -- now apply stale_cons.
        -- unfold count_query. simpl.
           rewrite (proj2 (String.eqb_neq _ _) Hq). simpl. lia.
Qed.

End Cache.

Section CachedGet.

Variable E : Env.

Lemma stale_inv args ttl t x l :
  stale E args ttl t (x :: l) ->
  ~ fresh E args ttl t [] x /\ stale E args ttl (t + count_query args [x]) l.
Proof.
  intros H. split.
  - apply (H [] x l eq_refl).
  - intros l1 e l2 -> Hf. apply (H (x :: l1) e l2 eq_refl).
    now apply fresh_cons.
Qed.

(** The scan passes over a stale prefix. *)
Lemma cache_scan_skip args ttl l1 : forall t l,
  stale E args ttl t l1 ->
  cache_scan E args ttl (l1 ++ l) t
  = cache_scan E args ttl l (t + count_query args l1).
Proof.
  induction l1 as [|x l1 IH]; intros t l Hs.
  - unfold count_query. simpl. now rewrite Nat.add_0_r.
  - apply stale_inv in Hs as [Hx Hs].
    rewrite count_query_cons. rewrite <- (IH _ l Hs).
    cbn [app cache_scan]. unfold count_query. simpl.
    destruct (String.eqb_spec (e_query x) args) as [Hq|Hq]; simpl.
    + destruct (Qltb (clock E t) (e_time x + ttl)) eqn:Hlt.
      * exfalso. apply Hx. split; [exact Hq|].
        unfold reading, count_query. simpl. rewrite Nat.add_0_r.
        now apply Qltb_lt.
      * now rewrite Nat.add_1_r.
    + now rewrite Nat.add_0_r.
Qed.

Lemma cache_scan_hit args ttl t l1 e l2 :
  fresh E args ttl t l1 e -> stale E args ttl t l1 ->
  cache_scan E args ttl (l1 ++ e :: l2) t
  = (Some (e_results e), S (t + count_query args l1)).
Proof.
  intros [Hq Hlt] Hs. rewrite (cache_scan_skip _ _ _ _ _ Hs).
  unfold reading in Hlt. cbn [cache_scan]. rewrite (proj2 (String.eqb_eq _ _) Hq).
  now rewrite (proj2 (Qltb_lt _ _) Hlt).
Qed.

(** Receiving touches nothing but the inbox. *)
Lemma recv_loop_state fuel : forall whole self,
  exists inb, snd (recv_loop fuel whole self) = set_inbox inb self.
Proof.
  induction fuel as [|fuel IH]; intros whole self.
  - exists (inbox self). simpl. now rewrite set_inbox_same.
  - cbn [recv_loop]. unfold bind, sock_recv.
    destruct (inbox self) as [|c rest] eqn:Hi.
    + exists []. simpl. now rewrite <- Hi, set_inbox_same.
    + destruct (Nat.leb (String.length c) 4096).
      * destruct (contains EOT (whole ++ c)); [now exists rest|].
        destruct (IH (whole ++ c) (set_inbox rest self)) as [inb H].
        exists inb. now rewrite H.
      * destruct (contains EOT (whole ++ substring 0 4096 c)); [eexists; reflexivity|].
        match goal with
        | |- context [recv_loop fuel ?w ?s] => destruct (IH w s) as [inb H]
        end.
        exists inb. now rewrite H.
Qed.

Lemma getRawResponse_state self :
  exists inb, snd (getRawResponse self) = set_inbox inb self.
Proof.
  unfold getRawResponse, bind.
  destruct (recv_loop_state (S (reads_left self)) EmptyString self) as [inb H].
  exists inb.
  destruct (recv_loop (S (reads_left self)) EmptyString self) as [[w| | |] s];
    simpl in *; exact H.
Qed.

Lemma getResponse_state self :
  exists inb, snd (getResponse E self) = set_inbox inb self.
Proof.
  destruct (getRawResponse_state self) as [inb H]. exists inb.
  unfold getResponse, bind, pure, mreturn, raise.
  destruct (getRawResponse self) as [[res| | |] s]; simpl in *; try exact H.
  repeat match goal with
         | |- context [if ?b then _ else _] => destruct b; simpl
         | |- context [match json_loads ?e ?s with _ => _ end] =>
             destruct (json_loads e s); simpl
         | |- context [match subscript ?a ?k with _ => _ end] =>
             destruct (subscript a k); simpl
         end; exact H.
Qed.

(** After a scan without a hit: one frame out, one response in, and on
    success one entry more. *)
Lemma VNDB_get_miss self type flags filters options t' :
  let args := query_of type flags filters options in
  cache_scan E args (cachetime self) (cache self) (ticks self) = (None, t') ->
  exists inb,
    let self2 :=
      set_sock (sent self ++ [frame "get" (StrArgs args)])%list inb
        (set_ticks t' self) in
    VNDB_get E type flags filters options self
    = match fst (VNDB_get E type flags filters options self) with
      | Ok r =>
          (Ok r, set_cache (cache self ++ [{| e_time := clock E t';
                                              e_query := args;
                                              e_results := r |}])%list
                   (set_ticks (S t') self2))
      | o => (o, self2)
      end.
Proof.
  intros args Hscan. unfold VNDB_get. fold args. rewrite Hscan.
  unfold bind, sendCommand, sock_send, time_time.
  match goal with
  | |- context [getResponse E ?s] =>
      destruct (getResponse_state s) as [inb Hst];
      destruct (getResponse E s) as [[r| | |] s2]
  end; simpl in Hst; subst s2; exists inb; reflexivity.
Qed.


End CachedGet.

(* ===================================================================== *)
(** * Pagination *)
(* ===================================================================== *)

Lemma py_len_iter v l :
  py_iter v = Ok l -> py_len v = Ok (Z.of_nat (List.length l)).
Proof.
  destruct v; simpl; intros H; inversion H; subst;
    now rewrite ?length_map.
Qed.

Lemma int_add_shift N n w : int_add 0 n = Ok w -> int_add N n = Ok (N + w)%Z.
Proof.
  destruct n; simpl; intros H; inversion H; subst; reflexivity.
Qed.

Lemma firstn_firstn_app {A} n (a b : list A) :
  firstn n (firstn n a ++ b) = firstn n (a ++ b).
Proof.
  revert a. induction n as [|n IH]; intros a; [reflexivity|].
  destruct a as [|x a]; simpl; [reflexivity|]. now rewrite IH.
Qed.

Lemma truncate_app num a b :
  match num with Some n => (0 <= n)%Z | None => True end ->
  truncate num (truncate num a ++ b) = truncate num (a ++ b).
Proof.
  destruct num as [n|]; [|reflexivity]. intros Hn. unfold truncate, slice_to.
  rewrite (proj2 (Z.leb_le 0 n) Hn). apply firstn_firstn_app.
Qed.

Lemma set_instance_twice a b c :
  set_instance a (set_instance b c) = set_instance a c.
Proof. reflexivity. Qed.

Section Pagination.

Variable E : Env.

(** One turn of the loop on a page that is fetched and well formed. *)
Lemma get_loop_step fuel type flags filters num ret_dict p N ret c d v' adds w more :
  VNDB_get E type flags filters (page_options p) (instance c) = (Ok d, v') ->
  yields ret_dict d adds w more ->
  get_loop E (S fuel) type flags filters num ret_dict
    [("results", JNum 25); ("page", JNum p)] N ret c
  = if match num with
       | Some n => if (n <=? N + w)%Z then false else more
       | None => more
       end
    then get_loop E fuel type flags filters num ret_dict
           [("results", JNum 25); ("page", JNum (p + 1))] (N + w)
           (truncate num (ret ++ adds)) (set_instance v' c)
    else (Ok (truncate num (ret ++ adds)), set_instance v' c).
Proof.
  intros Hget [Hy (m & Hm & Hmore)].
  cbn [get_loop]. unfold bind at 1, on_instance.
  fold (page_options p). rewrite Hget.
  unfold bind at 1, pure at 1. cbn [subscript dict_get String.eqb Ascii.eqb
                                    Bool.eqb].
  unfold bind at 1, pure at 1. cbn [add_int].
  cbn [dict_set String.eqb Ascii.eqb Bool.eqb].
  destruct ret_dict.
  - destruct Hy as (items & Hi & Hit & ->).
    unfold bind, pure, mreturn. rewrite Hi, (py_len_iter _ _ Hit), Hit, Hm, Hmore.
    destruct num as [n|];
      [destruct (n <=? N + Z.of_nat (List.length adds))%Z|];
      destruct more; reflexivity.
  - destruct Hy as (n & Hn & Hw & ->).
    unfold bind, pure, mreturn. rewrite Hn, (int_add_shift N _ _ Hw), Hm, Hmore.
    destruct num as [k|]; [destruct (k <=? N + w)%Z|];
      destruct more; reflexivity.
Qed.

Lemma reached_dec num N :
  match num with
  | Some n => if (n <=? N)%Z then reached num N else ~ reached num N
  | None => ~ reached num N
  end.
Proof.
  destruct num as [n|]; simpl; [|tauto].
  destruct (Z.leb_spec n N); lia.
Qed.

(** The loop follows a run, given fuel for its pages. *)
Lemma get_loop_run type flags filters num ret_dict p N v pages v' :
  fetch_run E type flags filters ret_dict num p N v pages v' ->
  match num with Some n => (0 <= n)%Z | None => True end ->
  forall fuel ret c,
    instance c = v ->
    List.length pages <= fuel ->
    get_loop E fuel type flags filters num ret_dict
      [("results", JNum 25); ("page", JNum p)] N ret c
    = (Ok (truncate num (ret ++ concat pages)), set_instance v' c).
Proof.
  intros Hrun Hnum.
  induction Hrun as [p N v d v' adds w more Hget Hy Hstop
                    |p N v d v' adds w rest v'' Hget Hy Hgo Hrun IH];
    intros fuel ret c Hc Hf; subst v;
    (destruct fuel as [|fuel]; [simpl in Hf; lia|]);
    rewrite (get_loop_step _ _ _ _ _ _ _ _ _ _ _ _ _ _ _ Hget Hy).
  - simpl concat. rewrite app_nil_r.
    pose proof (reached_dec num (N + w)) as Hr.
    destruct num as [n|].
    + destruct (n <=? N + w)%Z; [reflexivity|].
      destruct Hstop as [->|Hs]; [reflexivity|contradiction].
    + destruct Hstop as [->|[]]. reflexivity.
  - pose proof (reached_dec num (N + w)) as Hr.
    assert (Hcont : match num with
                    | Some n => if (n <=? N + w)%Z then false else true
                    | None => true
                    end = true).
    { destruct num as [n|]; [|reflexivity].
      destruct (n <=? N + w)%Z; [contradiction|reflexivity]. }
    rewrite Hcont. simpl in Hf.
    rewrite (IH fuel (truncate num (ret ++ adds)) (set_instance v' c) eq_refl)
      by lia.
    rewrite set_instance_twice, truncate_app by exact Hnum.
    simpl concat. now rewrite app_assoc.
Qed.

End Pagination.

Lemma int_add_unshift N n N' :
  int_add N n = Ok N' -> exists w, int_add 0 n = Ok w /\ N' = (N + w)%Z.
Proof.
  destruct n; simpl; intros H; inversion H; subst; eexists; split;
    reflexivity.
Qed.

Section PaginationConverse.

Variable E : Env.

(** A turn of the loop that does not raise has fetched a well-formed page. *)
Lemma get_loop_first fuel type flags filters num ret_dict p N ret c r c' :
  get_loop E (S fuel) type flags filters num ret_dict
    [("results", JNum 25); ("page", JNum p)] N ret c = (Ok r, c') ->
  exists d v' adds w more,
    VNDB_get E type flags filters (page_options p) (instance c) = (Ok d, v')
    /\ yields ret_dict d adds w more.
Proof.
  intros H. cbn [get_loop] in H. fold (page_options p) in H.
  apply bind_ok in H as (d & c1 & Hd & H).
  unfold on_instance in Hd.
  destruct (VNDB_get E type flags filters (page_options p) (instance c))
    as [o v1] eqn:Hget.
  injection Hd as -> <-.
  apply bind_ok in H as (pg & s1 & Hpg & H). apply pure_ok in Hpg as [_ ->].
  apply bind_ok in H as (pg' & s2 & Hpg' & H). apply pure_ok in Hpg' as [_ ->].
  apply bind_ok in H as (N' & s3 & HN & H).
  apply bind_ok in H as (ret' & s4 & Hret & H).
  apply bind_ok in H as (m & s5 & Hm & _). apply pure_ok in Hm as [Hm _].
  exists d, v1. destruct ret_dict.
  - apply bind_ok in Hret as (items & s6 & Hi & Hret).
    apply pure_ok in Hi as [Hi _].
    apply bind_ok in Hret as (l & s7 & Hl & _). apply pure_ok in Hl as [Hl _].
    exists l, (Z.of_nat (List.length l)), (truthy m). split; [reflexivity|].
    split; [exists items; auto|exists m; auto].
  - apply bind_ok in HN as (n & s6 & Hn & HN). apply pure_ok in Hn as [Hn _].
    apply pure_ok in HN as [HN _].
    destruct (int_add_unshift _ _ _ HN) as (w & Hw & _).
    exists [d], w, (truthy m). split; [reflexivity|].
    split; [exists n; auto|exists m; auto].
Qed.

(** Whatever the loop returns, it has followed a run. *)
Lemma get_loop_inv type flags filters num ret_dict fuel :
  match num with Some n => (0 <= n)%Z | None => True end ->
  forall p N ret c r c',
    get_loop E fuel type flags filters num ret_dict
      [("results", JNum 25); ("page", JNum p)] N ret c = (Ok r, c') ->
    exists pages v',
      fetch_run E type flags filters ret_dict num p N (instance c) pages v'
      /\ List.length pages <= fuel
      /\ r = truncate num (ret ++ concat pages)
      /\ c' = set_instance v' c.
Proof.
  intros Hnum. induction fuel as [|fuel IH]; intros p N ret c r c' H;
    [discriminate|].
  destruct (get_loop_first _ _ _ _ _ _ _ _ _ _ _ _ H)
    as (d & v1 & adds & w & more & Hget & Hy).
  rewrite (get_loop_step E _ _ _ _ _ _ _ _ _ _ _ _ _ _ _ Hget Hy) in H.
  pose proof (reached_dec num (N + w)) as Hr.
  destruct (match num with
            | Some n => if (n <=? N + w)%Z then false else more
            | None => more
            end) eqn:Hcont.
  - apply IH in H as (pages & v' & Hrun & Hlen & -> & ->).
    cbn [instance set_instance] in Hrun.
    assert (more = true /\ ~ reached num (N + w)) as [-> Hnr].
    { destruct num as [n|]; [|auto].
      destruct (n <=? N + w)%Z; [discriminate|auto]. }
    exists (adds :: pages), v'. split; [|split; [simpl; lia|split]].
    + eapply fetch_next; eauto.
    + rewrite truncate_app by exact Hnum. simpl concat.
      now rewrite app_assoc.
    + reflexivity.
  - injection H as <- <-.
    exists [adds], v1. split; [|split; [simpl; lia|split]].
    + eapply fetch_stop; eauto.
      destruct num as [n|]; [|now left].
      destruct (n <=? N + w)%Z; [now right|now left].
    + simpl concat. now rewrite app_nil_r.
    + reflexivity.
Qed.

End PaginationConverse.


Section PaginationTheorems.

Variable E : Env.

Lemma VNDBClient_get_default fuel self filters type flags num ret_dict :
  json_loads E DEFAULT_OPTIONS = Some (JObj [("results", JNum 25)]) ->
  VNDBClient_get E fuel filters type flags num DEFAULT_OPTIONS ret_dict self
  = get_loop E fuel type flags filters num
      match ret_dict with None => self_ret_dict self | Some b => b end
      [("results", JNum 25); ("page", JNum 1)] 0 [] self.
Proof.
  intros Hload. unfold VNDBClient_get.
  change (String.eqb DEFAULT_OPTIONS EmptyString) with false. cbv iota.
  rewrite Hload. reflexivity.
Qed.

(** C1: with no limit and the default options, in item mode, [get] asks for
    page 1, then for each next page as long as the page just fetched has a
    true ["more"], and returns the items of all the pages in page order: it
    returns exactly when such a run of fetches succeeds, and then that. *)
Theorem get_all_pages fuel self filters type flags ret_dict ret c' :
  json_loads E DEFAULT_OPTIONS = Some (JObj [("results", JNum 25)]) ->
  match ret_dict with None => self_ret_dict self | Some b => b end = true ->
  VNDBClient_get E fuel filters type flags None DEFAULT_OPTIONS ret_dict self
  = (Ok ret, c')
  <-> exists pages v',
        fetch_run E type flags filters true None 1 0 (instance self) pages v'
        /\ List.length pages <= fuel
        /\ ret = concat pages
        /\ c' = set_instance v' self.
Proof.
  intros Hload Hrd.
  rewrite (VNDBClient_get_default _ _ _ _ _ _ _ Hload), Hrd. split.
  - intros H. apply (get_loop_inv E _ _ _ None true fuel I) in H.
    exact H.
  - intros (pages & v' & Hrun & Hlen & -> & ->).
    now rewrite (get_loop_run E _ _ _ _ _ _ _ _ _ _ Hrun I fuel [] self
                   eq_refl).
Qed.

(** C2 (amended): with a limit [num >= 0] and the default options, [get]
    stops with the first page whose ["more"] is false or with which the
    count reaches [num], the count being the number of items fetched in
    item mode and the sum of the pages' ["num"] in raw mode; it returns the
    first [num] elements of what it gathered, items in item mode and whole
    pages in raw mode, so never more than [num] elements. *)
Theorem get_limited fuel self filters type flags num ret_dict ret c' :
  json_loads E DEFAULT_OPTIONS = Some (JObj [("results", JNum 25)]) ->
  (0 <= num)%Z ->
  (VNDBClient_get E fuel filters type flags (Some num) DEFAULT_OPTIONS
     (Some ret_dict) self = (Ok ret, c')
   <-> exists pages v',
         fetch_run E type flags filters ret_dict (Some num) 1 0
           (instance self) pages v'
         /\ List.length pages <= fuel
         /\ ret = firstn (Z.to_nat num) (concat pages)
         /\ c' = set_instance v' self)
  /\ (VNDBClient_get E fuel filters type flags (Some num) DEFAULT_OPTIONS
        (Some ret_dict) self = (Ok ret, c') ->
      List.length ret <= Z.to_nat num).
Proof.
  intros Hload Hnum.
  assert (Htr : forall l, truncate (Some num) l = firstn (Z.to_nat num) l).
  { intros l. unfold truncate, slice_to.
    now rewrite (proj2 (Z.leb_le 0 num) Hnum). }
  assert (Hiff : VNDBClient_get E fuel filters type flags (Some num)
                   DEFAULT_OPTIONS (Some ret_dict) self = (Ok ret, c')
                 <-> exists pages v',
                       fetch_run E type flags filters ret_dict (Some num) 1 0
                         (instance self) pages v'
                       /\ List.length pages <= fuel
                       /\ ret = firstn (Z.to_nat num) (concat pages)
                       /\ c' = set_instance v' self).
  { rewrite (VNDBClient_get_default _ _ _ _ _ _ _ Hload). split.
    - intros H.
      apply (get_loop_inv E _ _ _ (Some num) ret_dict fuel Hnum) in H
        as (pages & v' & Hrun & Hlen & -> & ->).
      exists pages, v'. now rewrite Htr.
    - intros (pages & v' & Hrun & Hlen & -> & ->).
      rewrite (get_loop_run E _ _ _ _ _ _ _ _ _ _ Hrun Hnum fuel [] self
                 eq_refl) by exact Hlen.
      now rewrite Htr. }
  split; [exact Hiff|].
  intros H. apply Hiff in H as (pages & v' & _ & _ & -> & _).
  apply firstn_le_length.
Qed.

End PaginationTheorems.

Lemma demo_yields items more :
  yields true (demo_page items more) items (Z.of_nat (List.length items)) more.
Proof.
  split.
  - exists (JArr items). repeat split.
  - exists (JBool more). repeat split.
Qed.

Lemma demo_yields_raw items more :
  yields false (demo_page items more) [demo_page items more]
    (Z.of_nat (List.length items)) more.
Proof.
  split.
  - exists (JNum (Z.of_nat (List.length items))). repeat split.
  - exists (JBool more). repeat split.
Qed.

Lemma get_all_pages_witness :
  fst (VNDBClient_get three_pages 3 demo_filter "vn" "basic" None
         DEFAULT_OPTIONS None (Ref.client Ref.socket))
  = Ok [JNum 1; JNum 2; JNum 3; JNum 4; JNum 5; JNum 6].
Proof.
  set (v1 := snd (VNDB_get three_pages "vn" "basic" demo_filter
                    (page_options 1) Ref.socket)).
  set (v2 := snd (VNDB_get three_pages "vn" "basic" demo_filter
                    (page_options 2) v1)).
  set (v3 := snd (VNDB_get three_pages "vn" "basic" demo_filter
                    (page_options 3) v2)).
  rewrite (proj2 (get_all_pages three_pages 3 (Ref.client Ref.socket)
                    demo_filter "vn" "basic" None
                    [JNum 1; JNum 2; JNum 3; JNum 4; JNum 5; JNum 6]
                    (set_instance v3 (Ref.client Ref.socket))
                    eq_refl eq_refl));
    [reflexivity|].
  exists [[JNum 1; JNum 2]; [JNum 3; JNum 4]; [JNum 5; JNum 6]], v3.
  split; [|split; [simpl; lia|split; reflexivity]].
  apply (fetch_next _ _ _ _ _ _ 1 0 _ (demo_page [JNum 1; JNum 2] true) v1
           _ 2%Z);
    [apply run_result; vm_compute; reflexivity
    |apply (demo_yields [JNum 1; JNum 2] true) |simpl; tauto|].
  apply (fetch_next _ _ _ _ _ _ 2 2 _ (demo_page [JNum 3; JNum 4] true) v2
           _ 2%Z);
    [apply run_result; vm_compute; reflexivity
    |apply (demo_yields [JNum 3; JNum 4] true) |simpl; tauto|].
  apply (fetch_stop _ _ _ _ _ _ 3 4 _ (demo_page [JNum 5; JNum 6] false) v3
           _ 2%Z false);
    [apply run_result; vm_compute; reflexivity
    |apply (demo_yields [JNum 5; JNum 6] false) |now left].
Defined.

Lemma get_limited_witness :
  fst (VNDBClient_get three_pages 3 demo_filter "vn" "basic" (Some 3%Z)
         DEFAULT_OPTIONS (Some true) (Ref.client Ref.socket))
  = Ok [JNum 1; JNum 2; JNum 3].
Proof.
  set (v1 := snd (VNDB_get three_pages "vn" "basic" demo_filter
                    (page_options 1) Ref.socket)).
  set (v2 := snd (VNDB_get three_pages "vn" "basic" demo_filter
                    (page_options 2) v1)).
  rewrite (proj2 (proj1 (get_limited three_pages 3 (Ref.client Ref.socket)
                           demo_filter "vn" "basic" 3 true
                           [JNum 1; JNum 2; JNum 3]
                           (set_instance v2 (Ref.client Ref.socket))
                           eq_refl ltac:(lia))));
    [reflexivity|].
  exists [[JNum 1; JNum 2]; [JNum 3; JNum 4]], v2.
  split; [|split; [simpl; lia|split; reflexivity]].
  apply (fetch_next _ _ _ _ _ _ 1 0 _ (demo_page [JNum 1; JNum 2] true) v1
           _ 2%Z);
    [apply run_result; vm_compute; reflexivity
    |apply (demo_yields [JNum 1; JNum 2] true) |simpl; lia|].
  apply (fetch_stop _ _ _ _ _ _ 2 2 _ (demo_page [JNum 3; JNum 4] true) v2
           _ 2%Z true);
    [apply run_result; vm_compute; reflexivity
    |apply (demo_yields [JNum 3; JNum 4] true) |right; simpl; lia].
Defined.

(** C2 as stated fails.  In raw mode a limit of 3 returns two pages, which
    hold four items; in item mode a limit of 10 returns the six items there
    are; a limit of -1 returns the first page without its last item. *)
Lemma limit_is_not_the_number_of_items :
  fst (VNDBClient_get three_pages 3 demo_filter "vn" "basic" (Some 3%Z)
         DEFAULT_OPTIONS (Some false) (Ref.client Ref.socket))
  = Ok [demo_page [JNum 1; JNum 2] true; demo_page [JNum 3; JNum 4] true]
  /\ fst (VNDBClient_get three_pages 3 demo_filter "vn" "basic" (Some 10%Z)
            DEFAULT_OPTIONS (Some true) (Ref.client Ref.socket))
     = Ok [JNum 1; JNum 2; JNum 3; JNum 4; JNum 5; JNum 6]
  /\ fst (VNDBClient_get three_pages 3 demo_filter "vn" "basic" (Some (-1)%Z)
            DEFAULT_OPTIONS (Some true) (Ref.client Ref.socket))
     = Ok [JNum 1].
Proof. vm_compute. repeat split; reflexivity. Qed.

(* ===================================================================== *)
(** * The searches *)
(* ===================================================================== *)

Lemma never_bind {S A B} e (m : M S A) (k : A -> M S B) :
  never e m -> (forall a, never e (k a)) -> never e (bind m k).
Proof.
  intros Hm Hk s. unfold bind. specialize (Hm s).
  destruct (m s) as [[a|e'| |] s']; simpl in *; try discriminate.
  - apply Hk.
  - intros H. apply Hm. congruence.
Qed.

Lemma never_pure {S A} e (o : outcome A) :
  o <> Raise e -> never e (@pure S A o).
Proof. intros H s. exact H. Qed.

Lemma never_mreturn {S A} e (a : A) : never e (@mreturn S A a).
Proof. intros s. discriminate. Qed.

Lemma never_raise {S A} e e' : e' <> e -> never e (@raise S A e').
Proof. intros H s. simpl. congruence. Qed.

Lemma subscript_no_assert v k : subscript v k <> Raise AssertionError.
Proof.
  destruct v; simpl; try discriminate. destruct (dict_get k kv); discriminate.
Qed.

Lemma py_len_no_assert v : py_len v <> Raise AssertionError.
Proof. destruct v; discriminate. Qed.

Lemma py_iter_no_assert v : py_iter v <> Raise AssertionError.
Proof. destruct v; discriminate. Qed.

Lemma int_add_no_assert n v : int_add n v <> Raise AssertionError.
Proof. destruct v; discriminate. Qed.

Lemma add_int_no_assert v n : add_int v n <> Raise AssertionError.
Proof. destruct v; discriminate. Qed.

Lemma load_local_no_assert {A} name (v : option A) :
  load_local name v <> Raise AssertionError.
Proof. destruct v; discriminate. Qed.

Create HintDb no_assert.
#[local] Hint Resolve subscript_no_assert py_len_no_assert py_iter_no_assert
  int_add_no_assert add_int_no_assert load_local_no_assert : no_assert.

Ltac no_assert :=
  repeat first
    [ apply never_bind; [|intros ?]
    | apply never_mreturn
    | apply never_raise; discriminate
    | apply never_pure; auto with no_assert; fail
    | match goal with
      | |- never _ (if ?b then _ else _) => destruct b
      | |- never _ (match ?x with _ => _ end) => destruct x
      end ].

Section Searches.

Variable E : Env.

Lemma recv_loop_no_assert fuel : forall whole,
  never AssertionError (recv_loop fuel whole).
Proof.
  induction fuel as [|fuel IH]; intros whole; cbn [recv_loop].
  - apply never_pure. discriminate.
  - apply never_bind.
    + intros s. unfold sock_recv.
      destruct (inbox s); [discriminate|].
      destruct (Nat.leb _ _); discriminate.
    + intros chunk. destruct (contains EOT (whole ++ chunk));
        [apply never_mreturn|apply IH].
Qed.

Lemma getRawResponse_no_assert : never AssertionError getRawResponse.
Proof.
  intros s. unfold getRawResponse.
  apply (never_bind AssertionError (recv_loop (S (reads_left s)) EmptyString)).
  - apply recv_loop_no_assert.
  - intros w. apply never_pure. unfold decode.
    destruct (utf8_valid _); discriminate.
Qed.

Lemma getResponse_no_assert : never AssertionError (getResponse E).
Proof.
  unfold getResponse. apply never_bind; [apply getRawResponse_no_assert|].
  intros res. no_assert.
Qed.

Lemma VNDB_get_no_assert type flags filters options :
  never AssertionError (VNDB_get E type flags filters options).
Proof.
  intros s. unfold VNDB_get.
  destruct (cache_scan _ _ _ _ _) as [[r|] t]; [discriminate|].
  match goal with
  | |- fst (?m _) <> _ => assert (H : never AssertionError m); [|apply H]
  end.
  apply never_bind; [intros ?; discriminate|]. intros _.
  apply never_bind; [apply getResponse_no_assert|]. intros r.
  apply never_bind; [intros ?; discriminate|]. intros now s'. discriminate.
Qed.

Lemma on_instance_no_assert {A} (m : M VNDB A) :
  never AssertionError m -> never AssertionError (on_instance m).
Proof.
  intros H c. unfold on_instance. specialize (H (instance c)).
  destruct (m (instance c)). exact H.
Qed.

Lemma get_loop_no_assert fuel : forall type flags filters num ret_dict od N ret,
  never AssertionError
    (get_loop E fuel type flags filters num ret_dict od N ret).
Proof.
  induction fuel as [|fuel IH]; intros; cbn [get_loop].
  - apply never_pure. discriminate.
  - apply never_bind;
      [apply on_instance_no_assert, VNDB_get_no_assert|intros d].
    do 5 (apply never_bind; [no_assert|intros ?]).
    match goal with
    | |- never _ (if ?b then _ else _) => destruct b
    end; [apply IH|apply never_mreturn].
Qed.

Lemma VNDBClient_get_no_assert fuel filters type flags num options ret_dict :
  never AssertionError
    (VNDBClient_get E fuel filters type flags num options ret_dict).
Proof.
  intros c. unfold VNDBClient_get.
  match goal with
  | |- fst (?m _) <> _ => assert (H : never AssertionError m); [|apply H]
  end.
  apply never_bind; [no_assert|intros od].
  apply never_bind; [no_assert|intros od'].
  apply get_loop_no_assert.
Qed.

Lemma mem_In x l : mem x l = true <-> In x l.
Proof.
  unfold mem. rewrite existsb_exists. split.
  - intros (y & Hy & Heq). apply String.eqb_eq in Heq. now subst.
  - intros H. exists x. split; [exact H|apply String.eqb_refl].
Qed.

(** C10: [search] passes its assertion exactly for the types ["vn"],
    ["producer"], ["character"] and ["staff"], and then is the [get] of the
    filter it builds; for any other type, ["release"] among them, it raises
    [AssertionError] and leaves the client as it was, nothing sent.  Queries of
    type ["release"] are the ones [search_release] makes. *)
Theorem search_type_gate fuel pattern type flags num options ret_dict method c :
  (In type searchable
   <-> fst (search E fuel pattern type flags num options ret_dict method c)
       <> Raise AssertionError)
  /\ (In type searchable ->
      search E fuel pattern type flags num options ret_dict method c
      = VNDBClient_get E fuel
          ("(" ++ or_default method "search~" ++ dq (py_format E pattern) ++ ")")
          type flags num options ret_dict c)
  /\ (~ In type searchable ->
      search E fuel pattern type flags num options ret_dict method c
      = (Raise AssertionError, c))
  /\ search E fuel pattern "release" flags num options ret_dict method c
     = (Raise AssertionError, c)
  /\ search_release E fuel pattern flags num options ret_dict
     = (ens <- VNDBClient_get E fuel
                 (if is_int pattern
                  then "(vn=" ++ dq (py_format E pattern) ++ ")"
                  else "(title~" ++ dq (py_format E pattern) ++ ")")
                 "release" flags num options ret_dict ;;
        for_each (relabel_release E) ens).
Proof.
  assert (Hyes : In type searchable ->
            search E fuel pattern type flags num options ret_dict method c
            = VNDBClient_get E fuel
                ("(" ++ or_default method "search~"
                     ++ dq (py_format E pattern) ++ ")")
                type flags num options ret_dict c).
  { intros H. apply mem_In in H. unfold search. fold searchable.
    rewrite H. now destruct method. }
  assert (Hno : ~ In type searchable ->
            search E fuel pattern type flags num options ret_dict method c
            = (Raise AssertionError, c)).
  { intros H. unfold search. fold searchable.
    destruct (mem type searchable) eqn:Hm; [|reflexivity].
    apply mem_In in Hm. contradiction. }
  split; [|split; [exact Hyes|split; [exact Hno|split; reflexivity]]].
  split.
  - intros H. rewrite (Hyes H). apply VNDBClient_get_no_assert.
  - intros H. destruct (mem type searchable) eqn:Hm; [now apply mem_In|].
    exfalso. apply H. rewrite Hno; [reflexivity|].
    intros Hin. apply mem_In in Hin. congruence.
Qed.

End Searches.

(* ===================================================================== *)
(** * [full_search] *)
(* ===================================================================== *)

Lemma dict_get_set_same k v d : dict_get k (dict_set k v d) = Some v.
Proof.
  induction d as [|[k' v'] d IH]; simpl.
  - now rewrite String.eqb_refl.
  - destruct (String.eqb k' k) eqn:Hk; simpl; now rewrite Hk.
Qed.

Lemma dict_get_set_other k k' v d :
  k <> k' -> dict_get k' (dict_set k v d) = dict_get k' d.
Proof.
  intros Hne. induction d as [|[k0 v0] d IH]; simpl.
  - now rewrite (proj2 (String.eqb_neq _ _) Hne).
  - destruct (String.eqb_spec k0 k) as [->|Hk]; simpl.
    + now rewrite (proj2 (String.eqb_neq _ _) Hne).
    + now rewrite IH.
Qed.

Lemma others_dict_set k v d :
  attached_key k = true -> others (dict_set k v d) = others d.
Proof.
  intros Hk. induction d as [|[k0 v0] d IH]; simpl.
  - now rewrite Hk.
  - destruct (String.eqb_spec k0 k) as [->|Hne]; simpl.
    + now rewrite Hk.
    + now rewrite IH.
Qed.

Lemma mem_remove_other x y l :
  x <> y -> mem x (list_remove y l) = mem x l.
Proof.
  intros Hne. induction l as [|z l IH]; [reflexivity|].
  unfold mem in *. simpl.
  destruct (String.eqb_spec z y) as [->|Hz]; simpl.
  - now rewrite (proj2 (String.eqb_neq _ _) Hne).
  - now rewrite IH.
Qed.

Section FullSearch.

Variable E : Env.
Variable fuel : nat.
Variables release_kwds character_kwds : kwds.

Lemma attach_ok vn c e c' :
  attach E fuel true true release_kwds character_kwds vn c = (Ok e, c') <->
  exists d i rs c1 cs,
    vn = JObj d /\ dict_get "id" d = Some i
    /\ releases_of E fuel release_kwds i c = (Ok rs, c1)
    /\ characters_of E fuel character_kwds i c1 = (Ok cs, c')
    /\ e = JObj (dict_set "characters" (JArr cs)
                   (dict_set "releases" (JArr rs) d)).
Proof.
  unfold attach.
  fold (releases_of E fuel release_kwds) (characters_of E fuel character_kwds). split.
  - intros H.
    apply bind_ok in H as (vn1 & s1 & H1 & H).
    apply bind_ok in H1 as (i & s2 & Hi & H1).
    apply pure_ok in Hi as [Hi ->].
    apply subscript_ok in Hi as (d & -> & Hid).
    apply bind_ok in H1 as (rs & s3 & Hrs & H1).
    apply pure_ok in H1 as [H1 ->]. cbn [setitem] in H1.
    injection H1 as <-.
    apply bind_ok in H as (i' & s4 & Hi' & H).
    apply pure_ok in Hi' as [Hi' ->].
    cbn [subscript] in Hi'.
    rewrite dict_get_set_other, Hid in Hi' by discriminate.
    injection Hi' as <-.
    apply bind_ok in H as (cs & s5 & Hcs & H).
    apply pure_ok in H as [H ->]. cbn [setitem] in H. injection H as <-.
    exists d, i, rs. do 2 eexists.
    split; [reflexivity|]. split; [exact Hid|]. split; [exact Hrs|].
    split; [exact Hcs|reflexivity].
  - intros (d & i & rs & c1 & cs & -> & Hid & Hrs & Hcs & ->).
    apply bind_ok. exists (JObj (dict_set "releases" (JArr rs) d)), c1. split.
    + apply bind_ok. exists i, c. split.
      * apply pure_ok. split; [cbn [subscript]; now rewrite Hid|reflexivity].
      * apply bind_ok. exists rs, c1. split; [exact Hrs|].
        apply pure_ok. split; reflexivity.
    + apply bind_ok. exists i, c1. split.
      * apply pure_ok. split; [|reflexivity]. cbn [subscript].
        rewrite dict_get_set_other by discriminate. now rewrite Hid.
      * apply bind_ok. exists cs, c'. split; [exact Hcs|].
        apply pure_ok. split; reflexivity.
Qed.

Lemma for_each_attach vns : forall c es c',
  for_each (attach E fuel true true release_kwds character_kwds) vns c
  = (Ok es, c')
  <-> attach_run E fuel release_kwds character_kwds c vns es c'.
Proof.
  induction vns as [|vn vns IH]; intros c es c'; cbn [for_each].
  - split.
    + intros [= <- <-]. constructor.
    + intros H. inversion H. reflexivity.
  - split.
    + intros H.
      apply bind_ok in H as (e & c2 & He & H).
      apply bind_ok in H as (es' & c3 & Hes & H).
      injection H as <- <-.
      apply attach_ok in He as (d & i & rs & c1 & cs & -> & Hid & Hrs & Hcs & ->).
      apply IH in Hes. econstructor; eauto.
    + intros H. inversion H as [|? d i rs c1 cs c2 ? es' ? Hid Hrs Hcs Hrun];
        subst.
      apply bind_ok. eexists _, c2. split.
      * apply attach_ok. exists d, i, rs, c1, cs. auto.
      * apply bind_ok. exists es', c'. split; [now apply IH|reflexivity].
Qed.

Lemma attach_run_attached c vns es c' :
  attach_run E fuel release_kwds character_kwds c vns es c' -> Forall2 attached vns es.
Proof.
  induction 1 as [|c d i rs c1 cs c2 vns es c3 Hid Hrs Hcs Hrun IH];
    constructor; [|exact IH].
  exists d, (dict_set "characters" (JArr cs) (dict_set "releases" (JArr rs) d)),
    rs, cs.
  repeat split.
  - now rewrite dict_get_set_other, dict_get_set_same by discriminate.
  - apply dict_get_set_same.
  - now rewrite !others_dict_set by reflexivity.
Qed.

(** C9: when [flags] names both ["releases"] and ["characters"],
    [full_search] returns exactly when the search of the primary entries and
    the two dependent searches of each entry return; its result has the
    primary entries in their order, each with a list under ["releases"] and
    one under ["characters"], its other fields unchanged and in place. *)
Theorem full_search_attaches pattern flags num options method c es c' :
  mem "releases" (split "," flags) = true ->
  mem "characters" (split "," flags) = true ->
  (full_search E fuel pattern flags num options release_kwds character_kwds
     method c = (Ok es, c')
   <-> exists vns c1,
         search_vn E fuel pattern (primary_flags flags) num options (Some true)
           method c = (Ok vns, c1)
         /\ attach_run E fuel release_kwds character_kwds c1 vns es c')
  /\ (full_search E fuel pattern flags num options release_kwds character_kwds
        method c = (Ok es, c') ->
      exists vns c1,
        search_vn E fuel pattern (primary_flags flags) num options (Some true)
          method c = (Ok vns, c1)
        /\ Forall2 attached vns es).
Proof.
  intros Hr Hc.
  assert (Hiff : full_search E fuel pattern flags num options release_kwds
                   character_kwds method c = (Ok es, c')
                 <-> exists vns c1,
                       search_vn E fuel pattern (primary_flags flags) num
                         options (Some true) method c = (Ok vns, c1)
                       /\ attach_run E fuel release_kwds character_kwds c1 vns es c').
  { unfold full_search, primary_flags. rewrite Hr.
    rewrite (mem_remove_other "characters" "releases") by discriminate.
    rewrite Hc. rewrite bind_ok.
    split; intros (vns & c1 & Hs & Ha); exists vns, c1;
      (split; [exact Hs|]); now apply for_each_attach. }
  split; [exact Hiff|].
  intros H. apply Hiff in H as (vns & c1 & Hs & Ha).
  exists vns, c1. split; [exact Hs|]. eapply attach_run_attached; eauto.
Qed.

End FullSearch.

Lemma full_search_attaches_witness :
  exists vns c1,
    search_vn catalog 2 (JStr "Clannad")
      (primary_flags "basic,releases,characters") None DEFAULT_OPTIONS
      (Some true) None (Ref.client Ref.socket) = (Ok vns, c1)
    /\ Forall2 attached vns [clannad_full].
Proof.
  apply (proj2 (full_search_attaches catalog 2 no_kwds no_kwds (JStr "Clannad")
                  "basic,releases,characters" None DEFAULT_OPTIONS None
                  (Ref.client Ref.socket) [clannad_full]
                  (snd (full_search catalog 2 (JStr "Clannad")
                          "basic,releases,characters" None DEFAULT_OPTIONS
                          no_kwds no_kwds None (Ref.client Ref.socket)))
                  eq_refl eq_refl)).
  apply run_result. vm_compute. reflexivity.
Defined.

(** The frames the three-page peer receives: one per page without a limit,
    two for a limit of 3, none the second time within the lifetime of the
    cache. *)
Example round_trips_all :
  sent (instance (snd (VNDBClient_get three_pages 3 demo_filter "vn" "basic"
                         None DEFAULT_OPTIONS None (Ref.client Ref.socket))))
  = [demo_get 1; demo_get 2; demo_get 3].
Proof. vm_compute. reflexivity. Qed.

Example round_trips_limit :
  sent (instance (snd (VNDBClient_get three_pages 3 demo_filter "vn" "basic"
                         (Some 3%Z) DEFAULT_OPTIONS None
                         (Ref.client Ref.socket))))
  = [demo_get 1; demo_get 2].
Proof. vm_compute. reflexivity. Qed.

Example cache_hit_second_time :
  let first := VNDB_get three_pages "vn" "basic" demo_filter (page_options 1)
                 Ref.socket in
  let second := VNDB_get three_pages "vn" "basic" demo_filter (page_options 1)
                  (snd first) in
  fst second = fst first /\ sent (snd second) = [demo_get 1].
Proof. vm_compute. split; reflexivity. Qed.

(** After the lifetime of the cache the same query goes out again. *)
Example cache_expiry :
  let first := VNDB_get three_pages "vn" "basic" demo_filter (page_options 1)
                 Ref.socket in
  let later := set_ticks 1000 (snd first) in
  sent (snd (VNDB_get three_pages "vn" "basic" demo_filter (page_options 1)
               later))
  = [demo_get 1; demo_get 1].
Proof. vm_compute. reflexivity. Qed.

Example search_release_query :
  sent (instance (snd (search_release catalog 2 (JNum 17) "basic,producers"
                         None DEFAULT_OPTIONS None (Ref.client Ref.socket))))
  = [first_page_of "release" "basic,producers" ("(vn=" ++ dq "17" ++ ")")].
Proof. vm_compute. reflexivity. Qed.

(* ===================================================================== *)
(** * Further properties: receiving *)
(* ===================================================================== *)

(** A read without the delimiter, of any length, is taken in and the loop
    goes on with the next one. *)
Lemma recv_loop_skip fuel : forall c whole rest self,
  inbox self = c :: rest ->
  contains EOT whole = false ->
  contains EOT c = false ->
  String.length c < fuel ->
  exists fuel',
    fuel - S (String.length c) <= fuel'
    /\ recv_loop fuel whole self
       = recv_loop fuel' (whole ++ c) (set_inbox rest self).
Proof.
  induction fuel as [|fuel IH]; intros c whole rest self Hi Hw Hc Hf; [lia|].
  cbn [recv_loop]. unfold bind.
  destruct (Nat.le_gt_cases (String.length c) 4096) as [Hs|Hs].
  - rewrite (sock_recv_small _ _ _ Hi Hs).
    rewrite contains_app, Hw, Hc. cbn [orb].
    exists fuel. split; [lia|reflexivity].
  - rewrite (sock_recv_big _ _ _ Hi Hs).
    assert (Hn : 4096 <= String.length c) by lia.
    pose proof (substring_take_drop 4096 c Hn) as Hsplit.
    pose proof (length_substring_drop 4096 c Hn) as Hlen.
    set (b1 := substring 0 4096 c) in *.
    set (b2 := substring 4096 (String.length c - 4096) c) in *.
    assert (Hb12 : contains EOT b1 = false /\ contains EOT b2 = false).
    { rewrite <- Hsplit, contains_app in Hc. now apply orb_false_iff in Hc. }
    destruct Hb12 as [Hb1 Hb2].
    rewrite contains_app, Hw, Hb1. cbn [orb].
    destruct (IH b2 (whole ++ b1) rest (set_inbox (b2 :: rest) self))
      as (fuel' & Hfuel & Heq).
    + reflexivity.
    + now rewrite contains_app, Hw, Hb1.
    + exact Hb2.
    + lia.
    + exists fuel'. split; [lia|].
      rewrite Heq, set_inbox_twice, append_assoc, Hsplit. reflexivity.
Qed.

Lemma reads_of_app a b : reads_of (a ++ b) = reads_of a + reads_of b.
Proof. induction a as [|c a IH]; simpl; [reflexivity|]. rewrite IH. lia. Qed.

(** Reads without the delimiter, then a read that ends with the only one it
    has: the loop returns everything up to there. *)
Lemma recv_loop_stream pre : forall fuel whole self body rest,
  inbox self = (pre ++ (body ++ str1 EOT)%string :: rest)%list ->
  contains EOT whole = false ->
  contains EOT (cat pre) = false ->
  contains EOT body = false ->
  reads_of (pre ++ [body ++ str1 EOT]) < fuel ->
  recv_loop fuel whole self
  = (Ok (whole ++ cat pre ++ body ++ str1 EOT), set_inbox rest self).
Proof.
  induction pre as [|c pre IH]; intros fuel whole self body rest Hi Hw Hp Hb Hf.
  - simpl in *. rewrite length_append in Hf. simpl in Hf.
    apply recv_loop_frame; auto. lia.
  - simpl in Hi, Hp, Hf. rewrite contains_app in Hp.
    apply orb_false_iff in Hp as [Hc Hp].
    destruct (recv_loop_skip fuel c whole _ self Hi Hw Hc ltac:(lia))
      as (fuel' & Hfuel & ->).
    rewrite (IH fuel' (whole ++ c) _ body rest); auto.
    + rewrite set_inbox_twice. simpl cat. now rewrite !append_assoc.
    + now rewrite contains_app, Hw, Hc.
    + lia.
Qed.

Lemma reads_left_reads_of self : reads_left self = reads_of (inbox self).
Proof. reflexivity. Qed.

(** X1: a frame is put together from as many reads as it takes, whatever
    their sizes: when the first delimiter of the stream is the last byte of a
    read, [getRawResponse] returns the bytes before it, stripped, and leaves
    the following reads in the socket. *)
Theorem getRawResponse_reassembles self pre body rest :
  inbox self = (pre ++ (body ++ str1 EOT)%string :: rest)%list ->
  contains EOT (cat pre) = false ->
  contains EOT body = false ->
  getRawResponse self
  = (decode (strip (cat pre ++ body)), set_inbox rest self).
Proof.
  intros Hi Hp Hb. unfold getRawResponse, bind.
  rewrite (recv_loop_stream pre _ EmptyString self body rest Hi eq_refl Hp Hb).
  - cbn [append]. rewrite <- append_assoc, remove_all_app.
    rewrite remove_all_id by now rewrite contains_app, Hp, Hb.
    simpl. now rewrite append_nil_r.
  - rewrite reads_left_reads_of, Hi.
    replace (pre ++ (body ++ str1 EOT)%string :: rest)%list
      with ((pre ++ [(body ++ str1 EOT)%string]) ++ rest)%list
      by (rewrite <- app_assoc; reflexivity).
    rewrite !reads_of_app. lia.
Qed.

Lemma getRawResponse_reassembles_witness :
  getRawResponse (set_inbox ["  resu"; "lts "; long_frame; "next"] Ref.socket)
  = (Ok ("results " ++ replicate 5000 "a"), set_inbox ["next"] Ref.socket).
Proof.
  rewrite (getRawResponse_reassembles
             (set_inbox ["  resu"; "lts "; long_frame; "next"] Ref.socket)
             ["  resu"; "lts "] (replicate 5000 "a") ["next"]
             eq_refl eq_refl ltac:(vm_compute; reflexivity)).
  vm_compute. reflexivity.
Defined.

(** Without a delimiter the loop uses up the reads and then waits. *)
Lemma recv_loop_blocked l : forall fuel whole self,
  inbox self = l ->
  contains EOT whole = false ->
  contains EOT (cat l) = false ->
  reads_of l < fuel ->
  recv_loop fuel whole self = (Blocked, set_inbox [] self).
Proof.
  induction l as [|c l IH]; intros fuel whole self Hi Hw Hl Hf.
  - destruct fuel as [|fuel]; [simpl in Hf; lia|].
    cbn [recv_loop]. unfold bind, sock_recv. rewrite Hi.
    now rewrite <- Hi, set_inbox_same.
  - simpl in Hl, Hf. rewrite contains_app in Hl.
    apply orb_false_iff in Hl as [Hc Hl].
    destruct (recv_loop_skip fuel c whole l self Hi Hw Hc ltac:(lia))
      as (fuel' & Hfuel & ->).
    rewrite (IH fuel' (whole ++ c) (set_inbox l self)); auto.
    + now rewrite contains_app, Hw, Hc.
    + lia.
Qed.

(** X2: when what the peer sends holds no delimiter, [getRawResponse]
    neither returns nor raises: it reads all there is and waits for more. *)
Theorem getRawResponse_waits self :
  contains EOT (cat (inbox self)) = false ->
  getRawResponse self = (Blocked, set_inbox [] self).
Proof.
  intros H. unfold getRawResponse, bind.
  now rewrite (recv_loop_blocked (inbox self) (S (reads_left self))
                 EmptyString self eq_refl eq_refl H
                 (Nat.lt_succ_diag_r (reads_left self))).
Qed.

Lemma getRawResponse_waits_witness :
  getRawResponse (set_inbox ["results {"; "}"] Ref.socket)
  = (Blocked, Ref.socket).
Proof.
  apply (getRawResponse_waits (set_inbox ["results {"; "}"] Ref.socket)).
  reflexivity.
Defined.

(* ===================================================================== *)
(** * Further properties: decoding, sending, logging in *)
(* ===================================================================== *)

Section DecodingMore.

Variable E : Env.

(** X3: a response made of a status other than ["error"], a space and a
    JSON text is decoded into the status and the value of the text, which is
    everything after the first space. *)
Theorem getResponse_status_payload self self' tok body v :
  getRawResponse self = (Ok (tok ++ String SP body), self') ->
  contains SP tok = false ->
  tok <> "error" ->
  json_loads E body = Some v ->
  getResponse E self = (Ok (tok, v), self').
Proof.
  intros Hraw Htok Hne Hload.
  rewrite (getResponse_parts E _ _ _ _ Hraw Htok), Hload.
  destruct (String.eqb_spec tok "error"); [congruence|reflexivity].
Qed.

(** X4: when what follows the first space is not JSON, [getResponse] fails
    with the decoder's error, whatever the status, ["error"] included. *)
Theorem getResponse_bad_json self self' tok body :
  getRawResponse self = (Ok (tok ++ String SP body), self') ->
  contains SP tok = false ->
  json_loads E body = None ->
  getResponse E self = (Raise JSONDecodeError, self').
Proof.
  intros Hraw Htok Hload.
  now rewrite (getResponse_parts E _ _ _ _ Hraw Htok), Hload.
Qed.

(** X5: an ["error"] response whose payload is JSON but not a mapping ends
    in a [TypeError], from indexing the payload with ['id']. *)
Theorem getResponse_error_not_mapping self self' body v :
  getRawResponse self = (Ok ("error" ++ String SP body), self') ->
  json_loads E body = Some v ->
  (forall d, v <> JObj d) ->
  getResponse E self = (Raise TypeError, self').
Proof.
  intros Hraw Hload Hv.
  rewrite (getResponse_parts E _ _ _ _ Hraw eq_refl), Hload.
  cbn [String.eqb Ascii.eqb Bool.eqb]. unfold bind, pure.
  destruct v; try reflexivity. elim (Hv kv). reflexivity.
Qed.

(** X6: [getResponse] only reads: whatever it returns or raises, nothing is
    sent, and the cache, its lifetime and the clock are as before. *)
Theorem getResponse_only_reads self :
  sent (snd (getResponse E self)) = sent self
  /\ cache (snd (getResponse E self)) = cache self
  /\ cachetime (snd (getResponse E self)) = cachetime self
  /\ ticks (snd (getResponse E self)) = ticks self.
Proof.
  destruct (getResponse_state E self) as [inb ->]. repeat split.
Qed.

End DecodingMore.

Lemma getResponse_status_payload_witness :
  getResponse (Ref.env []) (incoming "results" (json_dumps (demo_page [] false)))
  = (Ok ("results", demo_page [] false), Ref.socket).
Proof.
  apply (getResponse_status_payload (Ref.env []) _ Ref.socket "results"
           (json_dumps (demo_page [] false))).
  - reflexivity.
  - reflexivity.
  - discriminate.
  - reflexivity.
Defined.

Lemma getResponse_bad_json_witness :
  getResponse (Ref.env []) (incoming "results" "{oops")
  = (Raise JSONDecodeError, Ref.socket).
Proof.
  apply (getResponse_bad_json (Ref.env []) _ Ref.socket "results" "{oops");
    reflexivity.
Defined.

Lemma getResponse_error_not_mapping_witness :
  getResponse (Ref.env []) (incoming "error" "[1, 2]")
  = (Raise TypeError, Ref.socket).
Proof.
  apply (getResponse_error_not_mapping (Ref.env []) _ Ref.socket "[1, 2]"
           (JArr [JNum 1; JNum 2])); try reflexivity.
  discriminate.
Defined.

Lemma lower_char_EOT c : Ascii.eqb (lower_char c) EOT = Ascii.eqb c EOT.
Proof. destruct c as [[] [] [] [] [] [] [] []]; reflexivity. Qed.

Lemma contains_EOT_lower s : contains EOT (lower s) = contains EOT s.
Proof.
  induction s as [|c s IH]; simpl; [reflexivity|].
  now rewrite lower_char_EOT, IH.
Qed.

(** X7: the frame [sendCommand] builds for a mapping has one delimiter, its
    last byte, whatever the mapping holds: [json.dumps] writes the control
    characters of its strings as escapes.  Only the command name must be free
    of the delimiter. *)
Theorem sendCommand_dict_frame E command d self :
  contains EOT command = false ->
  exists body,
    contains EOT body = false
    /\ sendCommand E command (DictArgs d) self
       = (Ok tt,
          set_sock (sent self ++ [(body ++ str1 EOT)%string])%list
            (inbox self
             ++ server E (sent self ++ [(body ++ str1 EOT)%string]))%list
            self).
Proof.
  intros Hc. exists (lower command ++ " " ++ json_dumps (JObj d)). split.
  - rewrite !contains_app, contains_EOT_lower, Hc.
    now rewrite (printable_no_EOT _ (json_dumps_printable (JObj d))).
  - reflexivity.
Qed.

Lemma sendCommand_dict_frame_witness :
  exists body,
    contains EOT body = false
    /\ sendCommand echo_env "set"
         (DictArgs [("note", JStr ("a" ++ str1 EOT ++ "b"))]) Ref.socket
       = (Ok tt,
          set_sock [body ++ str1 EOT]
            (server echo_env [body ++ str1 EOT]) Ref.socket).
Proof.
  apply (sendCommand_dict_frame echo_env "set"
           [("note", JStr ("a" ++ str1 EOT ++ "b"))] Ref.socket).
  reflexivity.
Defined.

Lemma startswith_app p s : startswith p (p ++ s) = true.
Proof.
  unfold startswith. induction p as [|a p IH]; cbn [append String.prefix].
  - now destruct s.
  - destruct (ascii_dec a a); [exact IH|congruence].
Qed.

Section LoggingIn.

Variable E : Env.
Variables clientname clientver : string.
Variables username password : option string.

Lemma VNDB_init_sends self :
  VNDB_init E clientname clientver username password self
  = (res <- getRawResponse ;;
     if startswith "error " res then
       match json_loads E (join " " (tl (split SP res))) with
       | Some v => m <- pure (subscript v "msg") ;; raise (vndbException m)
       | None => raise JSONDecodeError
       end
     else
       fun self => (Ok tt, set_cachetime 720%Q (set_cache [] self)))
      (snd (sendCommand E "login"
              (DictArgs (login_args clientname clientver username password))
              self)).
Proof. reflexivity. Qed.

(** X8: [__init__] sends one [login] frame and takes any answer that does
    not begin with ["error "] as success, even one without a body such as
    ["ok"]; it then starts with an empty cache and a lifetime of 720. *)
Theorem VNDB_init_accepts self res :
  inbox self = [] ->
  server E (sent self
            ++ [frame "login"
                  (DictArgs (login_args clientname clientver username
                               password))])%list
  = [(res ++ str1 EOT)%string] ->
  contains EOT res = false ->
  strip res = res ->
  utf8_valid res = true ->
  startswith "error " res = false ->
  VNDB_init E clientname clientver username password self
  = (Ok tt,
     set_cachetime 720%Q
       (set_cache []
          (set_sock
             (sent self
              ++ [frame "login"
                    (DictArgs (login_args clientname clientver username
                                 password))])%list [] self))).
Proof.
  intros Hin Hsrv Heot Hstrip Hutf Hst.
  rewrite VNDB_init_sends. unfold sendCommand, sock_send. cbn [snd].
  rewrite Hsrv, Hin. cbn [app]. unfold bind.
  match goal with
  | |- context [getRawResponse ?s] =>
      rewrite (getRawResponse_frame s res [] eq_refl Heot)
  end.
  unfold decode. rewrite Hstrip, Hutf, Hst. reflexivity.
Qed.

(** X9: when the answer to [login] is ["error "] and a mapping with a
    ["msg"], [__init__] raises [vndbException] with that message. *)
Theorem VNDB_init_refused self body d m :
  inbox self = [] ->
  server E (sent self
            ++ [frame "login"
                  (DictArgs (login_args clientname clientver username
                               password))])%list
  = [("error " ++ body ++ str1 EOT)%string] ->
  contains EOT body = false ->
  strip ("error " ++ body) = "error " ++ body ->
  utf8_valid body = true ->
  json_loads E body = Some (JObj d) ->
  dict_get "msg" d = Some m ->
  VNDB_init E clientname clientver username password self
  = (Raise (vndbException m),
     set_sock
       (sent self
        ++ [frame "login"
              (DictArgs (login_args clientname clientver username
                           password))])%list [] self).
Proof.
  intros Hin Hsrv Heot Hstrip Hutf Hload Hmsg.
  rewrite VNDB_init_sends. unfold sendCommand, sock_send. cbn [snd].
  rewrite Hsrv, Hin. cbn [app]. unfold bind at 1.
  match goal with
  | |- context [getRawResponse ?s] =>
      rewrite (getRawResponse_frame s ("error " ++ body) [] eq_refl)
        by (rewrite contains_app; exact Heot)
  end.
  unfold decode. rewrite Hstrip.
  rewrite (utf8_valid_app "error " body eq_refl), Hutf. cbv beta iota.
  rewrite startswith_app.
  change ("error " ++ body) with ("error" ++ String SP body).
  rewrite (split_token SP "error" body eq_refl). cbn [tl].
  rewrite join_split, Hload. unfold bind, pure. cbn [subscript].
  now rewrite Hmsg.
Qed.

End LoggingIn.

Lemma VNDB_init_accepts_witness :
  VNDB_init welcoming CLIENT_NAME CLIENT_VER None None Ref.socket
  = (Ok tt, set_sock [login_frame] [] Ref.socket).
Proof.
  apply (VNDB_init_accepts welcoming CLIENT_NAME CLIENT_VER None None
           Ref.socket "ok"); reflexivity.
Defined.

Lemma VNDB_init_refused_witness :
  VNDB_init refusing CLIENT_NAME CLIENT_VER None None Ref.socket
  = (Raise (vndbException (JStr "Bad password")),
     set_sock [login_frame] [] Ref.socket).
Proof.
  apply (VNDB_init_refused refusing CLIENT_NAME CLIENT_VER None None
           Ref.socket
           (json_dumps (JObj [("id", JStr "auth");
                              ("msg", JStr "Bad password")]))
           [("id", JStr "auth"); ("msg", JStr "Bad password")]
           (JStr "Bad password")); vm_compute; reflexivity.
Defined.

(* ===================================================================== *)
(** * Further properties: the cache *)
(* ===================================================================== *)

Lemma grows_by_refl n s : grows_by n s s.
Proof.
  exists [], []. rewrite !app_nil_r. repeat split; simpl; lia.
Qed.

Lemma grows_by_trans n m s1 s2 s3 :
  grows_by n s1 s2 -> grows_by m s2 s3 -> grows_by (n + m) s1 s3.
Proof.
  intros (tc & ts & Hc & Hs & Hl & Hn & Ht & Hk)
         (tc' & ts' & Hc' & Hs' & Hl' & Hn' & Ht' & Hk').
  exists (tc ++ tc')%list, (ts ++ ts')%list.
  rewrite Hc', Hc, Hs', Hs, !app_assoc, !length_app.
  repeat split; try lia. congruence.
Qed.

Section CacheMore.

Variable E : Env.

Lemma scan_ticks args ttl l t :
  t <= snd (cache_scan E args ttl l t).
Proof.
  pose proof (cache_scan_spec E args ttl l t) as H.
  destruct (cache_scan E args ttl l t) as [[r|] t'].
  - destruct H as (l1 & e & l2 & _ & _ & _ & _ & ->). simpl. lia.
  - destruct H as [_ ->]. simpl. lia.
Qed.

(** A call of [VNDB.get] only makes the instance grow, by one frame at
    most. *)
Lemma VNDB_get_grows_by type flags filters options self :
  grows_by 1 self (snd (VNDB_get E type flags filters options self)).
Proof.
  pose proof (scan_ticks (query_of type flags filters options)
                (cachetime self) (cache self) (ticks self)) as Ht.
  destruct (cache_scan E (query_of type flags filters options)
              (cachetime self) (cache self) (ticks self))
    as [[r|] t'] eqn:Hscan; simpl in Ht.
  - unfold VNDB_get. rewrite Hscan.
    exists [], []. rewrite !app_nil_r. repeat split; simpl; lia.
  - destruct (VNDB_get_miss E self type flags filters options t' Hscan)
      as [inb Heq].
    cbv zeta in Heq.
    destruct (fst (VNDB_get E type flags filters options self));
      rewrite Heq; cbn [snd cache sent cachetime ticks set_cache set_ticks
                        set_sock].
    + do 2 eexists. split; [reflexivity|]. split; [reflexivity|].
      simpl. repeat split; lia.
    + exists []. eexists. split; [symmetry; apply app_nil_r|].
      split; [reflexivity|]. simpl. repeat split; lia.
    + exists []. eexists. split; [symmetry; apply app_nil_r|].
      split; [reflexivity|]. simpl. repeat split; lia.
    + exists []. eexists. split; [symmetry; apply app_nil_r|].
      split; [reflexivity|]. simpl. repeat split; lia.
Qed.

(** X10: [VNDB.get] never drops or changes an entry of the cache, expired
    or not, and never changes the lifetime: the entries stay at their places,
    and at most one is added, only when a frame was sent. *)
Theorem VNDB_get_keeps_entries type flags filters options self :
  let self' := snd (VNDB_get E type flags filters options self) in
  (forall i e, nth_error (cache self) i = Some e ->
               nth_error (cache self') i = Some e)
  /\ List.length (cache self') <= S (List.length (cache self))
  /\ (List.length (cache self) < List.length (cache self') ->
      List.length (sent self) < List.length (sent self'))
  /\ cachetime self' = cachetime self.
Proof.
  intros self'.
  destruct (VNDB_get_grows_by type flags filters options self)
    as (tc & ts & Hc & Hs & Hl & Hn & Ht & _).
  fold self' in Hc, Hs, Ht. rewrite Hc, Hs, !length_app. repeat split.
  - intros i e H. rewrite nth_error_app1; [exact H|].
    apply nth_error_Some. congruence.
  - lia.
  - lia.
  - exact Ht.
Qed.

Lemma stale_later args ttl t t2 l :
  monotone E -> t <= t2 ->
  stale E args ttl t l -> stale E args ttl t2 l.
Proof.
  intros Hm Hle Hs l1 e l2 Heq [Hq Hlt].
  apply (Hs l1 e l2 Heq). split; [exact Hq|].
  unfold reading in *.
  eapply Qle_lt_trans; [|exact Hlt]. apply Hm. lia.
Qed.

(** The state a miss that returns leaves. *)
Lemma VNDB_get_stored type flags filters options self r self1 :
  let args := query_of type flags filters options in
  stale E args (cachetime self) (ticks self) (cache self) ->
  VNDB_get E type flags filters options self = (Ok r, self1) ->
  cache self1
  = (cache self
     ++ [{| e_time := reading E args (ticks self) (cache self);
            e_query := args; e_results := r |}])%list
  /\ sent self1 = (sent self ++ [frame "get" (StrArgs args)])%list
  /\ cachetime self1 = cachetime self
  /\ ticks self1 = S (ticks self + count_query args (cache self)).
Proof.
  intros args Hs Hget.
  pose proof (cache_scan_skip E args _ (cache self) (ticks self) [] Hs)
    as Hscan.
  rewrite app_nil_r in Hscan. cbn [cache_scan] in Hscan.
  destruct (VNDB_get_miss E self type flags filters options _ Hscan)
    as [inb Heq].
  cbv zeta in Heq. rewrite Hget in Heq. cbn [fst] in Heq.
  injection Heq as ->. repeat split.
Qed.

(** X11: a result that [VNDB.get] has fetched answers the same query again
    without a frame being sent, as long as the time read when the scan
    reaches its entry is below the time stored with it plus [cachetime]
    (the clock not going back). *)
Theorem VNDB_get_twice_within_lifetime type flags filters options self r self1 :
  let args := query_of type flags filters options in
  monotone E ->
  stale E args (cachetime self) (ticks self) (cache self) ->
  VNDB_get E type flags filters options self = (Ok r, self1) ->
  (reading E args (ticks self1) (cache self)
   < reading E args (ticks self) (cache self) + cachetime self)%Q ->
  VNDB_get E type flags filters options self1
  = (Ok r, set_ticks (S (ticks self1 + count_query args (cache self))) self1).
Proof.
  intros args Hm Hs Hget Hlt.
  destruct (VNDB_get_stored _ _ _ _ _ _ _ Hs Hget) as (Hc & _ & Ht & Hk).
  fold args in Hc, Hk.
  unfold VNDB_get. fold args. rewrite Hc, Ht.
  rewrite (cache_scan_hit E args (cachetime self) (ticks self1) (cache self)
             _ []).
  - reflexivity.
  - split; [reflexivity|exact Hlt].
  - apply (stale_later _ _ (ticks self)); auto. lia.
Qed.

(** X12: once the time read when the scan reaches the stored entry is no
    longer below the time stored plus [cachetime], the same query is sent
    again; the old entry stays in the cache. *)
Theorem VNDB_get_again_after_lifetime type flags filters options self r self1 :
  let args := query_of type flags filters options in
  monotone E ->
  stale E args (cachetime self) (ticks self) (cache self) ->
  VNDB_get E type flags filters options self = (Ok r, self1) ->
  (reading E args (ticks self) (cache self) + cachetime self
   <= reading E args (ticks self1) (cache self))%Q ->
  sent (snd (VNDB_get E type flags filters options self1))
  = (sent self ++ [frame "get" (StrArgs args); frame "get" (StrArgs args)])%list
  /\ exists tail,
       cache (snd (VNDB_get E type flags filters options self1))
       = (cache self1 ++ tail)%list.
Proof.
  intros args Hm Hs Hget Hle.
  destruct (VNDB_get_stored _ _ _ _ _ _ _ Hs Hget) as (Hc & Hsent & Ht & Hk).
  fold args in Hc, Hsent, Hk.
  assert (Hscan : cache_scan E args (cachetime self1) (cache self1)
                    (ticks self1)
                  = (None, S (ticks self1 + count_query args (cache self)))).
  { rewrite Hc, Ht.
    rewrite (cache_scan_skip E args (cachetime self) (cache self)
               (ticks self1));
      [|apply (stale_later _ _ (ticks self)); auto; lia].
    cbn [cache_scan e_query e_time]. rewrite String.eqb_refl.
    destruct (Qltb _ _) eqn:Hq; [|reflexivity].
    apply Qltb_lt in Hq. unfold reading in Hle.
    exfalso. eapply Qlt_irrefl. eapply Qlt_le_trans; [exact Hq|exact Hle]. }
  destruct (VNDB_get_miss E self1 type flags filters options _ Hscan)
    as [inb Heq].
  cbv zeta in Heq. fold args in Heq. rewrite Heq.
  destruct (fst (VNDB_get E type flags filters options self1));
    cbn [snd sent cache set_cache set_ticks set_sock];
    rewrite Hsent, <- app_assoc; (split; [reflexivity|]);
    first [now eexists [_] | exists []; now rewrite app_nil_r].
Qed.

End CacheMore.

Lemma three_pages_monotone : monotone three_pages.
Proof.
  intros m n H. cbn [clock three_pages Ref.env].
  rewrite <- Zle_Qle. lia.
Qed.

Lemma three_pages_slowly_monotone : monotone three_pages_slowly.
Proof.
  intros m n H. cbn [clock three_pages_slowly].
  rewrite <- Zle_Qle. lia.
Qed.

Lemma VNDB_get_twice_within_lifetime_witness :
  VNDB_get three_pages "vn" "basic" demo_filter (page_options 1)
    (after_first_page three_pages)
  = (Ok (demo_page [JNum 1; JNum 2] true),
     set_ticks (S (ticks (after_first_page three_pages)
                   + count_query demo_query (cache Ref.socket)))
       (after_first_page three_pages)).
Proof.
  apply (VNDB_get_twice_within_lifetime three_pages "vn" "basic" demo_filter
           (page_options 1) Ref.socket (demo_page [JNum 1; JNum 2] true)
           (after_first_page three_pages)).
  - exact three_pages_monotone.
  - apply stale_nil.
  - apply run_result. vm_compute. reflexivity.
  - vm_compute. reflexivity.
Defined.

Lemma VNDB_get_again_after_lifetime_witness :
  sent (snd (VNDB_get three_pages_slowly "vn" "basic" demo_filter
               (page_options 1) (after_first_page three_pages_slowly)))
  = (sent Ref.socket
     ++ [frame "get" (StrArgs demo_query);
         frame "get" (StrArgs demo_query)])%list.
Proof.
  apply (proj1 (VNDB_get_again_after_lifetime three_pages_slowly "vn" "basic"
                  demo_filter (page_options 1) Ref.socket
                  (demo_page [JNum 1; JNum 2] true)
                  (after_first_page three_pages_slowly)
                  three_pages_slowly_monotone
                  (stale_nil three_pages_slowly _ _ _)
                  ltac:(apply run_result; vm_compute; reflexivity)
                  ltac:(vm_compute; discriminate))).
Defined.

(* ===================================================================== *)
(** * Further properties: pagination *)
(* ===================================================================== *)

Lemma set_instance_same c : set_instance (instance c) c = c.
Proof. now destruct c. Qed.

Lemma grows_by_le n m s s' : n <= m -> grows_by n s s' -> grows_by m s s'.
Proof.
  intros Hle (tc & ts & Hc & Hs & Hl & Hn & Ht & Hk).
  exists tc, ts. repeat split; auto; lia.
Qed.

Section PaginationMore.

Variable E : Env.

(** X13: a limit of 0 still costs the fetch of the first page; the result
    is empty. *)
Theorem get_limit_zero fuel self filters type flags ret_dict d v' adds w more :
  json_loads E DEFAULT_OPTIONS = Some (JObj [("results", JNum 25)]) ->
  VNDB_get E type flags filters (page_options 1) (instance self)
  = (Ok d, v') ->
  yields ret_dict d adds w more ->
  (0 <= w)%Z ->
  VNDBClient_get E (S fuel) filters type flags (Some 0%Z) DEFAULT_OPTIONS
    (Some ret_dict) self
  = (Ok [], set_instance v' self).
Proof.
  intros Hload Hget Hy Hw.
  rewrite (VNDBClient_get_default E _ _ _ _ _ _ _ Hload).
  rewrite (get_loop_step E _ _ _ _ _ _ _ _ _ _ _ _ _ _ _ Hget Hy).
  now rewrite (proj2 (Z.leb_le 0 (0 + w)) ltac:(lia)).
Qed.

(** The loop goes through the pages of a prefix. *)
Lemma get_loop_prefix type flags filters num ret_dict p N v n p' N' v'' :
  fetch_prefix E type flags filters ret_dict num p N v n p' N' v'' ->
  forall fuel ret c,
    instance c = v ->
    exists ret',
      get_loop E (n + fuel) type flags filters num ret_dict
        [("results", JNum 25); ("page", JNum p)] N ret c
      = get_loop E fuel type flags filters num ret_dict
          [("results", JNum 25); ("page", JNum p')] N' ret'
          (set_instance v'' c).
Proof.
  induction 1 as [p N v|p N v d v' adds w n p' N' v'' Hget Hy Hgo Hrun IH];
    intros fuel ret c Hc; subst v.
  - exists ret. now rewrite set_instance_same.
  - cbn [Nat.add].
    rewrite (get_loop_step E _ _ _ _ _ _ _ _ _ _ _ _ _ _ _ Hget Hy).
    pose proof (reached_dec num (N + w)) as Hr.
    assert (Hcont : match num with
                    | Some k => if (k <=? N + w)%Z then false else true
                    | None => true
                    end = true).
    { destruct num as [k|]; [|reflexivity].
      destruct (k <=? N + w)%Z; [contradiction|reflexivity]. }
    rewrite Hcont.
    destruct (IH fuel (truncate num (ret ++ adds)) (set_instance v' c) eq_refl)
      as [ret' Heq].
    exists ret'. now rewrite Heq, set_instance_twice.
Qed.

(** X14: when the fetch of a page raises, [get] raises the same exception:
    what the pages before it gave is not returned. *)
Theorem get_gives_up_on_error fuel self filters type flags num ret_dict
    n p N v e v' :
  json_loads E DEFAULT_OPTIONS = Some (JObj [("results", JNum 25)]) ->
  fetch_prefix E type flags filters ret_dict num 1 0 (instance self) n p N v ->
  VNDB_get E type flags filters (page_options p) v = (Raise e, v') ->
  n < fuel ->
  VNDBClient_get E fuel filters type flags num DEFAULT_OPTIONS (Some ret_dict)
    self
  = (Raise e, set_instance v' self).
Proof.
  intros Hload Hpre Hget Hf.
  rewrite (VNDBClient_get_default E _ _ _ _ _ _ _ Hload).
  replace fuel with (n + S (fuel - S n)) by lia.
  destruct (get_loop_prefix _ _ _ _ _ _ _ _ _ _ _ _ Hpre (S (fuel - S n)) []
              self eq_refl) as [ret' ->].
  cbn [get_loop]. unfold bind at 1, on_instance.
  fold (page_options p). cbn [instance set_instance]. rewrite Hget.
  reflexivity.
Qed.

(** X16: in item mode a page that is a mapping without ["items"] makes
    [get] fail with the [KeyError] of that key, after the fetch. *)
Theorem get_page_without_items fuel self filters type flags num d v' :
  json_loads E DEFAULT_OPTIONS = Some (JObj [("results", JNum 25)]) ->
  VNDB_get E type flags filters (page_options 1) (instance self)
  = (Ok (JObj d), v') ->
  dict_get "items" d = None ->
  VNDBClient_get E (S fuel) filters type flags num DEFAULT_OPTIONS (Some true)
    self
  = (Raise (KeyError "items"), set_instance v' self).
Proof.
  intros Hload Hget Hd.
  rewrite (VNDBClient_get_default E _ _ _ _ _ _ _ Hload).
  cbn [get_loop]. unfold bind at 1, on_instance.
  fold (page_options 1). rewrite Hget.
  unfold bind, pure. cbn [subscript dict_get String.eqb Ascii.eqb Bool.eqb
                          add_int]. now rewrite Hd.
Qed.

(** X17: with no limit and the default options, in raw mode, [get] returns
    the pages themselves, in order, and returns exactly when the run of
    fetches succeeds. *)
Theorem get_all_pages_raw fuel self filters type flags ret c' :
  json_loads E DEFAULT_OPTIONS = Some (JObj [("results", JNum 25)]) ->
  VNDBClient_get E fuel filters type flags None DEFAULT_OPTIONS (Some false)
    self = (Ok ret, c')
  <-> exists pages v',
        fetch_run E type flags filters false None 1 0 (instance self) pages v'
        /\ List.length pages <= fuel
        /\ ret = concat pages
        /\ c' = set_instance v' self.
Proof.
  intros Hload.
  rewrite (VNDBClient_get_default E _ _ _ _ _ _ _ Hload). split.
  - intros H. apply (get_loop_inv E _ _ _ None false fuel I) in H. exact H.
  - intros (pages & v' & Hrun & Hlen & -> & ->).
    now rewrite (get_loop_run E _ _ _ _ _ _ _ _ _ _ Hrun I fuel [] self
                   eq_refl).
Qed.

Lemma client_grows_by_step n c v1 c' :
  grows_by 1 (instance c) v1 ->
  client_grows_by n (set_instance v1 c) c' ->
  client_grows_by (S n) c c'.
Proof.
  intros H1 [H2 Hrd]. split; [|exact Hrd].
  apply (grows_by_trans 1 n _ _ _ H1 H2).
Qed.

Lemma client_grows_by_one n c v1 :
  grows_by 1 (instance c) v1 ->
  client_grows_by (S n) c (set_instance v1 c).
Proof.
  intros H. split; [|reflexivity].
  apply (grows_by_le 1); [lia|exact H].
Qed.

Lemma get_loop_grows fuel : forall type flags filters num ret_dict od N ret c,
  client_grows_by fuel c
    (snd (get_loop E fuel type flags filters num ret_dict od N ret c)).
Proof.
  induction fuel as [|fuel IH]; intros.
  - split; [apply grows_by_refl|reflexivity].
  - cbn [get_loop]. unfold bind at 1, on_instance.
    pose proof (VNDB_get_grows_by E type flags filters
                  (json_dumps (JObj od)) (instance c)) as Hg.
    destruct (VNDB_get E type flags filters (json_dumps (JObj od))
                (instance c)) as [[d| | |] v1]; cbn [snd] in Hg;
      try (now apply client_grows_by_one).
    destruct ret_dict; unfold bind, pure, mreturn; cbv beta iota;
      repeat (match goal with
              | |- context [match subscript ?a ?k with _ => _ end] =>
                  destruct (subscript a k)
              | |- context [match add_int ?a ?k with _ => _ end] =>
                  destruct (add_int a k)
              | |- context [match int_add ?a ?k with _ => _ end] =>
                  destruct (int_add a k)
              | |- context [match py_len ?a with _ => _ end] =>
                  destruct (py_len a)
              | |- context [match py_iter ?a with _ => _ end] =>
                  destruct (py_iter a)
              | |- context [if ?b then _ else _] => destruct b
              end; cbv beta iota; cbn [snd]);
      try (now apply client_grows_by_one);
      try (apply (client_grows_by_step _ _ v1); [exact Hg|apply IH]).
Qed.

(** X15: a paginated [get] only makes the client grow: it sends at most one
    frame for each turn of its loop, adds to the cache no more entries than
    it sends frames, leaves the entries and the frames there were in place,
    and changes neither the lifetime of the cache nor the default mode. *)
Theorem VNDBClient_get_grows fuel filters type flags num options ret_dict self :
  client_grows_by fuel self
    (snd (VNDBClient_get E fuel filters type flags num options ret_dict self)).
Proof.
  unfold VNDBClient_get, bind, mreturn, raise.
  destruct (String.eqb options EmptyString).
  - apply get_loop_grows.
  - destruct (json_loads E options) as [[| | | | |d]|];
      try (split; [apply grows_by_refl|reflexivity]).
    apply get_loop_grows.
Qed.

End PaginationMore.

Lemma run_raise {S A} (m : M S A) (s : S) (e : exn) :
  fst (m s) = Raise e -> m s = (Raise e, snd (m s)).
Proof. destruct (m s) as [o s']. simpl. now intros ->. Qed.

Lemma get_limit_zero_witness :
  VNDBClient_get three_pages 1 demo_filter "vn" "basic" (Some 0%Z)
    DEFAULT_OPTIONS (Some true) (Ref.client Ref.socket)
  = (Ok [], set_instance (after_first_page three_pages)
              (Ref.client Ref.socket)).
Proof.
  apply (get_limit_zero three_pages 0 (Ref.client Ref.socket) demo_filter
           "vn" "basic" true (demo_page [JNum 1; JNum 2] true)
           (after_first_page three_pages) [JNum 1; JNum 2] 2 true).
  - reflexivity.
  - apply run_result. vm_compute. reflexivity.
  - apply (demo_yields [JNum 1; JNum 2] true).
  - lia.
Defined.

Lemma get_gives_up_on_error_witness :
  fst (VNDBClient_get throttling 3 demo_filter "vn" "basic" None
         DEFAULT_OPTIONS (Some true) (Ref.client Ref.socket))
  = Raise (vndbException
             (JStr "Throttled, limit of 100 commands per 10 minutes")).
Proof.
  rewrite (get_gives_up_on_error throttling 3 (Ref.client Ref.socket)
             demo_filter "vn" "basic" None true 1 2 2
             (after_first_page throttling)
             (vndbException
                (JStr "Throttled, limit of 100 commands per 10 minutes"))
             (snd (VNDB_get throttling "vn" "basic" demo_filter
                     (page_options 2) (after_first_page throttling)))).
  - reflexivity.
  - reflexivity.
  - apply (prefix_page _ _ _ _ _ _ 1 0 _ (demo_page [JNum 1; JNum 2] true)
             (after_first_page throttling) [JNum 1; JNum 2] 2%Z 0 2 2
             (after_first_page throttling));
      [apply run_result; vm_compute; reflexivity
      |apply (demo_yields [JNum 1; JNum 2] true)
      |simpl; tauto
      |apply prefix_none].
  - apply run_raise. vm_compute. reflexivity.
  - lia.
Defined.

Lemma get_page_without_items_witness :
  fst (VNDBClient_get itemless 1 demo_filter "vn" "basic" None
         DEFAULT_OPTIONS (Some true) (Ref.client Ref.socket))
  = Raise (KeyError "items").
Proof.
  rewrite (get_page_without_items itemless 0 (Ref.client Ref.socket)
             demo_filter "vn" "basic" None [("more", JBool false)]
             (after_first_page itemless)).
  - reflexivity.
  - reflexivity.
  - apply run_result. vm_compute. reflexivity.
  - reflexivity.
Defined.

Lemma get_all_pages_raw_witness :
  fst (VNDBClient_get three_pages 3 demo_filter "vn" "basic" None
         DEFAULT_OPTIONS (Some false) (Ref.client Ref.socket))
  = Ok [demo_page [JNum 1; JNum 2] true; demo_page [JNum 3; JNum 4] true;
        demo_page [JNum 5; JNum 6] false].
Proof.
  set (v1 := snd (VNDB_get three_pages "vn" "basic" demo_filter
                    (page_options 1) Ref.socket)).
  set (v2 := snd (VNDB_get three_pages "vn" "basic" demo_filter
                    (page_options 2) v1)).
  set (v3 := snd (VNDB_get three_pages "vn" "basic" demo_filter
                    (page_options 3) v2)).
  rewrite (proj2 (get_all_pages_raw three_pages 3 (Ref.client Ref.socket)
                    demo_filter "vn" "basic"
                    [demo_page [JNum 1; JNum 2] true;
                     demo_page [JNum 3; JNum 4] true;
                     demo_page [JNum 5; JNum 6] false]
                    (set_instance v3 (Ref.client Ref.socket)) eq_refl));
    [reflexivity|].
  exists [[demo_page [JNum 1; JNum 2] true];
          [demo_page [JNum 3; JNum 4] true];
          [demo_page [JNum 5; JNum 6] false]], v3.
  split; [|split; [simpl; lia|split; reflexivity]].
  apply (fetch_next _ _ _ _ _ _ 1 0 _ (demo_page [JNum 1; JNum 2] true) v1
           _ 2%Z);
    [apply run_result; vm_compute; reflexivity
    |apply (demo_yields_raw [JNum 1; JNum 2] true) |simpl; tauto|].
  apply (fetch_next _ _ _ _ _ _ 2 2 _ (demo_page [JNum 3; JNum 4] true) v2
           _ 2%Z);
    [apply run_result; vm_compute; reflexivity
    |apply (demo_yields_raw [JNum 3; JNum 4] true) |simpl; tauto|].
  apply (fetch_stop _ _ _ _ _ _ 3 4 _ (demo_page [JNum 5; JNum 6] false) v3
           _ 2%Z false);
    [apply run_result; vm_compute; reflexivity
    |apply (demo_yields_raw [JNum 5; JNum 6] false) |now left].
Defined.

(* ===================================================================== *)
(** * Further properties: the searches *)
(* ===================================================================== *)

Lemma dict_set_twice k v v' d :
  dict_set k v (dict_set k v' d) = dict_set k v d.
Proof.
  induction d as [|[k0 v0] d IH]; simpl.
  - now rewrite String.eqb_refl.
  - destruct (String.eqb k0 k) eqn:Hk; simpl; rewrite Hk; [reflexivity|].
    now rewrite IH.
Qed.

(** A loop whose body leaves the state alone. *)
Lemma for_each_Forall2 {S A B} (f : A -> M S B) (R : A -> B -> Prop) :
  (forall a s b s', f a s = (Ok b, s') -> R a b /\ s' = s) ->
  forall l s l' s',
    for_each f l s = (Ok l', s') -> Forall2 R l l' /\ s' = s.
Proof.
  intros Hf. induction l as [|a l IH]; intros s l' s' H; cbn [for_each] in H.
  - injection H as <- <-. split; [constructor|reflexivity].
  - apply bind_ok in H as (b & s1 & Hb & H).
    apply bind_ok in H as (bs & s2 & Hbs & H).
    injection H as <- <-.
    apply Hf in Hb as [Hr ->]. apply IH in Hbs as [Hrs ->].
    split; [now constructor|reflexivity].
Qed.

Lemma for_each_again {S A} (f : A -> M S A) :
  (forall a s b s', f a s = (Ok b, s') ->
                    s' = s /\ forall s2, f b s2 = (Ok b, s2)) ->
  forall l s l' s',
    for_each f l s = (Ok l', s') ->
    s' = s /\ forall s2, for_each f l' s2 = (Ok l', s2).
Proof.
  intros Hf. induction l as [|a l IH]; intros s l' s' H; cbn [for_each] in H.
  - injection H as <- <-. split; reflexivity.
  - apply bind_ok in H as (b & s1 & Hb & H).
    apply bind_ok in H as (bs & s2 & Hbs & H).
    injection H as <- <-.
    apply Hf in Hb as [-> Hb]. apply IH in Hbs as [-> Hbs].
    split; [reflexivity|]. intros s3. cbn [for_each]. unfold bind.
    now rewrite Hb, Hbs.
Qed.

Section SearchesMore.

Variable E : Env.

Lemma matches_any_str v s : exists b, matches_any E v (JStr s) = Ok b.
Proof.
  induction v as [|m v [b IH]]; [now exists false|].
  cbn [matches_any]. destruct m as [n|p]; cbn [matches];
    [destruct (eq_str (JStr s) n)|destruct (re_match E p s)]; eauto.
Qed.

Lemma represent_of_key table name r :
  represent_of E table name = Ok r ->
  r = EmptyString \/ In r (map fst table).
Proof.
  induction table as [|[k v] table IH]; cbn [represent_of].
  - intros [= <-]. now left.
  - destruct (matches_any E v name) as [[|]| | |]; try discriminate.
    + destruct (String.eqb k EmptyString) eqn:Hk.
      * intros H. destruct (IH H) as [->|Hin]; [now left|right; now right].
      * intros [= <-]. right. now left.
    + cbn [String.eqb]. intros H.
      destruct (IH H) as [->|Hin]; [now left|right; now right].
Qed.

(** What the body of the inner loop of [search_release] does to a
    producer. *)
Lemma relabel_producer_inv p c p' c' :
  relabel_producer E p c = (Ok p', c') <->
  exists d name r,
    p = JObj d /\ dict_get "name" d = Some name
    /\ represent_of E PROD_DICT name = Ok r
    /\ p' = JObj (dict_set "represent"
                    (if String.eqb r EmptyString then name else JStr r) d)
    /\ c' = c.
Proof.
  unfold relabel_producer. split.
  - intros H.
    apply bind_ok in H as (name & s1 & Hn & H). apply pure_ok in Hn as [Hn ->].
    apply subscript_ok in Hn as (d & -> & Hn).
    apply bind_ok in H as (r & s2 & Hr & H). apply pure_ok in Hr as [Hr ->].
    apply pure_ok in H as [H ->]. cbn [setitem] in H. injection H as <-.
    exists d, name, r. auto.
  - intros (d & name & r & -> & Hn & Hr & -> & ->).
    unfold bind, pure. cbn [subscript]. now rewrite Hn, Hr.
Qed.

Lemma relabel_producer_represented p c p' c' :
  relabel_producer E p c = (Ok p', c') -> represented p p' /\ c' = c.
Proof.
  intros H. apply relabel_producer_inv in H
    as (d & name & r & -> & Hn & Hr & -> & ->).
  split; [|reflexivity]. exists d, name. eexists. repeat split; eauto.
  destruct (String.eqb_spec r EmptyString) as [->|Hne]; [now left|].
  right. exists r. split; [reflexivity|].
  destruct (represent_of_key _ _ _ Hr); [contradiction|assumption].
Qed.

Lemma relabel_producer_again p c p' c' :
  relabel_producer E p c = (Ok p', c') ->
  c' = c /\ forall s2, relabel_producer E p' s2 = (Ok p', s2).
Proof.
  intros H. apply relabel_producer_inv in H
    as (d & name & r & -> & Hn & Hr & -> & ->).
  split; [reflexivity|]. intros s2. apply relabel_producer_inv.
  eexists _, name, r. split; [reflexivity|].
  split; [now rewrite dict_get_set_other by discriminate|].
  split; [exact Hr|]. split; [|reflexivity].
  now rewrite dict_set_twice.
Qed.

(** What the body of the outer loop does to a release. *)
Lemma relabel_release_inv en c en' c' :
  relabel_release E en c = (Ok en', c') <->
  exists d producers prods prods',
    en = JObj d /\ dict_get "producers" d = Some producers
    /\ py_iter producers = Ok prods
    /\ for_each (relabel_producer E) prods c = (Ok prods', c')
    /\ en' = match producers with
             | JArr _ => JObj (dict_set "producers" (JArr prods') d)
             | _ => en
             end.
Proof.
  unfold relabel_release. split.
  - intros H.
    apply bind_ok in H as (producers & s1 & Hp & H).
    apply pure_ok in Hp as [Hp ->].
    apply subscript_ok in Hp as (d & -> & Hp).
    apply bind_ok in H as (prods & s2 & Hi & H).
    apply pure_ok in Hi as [Hi ->].
    apply bind_ok in H as (prods' & s3 & Hf & H).
    exists d, producers, prods, prods'.
    destruct producers; cbn [setitem] in H;
      first [apply pure_ok in H as [H ->]; injection H as <-
            |injection H as <- <-]; auto 6.
  - intros (d & producers & prods & prods' & -> & Hp & Hi & Hf & ->).
    unfold bind, pure. cbn [subscript]. rewrite Hp, Hi, Hf.
    now destruct producers.
Qed.

Lemma relabel_release_relabelled en c en' c' :
  relabel_release E en c = (Ok en', c') -> relabelled en en' /\ c' = c.
Proof.
  intros H. apply relabel_release_inv in H
    as (d & producers & prods & prods' & -> & Hp & Hi & Hf & ->).
  destruct (for_each_Forall2 _ represented relabel_producer_represented
              _ _ _ _ Hf) as [Hf' ->].
  split; [|reflexivity]. exists d, producers. split; [reflexivity|].
  split; [exact Hp|].
  destruct producers; try reflexivity.
  cbn [py_iter] in Hi. injection Hi as <-. eauto.
Qed.

Lemma relabel_release_again en c en' c' :
  relabel_release E en c = (Ok en', c') ->
  c' = c /\ forall s2, relabel_release E en' s2 = (Ok en', s2).
Proof.
  intros H. apply relabel_release_inv in H
    as (d & producers & prods & prods' & -> & Hp & Hi & Hf & ->).
  destruct (for_each_again _ relabel_producer_again _ _ _ _ Hf) as [-> Hf'].
  split; [reflexivity|]. intros s2.
  destruct producers as [| | |str|l|kv].
  1-3: cbn [py_iter] in Hi; discriminate.
  - cbn [py_iter] in Hi. injection Hi as <-.
    apply relabel_release_inv.
    exists d, (JStr str), (map JStr (chars str)), prods'.
    split; [reflexivity|]. split; [exact Hp|]. split; [reflexivity|].
    split; [|reflexivity].
    destruct (chars str) as [|a l].
    + cbn [map for_each] in *. unfold mreturn in *.
      injection Hf as <-. reflexivity.
    + cbn [map for_each] in Hf. apply bind_ok in Hf as (b & s1 & Hb & _).
      apply relabel_producer_inv in Hb as (? & ? & ? & Hb & _). discriminate.
  - apply relabel_release_inv.
    exists (dict_set "producers" (JArr prods') d), (JArr prods'), prods', prods'.
    split; [reflexivity|]. split; [apply dict_get_set_same|].
    split; [reflexivity|]. split; [apply Hf'|].
    now rewrite dict_set_twice.
  - cbn [py_iter] in Hi. injection Hi as <-.
    apply relabel_release_inv.
    exists d, (JObj kv), (map (fun kv => JStr (fst kv)) kv), prods'.
    split; [reflexivity|]. split; [exact Hp|]. split; [reflexivity|].
    split; [|reflexivity].
    destruct kv as [|[k v] kv].
    + cbn [map for_each] in *. unfold mreturn in *.
      injection Hf as <-. reflexivity.
    + cbn [map for_each] in Hf. apply bind_ok in Hf as (b & s1 & Hb & _).
      apply relabel_producer_inv in Hb as (? & ? & ? & Hb & _). discriminate.
Qed.

End SearchesMore.

Lemma join_split_sep sep s : join (str1 sep) (split sep s) = s.
Proof.
  induction s as [|c r IH]; simpl; [reflexivity|].
  pose proof (split_not_nil sep r) as Hne.
  destruct (Ascii.eqb_spec c sep) as [->|Hc].
  - simpl. destruct (split sep r) as [|h t]; [congruence|].
    simpl in *. now rewrite IH.
  - destruct (split sep r) as [|h t]; [congruence|].
    destruct t as [|h' t']; simpl in *; now rewrite <- IH.
Qed.

Lemma list_remove_absent x l : mem x l = false -> list_remove x l = l.
Proof.
  unfold mem. induction l as [|y l IH]; simpl; [reflexivity|].
  intros H. apply orb_false_iff in H as [Hy Hl].
  rewrite String.eqb_sym, Hy. now rewrite IH.
Qed.

Section SearchTheorems.

Variable E : Env.

(** X18: what [search_release] returns is what [get] returned for the
    release query, entry by entry, each with its producers relabelled: every
    producer keeps its fields and gains ["represent"], set to its name or to a
    label of the table; the relabelling itself exchanges nothing with the
    peer. *)
Theorem search_release_relabels fuel pattern flags num options ret_dict c
    ens' c' :
  search_release E fuel pattern flags num options ret_dict c = (Ok ens', c') ->
  exists ens,
    VNDBClient_get E fuel (release_filter E pattern) "release" flags num
      options ret_dict c = (Ok ens, c')
    /\ Forall2 relabelled ens ens'.
Proof.
  unfold search_release, release_filter. intros H.
  apply bind_ok in H as (ens & c1 & Hget & Hfor).
  destruct (for_each_Forall2 _ relabelled (relabel_release_relabelled E)
              _ _ _ _ Hfor) as [Hrel ->].
  exists ens. split; assumption.
Qed.

(** X19: the relabelling is idempotent: applied to releases that it has
    produced, it succeeds and gives them back unchanged. *)
Theorem relabelling_is_idempotent ens c ens' c' :
  for_each (relabel_release E) ens c = (Ok ens', c') ->
  for_each (relabel_release E) ens' c' = (Ok ens', c').
Proof.
  intros H.
  destruct (for_each_again _ (relabel_release_again E) _ _ _ _ H) as [_ Hagain].
  apply Hagain.
Qed.

(** X20: when the first entry that [get] returns for the release query is a
    mapping without ["producers"], [search_release] raises
    [KeyError "producers"]; so it does for a page of a raw result. *)
Theorem search_release_needs_producers fuel pattern flags num options
    ret_dict c d rest c' :
  VNDBClient_get E fuel (release_filter E pattern) "release" flags num
    options ret_dict c = (Ok (JObj d :: rest), c') ->
  dict_get "producers" d = None ->
  search_release E fuel pattern flags num options ret_dict c
  = (Raise (KeyError "producers"), c').
Proof.
  unfold search_release, release_filter. intros Hget Hd.
  unfold bind at 1. rewrite Hget. cbn [for_each].
  unfold bind, relabel_release, pure. cbn [subscript]. now rewrite Hd.
Qed.

(** X21: a producer whose name is a string gets as ["represent"] the label of
    the first rule of the table that its name matches, and its own name when
    none does; a producer whose name is not a string raises [TypeError], from
    the first pattern of the table. *)
Theorem relabel_producer_rule d name c :
  dict_get "name" d = Some name ->
  (forall s, name = JStr s ->
     relabel_producer E (JObj d) c
     = (Ok (JObj (dict_set "represent" (JStr (represent_text E s)) d)), c))
  /\ ((forall s, name <> JStr s) ->
      relabel_producer E (JObj d) c = (Raise TypeError, c)).
Proof.
  intros Hn. split.
  - intros s ->. unfold relabel_producer, bind, pure. cbn [subscript].
    rewrite Hn. unfold represent_text, PROD_DICT.
    cbn [represent_of matches_any matches eq_str].
    destruct (String.eqb s "Heiantei"); [reflexivity|].
    destruct (re_match E "(\S+\s)*Lilith" s); [reflexivity|].
    destruct (String.eqb s "Anim"); [reflexivity|].
    destruct (re_match E "(\S+\s)*Kaguya(\s\S+)*" s); [reflexivity|].
    destruct (String.eqb s "Alice Soft"); reflexivity.
  - intros Hs. unfold relabel_producer, bind, pure. cbn [subscript].
    rewrite Hn. destruct name; try reflexivity. now destruct (Hs s).
Qed.

(** X22: for a pattern that is not an integer, [search_characters] first
    searches the titles for it with a limit of one: when nothing is found it
    raises [IndexError], otherwise it asks for the characters of the first
    title's id. *)
Theorem search_characters_by_title fuel pattern flags num options ret_dict c :
  is_int pattern = false ->
  (forall c1,
     search_vn E fuel pattern "basic" (Some 1%Z) DEFAULT_OPTIONS (Some true)
       None c = (Ok [], c1) ->
     search_characters E fuel pattern flags num options ret_dict c
     = (Raise IndexError, c1))
  /\ (forall vn rest i c1,
        search_vn E fuel pattern "basic" (Some 1%Z) DEFAULT_OPTIONS (Some true)
          None c = (Ok (vn :: rest), c1) ->
        subscript vn "id" = Ok i ->
        search_characters E fuel pattern flags num options ret_dict c
        = VNDBClient_get E fuel ("(vn=" ++ dq (py_format E i) ++ ")")
            "character" flags num options ret_dict c1).
Proof.
  intros Hint. unfold search_characters. rewrite Hint. split.
  - intros c1 H. unfold bind. now rewrite H.
  - intros vn rest i c1 H Hi. unfold bind, pure. now rewrite H, Hi.
Qed.

Lemma attach_nothing fuel release_kwds character_kwds vns : forall c,
  for_each (attach E fuel false false release_kwds character_kwds) vns c
  = (Ok vns, c).
Proof.
  induction vns as [|vn vns IH]; intros c; cbn [for_each]; [reflexivity|].
  unfold bind. cbn. now rewrite IH.
Qed.

(** X23: with neither ["releases"] nor ["characters"] among the flags,
    [full_search] is [search_vn] with the same flags and entries as
    mappings: same result, same exchange with the peer. *)
Theorem full_search_without_attachments fuel pattern flags num options
    release_kwds character_kwds method c :
  mem "releases" (split "," flags) = false ->
  mem "characters" (split "," flags) = false ->
  full_search E fuel pattern flags num options release_kwds character_kwds
    method c
  = search_vn E fuel pattern flags num options (Some true) method c.
Proof.
  intros Hr Hc. unfold full_search. cbv zeta. rewrite Hr, Hc.
  change (String "," EmptyString) with (str1 ",").
  rewrite join_split_sep. unfold bind.
  destruct (search_vn E fuel pattern flags num options (Some true) method c)
    as [[vns| | |] c1]; try reflexivity.
  apply attach_nothing.
Qed.

(** X24: when something is to be attached and the first title found is a
    mapping without ["id"], [full_search] raises [KeyError "id"] after the
    primary search, before any dependent search. *)
Theorem full_search_needs_id fuel pattern flags num options release_kwds
    character_kwds method c d rest c1 :
  mem "releases" (split "," flags) = true
  \/ mem "characters" (split "," flags) = true ->
  search_vn E fuel pattern (primary_flags flags) num options (Some true)
    method c = (Ok (JObj d :: rest), c1) ->
  dict_get "id" d = None ->
  full_search E fuel pattern flags num options release_kwds character_kwds
    method c
  = (Raise (KeyError "id"), c1).
Proof.
  intros Hfl Hvn Hd. unfold full_search. cbv zeta.
  unfold primary_flags in Hvn.
  assert (Hl : (if mem "releases" (split "," flags)
                then list_remove "releases" (split "," flags)
                else split "," flags)
               = list_remove "releases" (split "," flags)).
  { destruct (mem "releases" (split "," flags)) eqn:Hm; [reflexivity|].
    symmetry. now apply list_remove_absent. }
  rewrite Hl.
  set (l := list_remove "releases" (split "," flags)) in *.
  assert (Hl' : (if mem "characters" l then list_remove "characters" l else l)
                = list_remove "characters" l).
  { destruct (mem "characters" l) eqn:Hm; [reflexivity|].
    symmetry. now apply list_remove_absent. }
  rewrite Hl'. unfold bind at 1. rewrite Hvn. cbn [for_each].
  unfold bind at 1. unfold attach.
  destruct (mem "releases" (split "," flags)) eqn:Hm.
  - unfold bind, pure. cbn [subscript]. now rewrite Hd.
  - destruct Hfl as [Hfl|Hfl]; [discriminate|].
    assert (Hc : mem "characters" l = true).
    { subst l. now rewrite list_remove_absent. }
    rewrite Hc. unfold bind, pure, mreturn. cbn [subscript]. now rewrite Hd.
Qed.

End SearchTheorems.

Lemma search_release_relabels_witness :
  exists ens,
    VNDBClient_get catalog 1 (release_filter catalog (JNum 17)) "release"
      "basic,producers" None DEFAULT_OPTIONS (Some true)
      (Ref.client Ref.socket)
    = (Ok ens,
       snd (search_release catalog 1 (JNum 17) "basic,producers" None
              DEFAULT_OPTIONS (Some true) (Ref.client Ref.socket)))
    /\ Forall2 relabelled ens [full_voice_represented].
Proof.
  apply (search_release_relabels catalog 1 (JNum 17) "basic,producers" None
           DEFAULT_OPTIONS (Some true) (Ref.client Ref.socket)).
  apply run_result. vm_compute. reflexivity.
Defined.

Lemma relabelling_is_idempotent_witness :
  for_each (relabel_release catalog) [full_voice_represented]
    (Ref.client Ref.socket)
  = (Ok [full_voice_represented], Ref.client Ref.socket).
Proof.
  apply (relabelling_is_idempotent catalog [full_voice]
           (Ref.client Ref.socket)).
  vm_compute. reflexivity.
Defined.

Lemma search_release_needs_producers_witness :
  search_release catalog 1 (JNum 17) "basic,producers" None DEFAULT_OPTIONS
    (Some false) (Ref.client Ref.socket)
  = (Raise (KeyError "producers"),
     snd (VNDBClient_get catalog 1 (release_filter catalog (JNum 17))
            "release" "basic,producers" None DEFAULT_OPTIONS (Some false)
            (Ref.client Ref.socket))).
Proof.
  apply (search_release_needs_producers catalog 1 (JNum 17) "basic,producers"
           None DEFAULT_OPTIONS (Some false) (Ref.client Ref.socket)
           [("num", JNum 1); ("more", JBool false);
            ("items", JArr [full_voice])] []).
  - apply run_result. vm_compute. reflexivity.
  - reflexivity.
Defined.

Lemma relabel_producer_rule_witness :
  relabel_producer catalog (JObj black_lilith) (Ref.client Ref.socket)
  = (Ok (JObj [("id", JNum 2); ("name", JStr "Black Lilith");
               ("represent", JStr "Lilith")]), Ref.client Ref.socket).
Proof.
  apply (proj1 (relabel_producer_rule catalog black_lilith
                  (JStr "Black Lilith") (Ref.client Ref.socket) eq_refl)
           "Black Lilith" eq_refl).
Defined.

Lemma search_characters_by_title_witness :
  search_characters empty_catalog 1 (JStr "Nothing") "basic" None EmptyString
    (Some true) (Ref.client Ref.socket)
  = (Raise IndexError,
     snd (search_vn empty_catalog 1 (JStr "Nothing") "basic" (Some 1%Z)
            DEFAULT_OPTIONS (Some true) None (Ref.client Ref.socket)))
  /\ search_characters catalog 1 (JStr "Clannad") "basic" None EmptyString
       (Some true) (Ref.client Ref.socket)
     = VNDBClient_get catalog 1 ("(vn=" ++ dq "17" ++ ")") "character" "basic"
         None EmptyString (Some true)
         (snd (search_vn catalog 1 (JStr "Clannad") "basic" (Some 1%Z)
                 DEFAULT_OPTIONS (Some true) None (Ref.client Ref.socket))).
Proof.
  split.
  - apply (proj1 (search_characters_by_title empty_catalog 1 (JStr "Nothing")
                    "basic" None EmptyString (Some true)
                    (Ref.client Ref.socket) eq_refl)).
    apply run_result. vm_compute. reflexivity.
  - apply (proj2 (search_characters_by_title catalog 1 (JStr "Clannad")
                    "basic" None EmptyString (Some true)
                    (Ref.client Ref.socket) eq_refl)
             clannad [] (JNum 17)).
    + apply run_result. vm_compute. reflexivity.
    + reflexivity.
Defined.

Lemma full_search_without_attachments_witness :
  full_search catalog 1 (JStr "Clannad") "basic" None DEFAULT_OPTIONS
    no_kwds no_kwds None (Ref.client Ref.socket)
  = search_vn catalog 1 (JStr "Clannad") "basic" None DEFAULT_OPTIONS
      (Some true) None (Ref.client Ref.socket).
Proof.
  apply (full_search_without_attachments catalog 1 (JStr "Clannad") "basic"
           None DEFAULT_OPTIONS no_kwds no_kwds None (Ref.client Ref.socket));
    reflexivity.
Defined.

Lemma full_search_needs_id_witness :
  full_search anonymous 1 (JStr "Clannad") "basic,releases" None
    DEFAULT_OPTIONS no_kwds no_kwds None (Ref.client Ref.socket)
  = (Raise (KeyError "id"),
     snd (search_vn anonymous 1 (JStr "Clannad")
            (primary_flags "basic,releases") None DEFAULT_OPTIONS (Some true)
            None (Ref.client Ref.socket))).
Proof.
  apply (full_search_needs_id anonymous 1 (JStr "Clannad") "basic,releases"
           None DEFAULT_OPTIONS no_kwds no_kwds None (Ref.client Ref.socket)
           [("title", JStr "Clannad")] []).
  - left. reflexivity.
  - apply run_result. vm_compute. reflexivity.
  - reflexivity.
Defined.

Lemma VNDB_get_keeps_entries_witness :
  List.length (sent Ref.socket)
  < List.length (sent (after_first_page three_pages)).
Proof.
  apply (proj1 (proj2 (proj2 (VNDB_get_keeps_entries three_pages "vn" "basic"
                                demo_filter (page_options 1) Ref.socket)))).
  vm_compute. lia.
Defined.
